(** * The CloudStack modules [cs_domain] and [cs_iso]: a shallow embedding

    The two Ansible modules share the class [AnsibleCloudStack] (the same
    text in both files) and add one subclass each.  The embedding follows
    the Python statement by statement:

    - Python objects are [value]s; a dict is an association list in
      insertion order, [str] and [unicode] are one string type; an
      integer is an [int] of Python 2 while it fits a C long and a
      [long] beyond ([Py.isinstance_int]);
    - a method is a function of the immutable environment [env] (what
      [self.module] and [self.cs] hold) into the monad [M], which threads
      the mutable part of [self] and the log of remote calls;
    - [module.fail_json] ends the process: outcome [Exit]; an uncaught
      Python exception is outcome [Raise];
    - the remote platform is an [oracle]: its answer to a call is a
      function of the calls issued before it.

    [cs_domain.py] is unfinished code: three method headers are not what
    Python accepts ([_get_domain_internal] takes its default from [self],
    [get_name] lacks [self], the [if] of [_update_domain] lacks its colon).
    The bodies are embedded as written, the headers as what they denote:
    methods of the object, the default path being [params.get('path')].
    Names that no scope binds when a statement runs ([key] in
    [_delete_tags], [account] in [absent_domain]) raise [NameError], as
    they do in Python. *)

From Stdlib Require Import String Ascii List ZArith Bool Lia.
From Stdlib Require Import DecimalString DecimalPos DecimalZ.
Import ListNotations.
Open Scope string_scope.

(** ** Python values *)

Set Warnings "-register-all".

Inductive value : Type :=
| VNone
| VBool (b : bool)
| VInt (z : Z)
| VStr (s : string)
| VList (l : list value)
| VDict (d : list (string * value)).

Definition dict := list (string * value).

Inductive exn : Type :=
| NameError (name : string)
| KeyError (key : string)
| IndexError
| TypeError
| ValueError
| AttributeError
| CloudStackException (msg : string)
| Unsupported.

(** [Exit] is [module.fail_json(msg=...)]; [Unsupported] marks Python
    behaviour the embedding does not define ([str] of a list or dict). *)
Inductive outcome (A : Type) : Type :=
| Ok (a : A)
| Exit (msg : string)
| Raise (e : exn).
Arguments Ok {A} a.
Arguments Exit {A} msg.
Arguments Raise {A} e.

Definition obind {A B} (o : outcome A) (k : A -> outcome B) : outcome B :=
  match o with
  | Ok a => k a
  | Exit m => Exit m
  | Raise e => Raise e
  end.

Module Py.

Definition truthy (v : value) : bool :=
  match v with
  | VNone => false
  | VBool b => b
  | VInt z => negb (z =? 0)%Z
  | VStr s => negb (s =? "")
  | VList l => match l with [] => false | _ => true end
  | VDict d => match d with [] => false | _ => true end
  end.

Definition is_none (v : value) : bool :=
  match v with VNone => true | _ => false end.

(** *** Strings *)

Definition lower_ascii (c : ascii) : ascii :=
  let n := nat_of_ascii c in
  if (65 <=? n)%nat && (n <=? 90)%nat then ascii_of_nat (n + 32) else c.

Fixpoint lower (s : string) : string :=
  match s with
  | EmptyString => EmptyString
  | String c r => String (lower_ascii c) (lower r)
  end.

Definition startswith (s p : string) : bool := String.prefix p s.

Fixpoint endswith_char (s : string) (c : ascii) : bool :=
  match s with
  | EmptyString => false
  | String a EmptyString => Ascii.eqb a c
  | String _ r => endswith_char r c
  end.

Fixpoint is_sub (p s : string) : bool :=
  String.prefix p s ||
  match s with
  | EmptyString => false
  | String _ r => is_sub p r
  end.

(** [s.split('/')]: never empty. *)
Fixpoint split_slash (s : string) : list string :=
  match s with
  | EmptyString => [EmptyString]
  | String c r =>
      if Ascii.eqb c "/"%char then EmptyString :: split_slash r
      else match split_slash r with
           | [] => [String c EmptyString]
           | h :: t => String c h :: t
           end
  end.

(** ['/'.join(l)] *)
Fixpoint join_slash (l : list string) : string :=
  match l with
  | [] => EmptyString
  | [x] => x
  | x :: r => x ++ "/" ++ join_slash r
  end.

(** [l[:-1]] and [l[-1:]] *)
Definition but_last {A} (l : list A) : list A := removelast l.
Fixpoint last_slice {A} (l : list A) : list A :=
  match l with
  | [] => []
  | [x] => [x]
  | _ :: r => last_slice r
  end.

(** *** Equality, [==] *)

Fixpoint lookup (k : string) (d : dict) : option value :=
  match d with
  | [] => None
  | (k', v) :: r => if k' =? k then Some v else lookup k r
  end.

Definition int_like (v : value) : option Z :=
  match v with
  | VInt z => Some z
  | VBool b => Some (if b then 1 else 0)%Z
  | _ => None
  end.

Fixpoint eqb (a b : value) {struct a} : bool :=
  match a, b with
  | VNone, VNone => true
  | VStr s, VStr t => String.eqb s t
  | VList l, VList m =>
      (fix go (l m : list value) {struct l} : bool :=
         match l, m with
         | [], [] => true
         | x :: l', y :: m' => eqb x y && go l' m'
         | _, _ => false
         end) l m
  | VDict d, VDict e =>
      Nat.eqb (length d) (length e) &&
      (fix go (d : list (string * value)) {struct d} : bool :=
         match d with
         | [] => true
         | (k, v) :: d' =>
             match lookup k e with
             | Some w => eqb v w
             | None => false
             end && go d'
         end) d
  | (VInt _ | VBool _), (VInt _ | VBool _) =>
      match int_like a, int_like b with
      | Some x, Some y => (x =? y)%Z
      | _, _ => false
      end
  | _, _ => false
  end.

(** *** [int(v)] and [str(v)] *)

Definition is_space (c : ascii) : bool :=
  let n := nat_of_ascii c in
  (n =? 32)%nat || ((9 <=? n)%nat && (n <=? 13)%nat).

Fixpoint lstrip (s : string) : string :=
  match s with
  | EmptyString => EmptyString
  | String c r => if is_space c then lstrip r else s
  end.

Fixpoint rstrip (s : string) : string :=
  match s with
  | EmptyString => EmptyString
  | String c r =>
      match rstrip r with
      | EmptyString => if is_space c then EmptyString else String c EmptyString
      | r' => String c r'
      end
  end.

Definition digit_of (c : ascii) : option Z :=
  let n := nat_of_ascii c in
  if (48 <=? n)%nat && (n <=? 57)%nat then Some (Z.of_nat (n - 48)) else None.

Fixpoint parse_digits (s : string) (acc : Z) : option Z :=
  match s with
  | EmptyString => Some acc
  | String c r =>
      match digit_of c with
      | Some d => parse_digits r (10 * acc + d)%Z
      | None => None
      end
  end.

Definition parse_unsigned (s : string) : option Z :=
  match s with
  | EmptyString => None
  | _ => parse_digits s 0%Z
  end.

Definition parse_int (s : string) : option Z :=
  match rstrip (lstrip s) with
  | String "+"%char r => parse_unsigned r
  | String "-"%char r => option_map Z.opp (parse_unsigned r)
  | t => parse_unsigned t
  end.

Definition int (v : value) : outcome Z :=
  match v with
  | VInt z => Ok z
  | VBool b => Ok (if b then 1 else 0)%Z
  | VStr s => match parse_int s with Some z => Ok z | None => Raise ValueError end
  | _ => Raise TypeError
  end.

Definition str_of_Z (z : Z) : string := NilZero.string_of_int (Z.to_int z).

(** [str(v)] of a scalar.  Of a list or a dict Python returns the [repr],
    which depends on what the embedding does not hold (the [u] prefix of
    a unicode string, the order of a dict): there the embedding gives
    [Unsupported], and the statements about [str] are made for scalars
    or under the hypothesis that [str] is defined. *)
Definition str (v : value) : outcome string :=
  match v with
  | VNone => Ok "None"
  | VBool b => Ok (if b then "True" else "False")
  | VInt z => Ok (str_of_Z z)
  | VStr s => Ok s
  | _ => Raise Unsupported
  end.

(** *** [isinstance(v, int)] and [isinstance(v, str)]

    Python 2 keeps an integer as an [int] as long as it fits a C long
    (of 64 bits here: [sys.maxint] is [2**63 - 1]) and as a [long]
    beyond; a [long] is no instance of [int].  [bool] is a subclass of
    [int]. *)
Definition maxint : Z := 9223372036854775807.

Definition isinstance_int (v : value) : bool :=
  match v with
  | VInt z => ((- maxint - 1 <=? z) && (z <=? maxint))%Z
  | VBool _ => true
  | _ => false
  end.

Definition isinstance_str (v : value) : bool :=
  match v with
  | VStr _ => true
  | _ => false
  end.

(** *** Items, membership, iteration *)

(** [v[k]] for a string [k] *)
Definition getitem (v : value) (k : string) : outcome value :=
  match v with
  | VDict d => match lookup k d with Some x => Ok x | None => Raise (KeyError k) end
  | _ => Raise TypeError
  end.

(** [v[0]] *)
Definition first (v : value) : outcome value :=
  match v with
  | VList (x :: _) => Ok x
  | VList [] => Raise IndexError
  | VStr (String c _) => Ok (VStr (String c EmptyString))
  | VStr EmptyString => Raise IndexError
  | VDict _ => Raise (KeyError "0")
  | _ => Raise TypeError
  end.

Definition in_list (x : value) (l : list value) : bool :=
  existsb (eqb x) l.

(** [x in c] *)
Definition contains (x c : value) : outcome bool :=
  match c with
  | VList l => Ok (in_list x l)
  | VDict d =>
      match x with
      | VStr k => Ok (match lookup k d with Some _ => true | None => false end)
      | VList _ | VDict _ => Raise TypeError
      | _ => Ok false
      end
  | VStr s =>
      match x with
      | VStr p => Ok (is_sub p s)
      | _ => Raise TypeError
      end
  | _ => Raise TypeError
  end.

(** [for x in v] *)
Definition iter (v : value) : outcome (list value) :=
  match v with
  | VList l => Ok l
  | VDict d => Ok (map (fun kv => VStr (fst kv)) d)
  | VStr s => Ok (map (fun c => VStr (String c EmptyString)) (list_ascii_of_string s))
  | _ => Raise TypeError
  end.

(** [v.lower()] *)
Definition lower_of (v : value) : outcome string :=
  match v with
  | VStr s => Ok (lower s)
  | _ => Raise AttributeError
  end.

(** [d[k] = v] *)
Fixpoint setitem (d : dict) (k : string) (v : value) : dict :=
  match d with
  | [] => [(k, v)]
  | (k', x) :: r => if k' =? k then (k', v) :: r else (k', x) :: setitem r k v
  end.

(** [d.get(k)] *)
Definition get (d : dict) (k : string) : value :=
  match lookup k d with Some v => v | None => VNone end.

End Py.

(** ** The invocation: environment, object state, remote calls *)

Record call : Type := Call { action : string; args : dict }.

(** What a call [self.cs.<action>] with keyword arguments gives back: the decoded response, or
    the [CloudStackException] the client library raises. *)
Inductive response : Type :=
| Reply (v : value)
| Fault (msg : string).

(** The platform answers a call from the calls it has received so far. *)
Definition oracle := list call -> call -> response.

(** [self.module.params], [self.module.check_mode] and [self.cs]. *)
Record env : Type := Env {
  params : dict;
  check_mode : bool;
  cs : oracle
}.

(** The attributes of [self] that the methods assign. *)
Record self_t : Type := Self {
  result : dict;
  domain : value;
  account : value;
  project : value;
  zone : value;
  os_type : value;
  hypervisor : value;
  iso : value
}.

Record world : Type := World { self : self_t; log : list call }.

(** [AnsibleCloudStack.__init__] *)
Definition init_self : self_t :=
  {| result := [("changed", VBool false)];
     domain := VNone; account := VNone; project := VNone; zone := VNone;
     os_type := VNone; hypervisor := VNone; iso := VNone |}.

Definition init_world : world := {| self := init_self; log := [] |}.

Definition M (A : Type) : Type := world -> outcome A * world.

Definition ret {A} (a : A) : M A := fun w => (Ok a, w).

Definition bind {A B} (m : M A) (k : A -> M B) : M B :=
  fun w =>
    match m w with
    | (Ok a, w') => k a w'
    | (Exit msg, w') => (Exit msg, w')
    | (Raise e, w') => (Raise e, w')
    end.

Declare Scope py_scope.
Delimit Scope py_scope with py.
Notation "x <- m ;; k" := (bind m (fun x => k))
  (at level 61, m at next level, right associativity) : py_scope.
Notation "m ;;; k" := (bind m (fun _ => k))
  (at level 61, right associativity) : py_scope.
Open Scope py_scope.

Definition lift {A} (o : outcome A) : M A := fun w => (o, w).
Definition fail_json {A} (msg : string) : M A := lift (Exit msg).
Definition raise {A} (e : exn) : M A := lift (Raise e).

(** [fail_json(msg=pre + "%s" + post % v)] *)
Definition fail_fmt {A} (pre : string) (v : value) (post : string) : M A :=
  s <- lift (Py.str v) ;; fail_json (pre ++ s ++ post).

Definition gets {A} (f : self_t -> A) : M A := fun w => (Ok (f (self w)), w).

Definition modify (f : self_t -> self_t) : M unit :=
  fun w => (Ok tt, {| self := f (self w); log := log w |}).

Definition set_result (r : dict) (s : self_t) : self_t :=
  {| result := r; domain := domain s; account := account s;
     project := project s; zone := zone s; os_type := os_type s;
     hypervisor := hypervisor s; iso := iso s |}.
Definition set_domain (v : value) (s : self_t) : self_t :=
  {| result := result s; domain := v; account := account s;
     project := project s; zone := zone s; os_type := os_type s;
     hypervisor := hypervisor s; iso := iso s |}.
Definition set_account (v : value) (s : self_t) : self_t :=
  {| result := result s; domain := domain s; account := v;
     project := project s; zone := zone s; os_type := os_type s;
     hypervisor := hypervisor s; iso := iso s |}.
Definition set_project (v : value) (s : self_t) : self_t :=
  {| result := result s; domain := domain s; account := account s;
     project := v; zone := zone s; os_type := os_type s;
     hypervisor := hypervisor s; iso := iso s |}.
Definition set_zone (v : value) (s : self_t) : self_t :=
  {| result := result s; domain := domain s; account := account s;
     project := project s; zone := v; os_type := os_type s;
     hypervisor := hypervisor s; iso := iso s |}.
Definition set_os_type (v : value) (s : self_t) : self_t :=
  {| result := result s; domain := domain s; account := account s;
     project := project s; zone := zone s; os_type := v;
     hypervisor := hypervisor s; iso := iso s |}.
Definition set_hypervisor (v : value) (s : self_t) : self_t :=
  {| result := result s; domain := domain s; account := account s;
     project := project s; zone := zone s; os_type := os_type s;
     hypervisor := v; iso := iso s |}.
Definition set_iso (v : value) (s : self_t) : self_t :=
  {| result := result s; domain := domain s; account := account s;
     project := project s; zone := zone s; os_type := os_type s;
     hypervisor := hypervisor s; iso := v |}.

(** [self.result[k] = v] *)
Definition result_set (k : string) (v : value) : M unit :=
  modify (fun s => set_result (Py.setitem (result s) k v) s).

(** [self.result['changed'] = True] *)
Definition mark_changed : M unit := result_set "changed" (VBool true).

(** A call [self.cs.<action>] with keyword arguments [args]: it is
    logged, then answered. *)
Definition api (E : env) (action : string) (args : dict) : M value :=
  fun w =>
    let c := Call action args in
    let w' := {| self := self w; log := log w ++ [c] |} in
    match cs E (log w) c with
    | Reply v => (Ok v, w')
    | Fault msg => (Raise (CloudStackException msg), w')
    end.

(** [self.module.params.get(k)] *)
Definition param (E : env) (k : string) : value := Py.get (params E) k.

(** The calls that change the platform. *)
Definition mutating (c : call) : bool :=
  existsb (String.eqb (action c))
    ["createDomain"; "updateDomain"; "deleteDomain"; "registerIso";
     "deleteIso"; "createTags"; "deleteTags"].

(** The loop [for x in l: if test(x): <keep x and leave>]: the first
    element that passes, an exception of the test ends the loop. *)
Fixpoint first_match (test : value -> outcome bool) (l : list value)
  : outcome (option value) :=
  match l with
  | [] => Ok None
  | x :: r =>
      match test x with
      | Ok true => Ok (Some x)
      | Ok false => first_match test r
      | Exit m => Exit m
      | Raise e => Raise e
      end
  end.

Notation "'let!' x := o 'in' k" := (obind o (fun x => k))
  (at level 10, x name, k at level 200).

(** ** [class AnsibleCloudStack], the part common to both modules *)

Module AnsibleCloudStack.

(** [has_changed(want_dict, current_dict, only_keys)].  The method
    assigns into [current_dict], the caller's object: the dict as the
    method leaves it is returned next to the answer.  [want_dict] is
    taken in the order in which the loop visits its items. *)
Fixpoint has_changed (want_dict current_dict : dict) (only_keys : value)
  : outcome (bool * dict) :=
  match want_dict with
  | [] => Ok (false, current_dict)
  | (key, value) :: rest =>
      let! skip :=
        if Py.truthy only_keys
        then let! b := Py.contains (VStr key) only_keys in Ok (negb b)
        else Ok false in
      if skip then has_changed rest current_dict only_keys
      else if Py.is_none value then has_changed rest current_dict only_keys
      else
        match Py.lookup key current_dict with
        | None => has_changed rest current_dict only_keys
        | Some cur =>
            let! current_dict :=
              if Py.isinstance_int value then
                let! z := Py.int cur in
                Ok (Py.setitem current_dict key (VInt z))
              else if Py.isinstance_str value then
                let! s := Py.str cur in
                Ok (Py.setitem current_dict key (VStr s))
              else Ok current_dict in
            let! cur := Py.getitem (VDict current_dict) key in
            if negb (Py.eqb value cur) then Ok (true, current_dict)
            else has_changed rest current_dict only_keys
        end
  end.

Definition _has_changed := has_changed.

(** [_get_by_key(key, my_dict)] *)
Definition _get_by_key (key : option string) (my_dict : value) : M value :=
  match key with
  | Some k =>
      if Py.truthy (VStr k) then
        b <- lift (Py.contains (VStr k) my_dict) ;;
        if b then lift (Py.getitem my_dict k)
        else fail_json ("Something went wrong: " ++ k ++ " not found")
      else ret my_dict
  | None => ret my_dict
  end.

(** The listed entities of a truthy response, [resp[field]], searched
    for the first one that passes [test]; [None] when the response is
    falsy or nothing passes. *)
Definition search (resp : value) (field : string)
           (test : value -> outcome bool) : M (option value) :=
  if Py.truthy resp then
    l <- lift (let! x := Py.getitem resp field in Py.iter x) ;;
    lift (first_match test l)
  else ret None.

(** [d['path'].lower() in [domain.lower(), "root/" + domain.lower(),
    "root" + domain.lower()]] *)
Definition domain_test (domain d : value) : outcome bool :=
  let! p := Py.getitem d "path" in
  let! pl := Py.lower_of p in
  let! dl := Py.lower_of domain in
  Ok (Py.in_list (VStr pl) [VStr dl; VStr ("root/" ++ dl); VStr ("root" ++ dl)]).

(** [get_domain(key)] *)
Definition get_domain (E : env) (key : option string) : M value :=
  cached <- gets domain ;;
  if Py.truthy cached then _get_by_key key cached else
  let domain := param E "domain" in
  if negb (Py.truthy domain) then ret VNone else
  domains <- api E "listDomains" [("listall", VBool true)] ;;
  found <- search domains "domain" (domain_test domain) ;;
  match found with
  | Some d => modify (set_domain d) ;;; _get_by_key key d
  | None => fail_fmt "Domain '" domain "' not found"
  end.

(** [get_account(key)] *)
Definition get_account (E : env) (key : option string) : M value :=
  cached <- gets account ;;
  if Py.truthy cached then _get_by_key key cached else
  let account := param E "account" in
  if negb (Py.truthy account) then ret VNone else
  let domain := param E "domain" in
  if negb (Py.truthy domain)
  then fail_json "Account must be specified with Domain" else
  domainid <- get_domain E (Some "id") ;;
  accounts <- api E "listAccounts"
    [("name", account); ("domainid", domainid); ("listall", VBool true)] ;;
  if Py.truthy accounts then
    a <- lift (let! l := Py.getitem accounts "account" in Py.first l) ;;
    modify (set_account a) ;;;
    _get_by_key key a
  else fail_fmt "Account '" account "' not found".

(** [project.lower() in [p['name'].lower(), p['id']]] *)
Definition project_test (project p : value) : outcome bool :=
  let! sel := Py.lower_of project in
  let! n := Py.getitem p "name" in
  let! nl := Py.lower_of n in
  let! i := Py.getitem p "id" in
  Ok (Py.in_list (VStr sel) [VStr nl; i]).

(** [get_project(key)] *)
Definition get_project (E : env) (key : option string) : M value :=
  cached <- gets project ;;
  if Py.truthy cached then _get_by_key key cached else
  let project := param E "project" in
  if negb (Py.truthy project) then ret VNone else
  a <- get_account E (Some "name") ;;
  d <- get_domain E (Some "id") ;;
  projects <- api E "listProjects" [("account", a); ("domainid", d)] ;;
  found <- search projects "project" (project_test project) ;;
  match found with
  | Some p => modify (set_project p) ;;; _get_by_key key p
  | None => fail_fmt "project '" project "' not found"
  end.

(** [zone in [z['name'], z['id']]] *)
Definition zone_test (zone z : value) : outcome bool :=
  let! n := Py.getitem z "name" in
  let! i := Py.getitem z "id" in
  Ok (Py.in_list zone [n; i]).

(** [get_zone(key)] *)
Definition get_zone (E : env) (key : option string) : M value :=
  cached <- gets zone ;;
  if Py.truthy cached then _get_by_key key cached else
  let zone := param E "zone" in
  zones <- api E "listZones" [] ;;
  if negb (Py.truthy zone) then
    z <- lift (let! l := Py.getitem zones "zone" in Py.first l) ;;
    modify (set_zone z) ;;;
    _get_by_key key z
  else
    found <- search zones "zone" (zone_test zone) ;;
    match found with
    | Some z => modify (set_zone z) ;;; _get_by_key key z
    | None => fail_fmt "zone '" zone "' not found"
    end.

(** [os_type in [o['description'], o['id']]] *)
Definition os_type_test (os_type o : value) : outcome bool :=
  let! n := Py.getitem o "description" in
  let! i := Py.getitem o "id" in
  Ok (Py.in_list os_type [n; i]).

(** [get_os_type(key)]: the cached branch reads [self.zone]. *)
Definition get_os_type (E : env) (key : option string) : M value :=
  cached <- gets os_type ;;
  if Py.truthy cached then
    z <- gets zone ;; _get_by_key key z
  else
  let os_type := param E "os_type" in
  if negb (Py.truthy os_type) then ret VNone else
  os_types <- api E "listOsTypes" [] ;;
  found <- search os_types "ostype" (os_type_test os_type) ;;
  match found with
  | Some o => modify (set_os_type o) ;;; _get_by_key key o
  | None => fail_fmt "OS type '" os_type "' not found"
  end.

(** [hypervisor.lower() == h['name'].lower()] *)
Definition hypervisor_test (hypervisor h : value) : outcome bool :=
  let! sel := Py.lower_of hypervisor in
  let! n := Py.getitem h "name" in
  let! nl := Py.lower_of n in
  Ok (String.eqb sel nl).

(** [get_hypervisor()] *)
Definition get_hypervisor (E : env) : M value :=
  cached <- gets hypervisor ;;
  if Py.truthy cached then ret cached else
  let hypervisor := param E "hypervisor" in
  hypervisors <- api E "listHypervisors" [] ;;
  if negb (Py.truthy hypervisor) then
    n <- lift (let! l := Py.getitem hypervisors "hypervisor" in
               let! h := Py.first l in Py.getitem h "name") ;;
    modify (set_hypervisor n) ;;;
    ret n
  else
    l <- lift (let! x := Py.getitem hypervisors "hypervisor" in Py.iter x) ;;
    found <- lift (first_match (hypervisor_test hypervisor) l) ;;
    match found with
    | Some h =>
        n <- lift (Py.getitem h "name") ;;
        modify (set_hypervisor n) ;;;
        ret n
    | None => fail_fmt "Hypervisor '" hypervisor "' not found"
    end.

(** [get_tags(resource)] *)
Definition get_tags (E : env) (resource : value) : M value :=
  rid <- lift (Py.getitem resource "id") ;;
  existing_tags <- api E "listTags" [("resourceid", rid)] ;;
  if Py.truthy existing_tags then lift (Py.getitem existing_tags "tag")
  else ret (VList []).

(** The loop of [_delete_tags].  In the branch of a key found in
    [tags], [existing_tag['value']] is read and then [tags[key]], where
    no [key] is bound. *)
Fixpoint tags_to_delete (existing_tags : list value) (tags : value)
  : outcome (list value) :=
  match existing_tags with
  | [] => Ok []
  | existing_tag :: rest =>
      let! k := Py.getitem existing_tag "key" in
      let! found := Py.contains k tags in
      if found then
        let! _v := Py.getitem existing_tag "value" in
        Raise (NameError "key")
      else
        let! r := tags_to_delete rest tags in
        Ok (existing_tag :: r)
  end.

(** [_delete_tags(resource, resource_type, tags)] *)
Definition _delete_tags (E : env) (resource resource_type tags : value)
  : M unit :=
  existing_tags <- lift (let! x := Py.getitem resource "tags" in Py.iter x) ;;
  to_delete <- lift (tags_to_delete existing_tags tags) ;;
  if Py.truthy (VList to_delete) then
    mark_changed ;;;
    if negb (check_mode E) then
      rid <- lift (Py.getitem resource "id") ;;
      _ <- api E "deleteTags"
             [("resourceids", rid); ("resourcetype", resource_type);
              ("tags", VList to_delete)] ;;
      ret tt
    else ret tt
  else ret tt.

(** The loop of [_create_tags]. *)
Fixpoint tags_to_create (tags : list value) : outcome (list value) :=
  match tags with
  | [] => Ok []
  | tag_entry :: rest =>
      let! k := Py.getitem tag_entry "key" in
      let! v := Py.getitem tag_entry "value" in
      let! r := tags_to_create rest in
      Ok (VDict [("key", k); ("value", v)] :: r)
  end.

(** [_create_tags(resource, resource_type, tags)] *)
Definition _create_tags (E : env) (resource resource_type tags : value)
  : M unit :=
  entries <- lift (Py.iter tags) ;;
  to_create <- lift (tags_to_create entries) ;;
  if Py.truthy (VList to_create) then
    mark_changed ;;;
    if negb (check_mode E) then
      rid <- lift (Py.getitem resource "id") ;;
      _ <- api E "createTags"
             [("resourceids", rid); ("resourcetype", resource_type);
              ("tags", VList to_create)] ;;
      ret tt
    else ret tt
  else ret tt.

(** [ensure_tags(resource, resource_type)]; the resource is returned
    as the method leaves it. *)
Definition ensure_tags (E : env) (resource resource_type : value) : M value :=
  if negb (Py.truthy resource_type) || negb (Py.truthy resource)
  then fail_json "Error: Missing resource or resource_type for tags." else
  has_tags <- lift (Py.contains (VStr "tags") resource) ;;
  if has_tags then
    let tags := param E "tags" in
    if negb (Py.is_none tags) then
      _delete_tags E resource resource_type tags ;;;
      _create_tags E resource resource_type tags ;;;
      t <- get_tags E resource ;;
      match resource with
      | VDict d => ret (VDict (Py.setitem d "tags" t))
      | _ => raise TypeError
      end
    else ret resource
  else ret resource.

(** One round of the loop of [poll_job]: the job is queried; [Some v]
    when the loop is left with [job = v], [None] when it goes on. *)
Definition poll_round (E : env) (job : value) (key : option string)
  : M (option value) :=
  jobid <- lift (Py.getitem job "jobid") ;;
  res <- api E "queryAsyncJobResult" [("jobid", jobid)] ;;
  status <- lift (Py.getitem res "jobstatus") ;;
  ready <- (if negb (Py.eqb status (VInt 0))
            then lift (Py.contains (VStr "jobresult") res)
            else ret false) ;;
  if ready then
    jobresult <- lift (Py.getitem res "jobresult") ;;
    err <- lift (Py.contains (VStr "errortext") jobresult) ;;
    (if err then
       e <- lift (Py.getitem jobresult "errortext") ;;
       fail_fmt "Failed: '" e "'"
     else ret tt) ;;;
    match key with
    | Some k =>
        if Py.truthy (VStr k) then
          has <- lift (Py.contains (VStr k) jobresult) ;;
          if has then v <- lift (Py.getitem jobresult k) ;; ret (Some v)
          else ret (Some job)
        else ret (Some job)
    | None => ret (Some job)
    end
  else ret None.

(** The loop [while True] of [poll_job], for at most [fuel] rounds:
    [None] when the loop has not been left by then.  Between two rounds
    the source sleeps ([time.sleep(2)]), which changes nothing here. *)
Fixpoint poll_loop (fuel : nat) (E : env) (job : value) (key : option string)
  : M (option value) :=
  match fuel with
  | O => ret None
  | S n =>
      r <- poll_round E job key ;;
      match r with
      | Some v => ret (Some v)
      | None => poll_loop n E job key
      end
  end.

(** [poll_job(job, key)] *)
Definition poll_job (fuel : nat) (E : env) (job : value) (key : option string)
  : M (option value) :=
  has <- lift (Py.contains (VStr "jobid") job) ;;
  if has then poll_loop fuel E job key else ret (Some job).

(** [_poll_job(job, key)] *)
Definition _poll_job := poll_job.

End AnsibleCloudStack.

(** ** [class AnsibleCloudStackDomain] and [main] of [cs_domain.py] *)

Module AnsibleCloudStackDomain.
Import AnsibleCloudStack.

(** [path.lower() == d['path'].lower()] *)
Definition path_test (path : string) (d : value) : outcome bool :=
  let pl := Py.lower path in
  let! p := Py.getitem d "path" in
  let! dl := Py.lower_of p in
  Ok (String.eqb pl dl).

(** The path that [_get_domain_internal] looks for. *)
Definition rooted (path : string) : string :=
  let path := Py.lower path in
  if Py.startswith path "/" && negb (Py.startswith path "/root/")
  then "root" ++ path
  else if negb (Py.startswith path "root/") then "root/" ++ path
  else path.

(** [_get_domain_internal(path)]; called without argument, [path] is
    [params.get('path')].  A loop that ends without a match returns
    [None]. *)
Definition _get_domain_internal (E : env) (path : value) : M value :=
  match path with
  | VStr p =>
      if Py.endswith_char p "/"
      then fail_json "Path must not end with /" else
      let path := rooted p in
      domains <- api E "listDomains" [("listall", VBool true)] ;;
      found <- search domains "domain" (path_test path) ;;
      match found with
      | Some d => ret d
      | None => ret VNone
      end
  | _ => raise AttributeError
  end.

(** [get_name()]: the slice [[-1:]], a list of one string.  The header
    of the source is [def get_name():], without [self], so that the call
    [self.get_name()] of [_create_domain] raises [TypeError] as written;
    the body is embedded as the method that the call asks for. *)
Definition get_name (E : env) : M value :=
  match param E "path" with
  | VStr p => ret (VList (map VStr (Py.last_slice (Py.split_slash p))))
  | _ => raise AttributeError
  end.

(** [get_domain(key)], which overrides the common one.  It calls
    [_get_domain_internal()] without argument.  The default of that
    header, [self.module.params.get('path')], is evaluated by Python
    when the class body runs, where no [self] is bound ([NameError]); it
    is embedded as the parameter [path] read at the call. *)
Definition get_domain (E : env) (key : option string) : M value :=
  cached <- gets domain ;;
  (if negb (Py.truthy cached) then
     d <- _get_domain_internal E (param E "path") ;;
     modify (set_domain d)
   else ret tt) ;;;
  d <- gets domain ;;
  _get_by_key key d.

(** [get_parent_domain(key)].  The message of the failure is built
    with ["... % does not exist" % path]: a conversion ["% d"] applied
    to a string, which raises [TypeError] before [fail_json] is
    called. *)
Definition get_parent_domain (E : env) (key : option string) : M value :=
  match param E "path" with
  | VStr p =>
      let path := Py.join_slash (Py.but_last (Py.split_slash p)) in
      parent_domain <- _get_domain_internal E (VStr path) ;;
      if negb (Py.truthy parent_domain) then raise TypeError
      else _get_by_key key parent_domain
  | _ => raise AttributeError
  end.

(** [_create_domain(domain)] *)
Definition _create_domain (E : env) (domain : value) : M value :=
  mark_changed ;;;
  name <- get_name E ;;
  parent <- get_parent_domain E (Some "id") ;;
  let args := [("name", name); ("parrentdomainid", parent);
               ("networkdomain", param E "network_domain")] in
  if negb (check_mode E) then
    res <- api E "createDomain" args ;;
    err <- lift (Py.contains (VStr "errortext") res) ;;
    (if err then
       e <- lift (Py.getitem res "errortext") ;;
       fail_fmt "Failed: '" e "'"
     else ret tt) ;;;
    lift (Py.getitem res "domain")
  else ret domain.

(** [_update_domain(domain)].  [has_changed] assigns into [domain];
    the method's answer comes with the argument as it is left.  As
    written the [if] of the source lacks its colon and the [return] is
    at a level that no block opened: the file is refused by Python.  The
    body is embedded with the colon, the [return] closing the method. *)
Definition _update_domain (E : env) (domain : value) : M (value * value) :=
  id <- lift (Py.getitem domain "id") ;;
  let args := [("id", id); ("networkdomain", param E "network_domain")] in
  match domain with
  | VDict current =>
      r <- lift (_has_changed args current VNone) ;;
      let domain := VDict (snd r) in
      if fst r then
        mark_changed ;;;
        if negb (check_mode E) then
          res <- api E "updateDomain" args ;;
          err <- lift (Py.contains (VStr "errortext") res) ;;
          (if err then
             e <- lift (Py.getitem res "errortext") ;;
             fail_fmt "Failed: '" e "'"
           else ret tt) ;;;
          updated <- lift (Py.getitem res "domain") ;;
          ret (updated, domain)
        else ret (domain, domain)
      else ret (domain, domain)
  | _ => raise TypeError
  end.

(** [present_domain()].  What [_create_domain] and [_update_domain]
    return is dropped; [domain] is the object [self.domain], which
    [_update_domain] may have assigned into. *)
Definition present_domain (E : env) : M value :=
  domain <- get_domain E None ;;
  if negb (Py.truthy domain) then
    _ <- _create_domain E domain ;;
    ret domain
  else
    r <- _update_domain E domain ;;
    modify (set_domain (snd r)) ;;;
    ret (snd r).

(** [absent_domain()].  After [deleteDomain] the test
    ['errortext' in account] reads a name that is not bound: the
    statements after it (the poll of the job) are never reached. *)
Definition absent_domain (E : env) : M value :=
  domain <- get_domain E None ;;
  if Py.truthy domain then
    mark_changed ;;;
    if negb (check_mode E) then
      id <- lift (Py.getitem domain "id") ;;
      _ <- api E "deleteDomain" [("id", id)] ;;
      raise (NameError "account")
    else ret domain
  else ret domain.

(** [if k in src: self.result[rk] = src[k]] *)
Definition report (src : value) (k rk : string) : M unit :=
  b <- lift (Py.contains (VStr k) src) ;;
  if b then v <- lift (Py.getitem src k) ;; result_set rk v
  else ret tt.

(** [get_result(domain)] *)
Definition get_result (domain : value) : M dict :=
  (if Py.truthy domain then
     report domain "name" "name" ;;;
     report domain "path" "path" ;;;
     report domain "parentdomainname" "parent_domain" ;;;
     report domain "state" "state" ;;;
     report domain "networkdomain" "network_domain"
   else ret tt) ;;;
  gets result.

(** The body of [main]'s [try]. *)
Definition run (E : env) : M dict :=
  let state := param E "state" in
  domain <- (if Py.in_list state [VStr "absent"] then absent_domain E
             else present_domain E) ;;
  get_result domain.

(** [main()]: a fresh object, the [try] body, and [fail_json] for a
    [CloudStackException]; [Ok r] is [module.exit_json] of [r]. *)
Definition main (E : env) : outcome dict * world :=
  match run E init_world with
  | (Raise (CloudStackException e), w) =>
      (Exit ("CloudStackException: " ++ e), w)
  | r => r
  end.

End AnsibleCloudStackDomain.

(** ** [class AnsibleCloudStackIso] and [main] of [cs_iso.py] *)

Module AnsibleCloudStackIso.
Import AnsibleCloudStack.

(** [i['checksum'] == checksum] *)
Definition checksum_test (checksum i : value) : outcome bool :=
  let! c := Py.getitem i "checksum" in
  Ok (Py.eqb c checksum).

(** The arguments of the [listIsos] call: [name] is set only when no
    checksum is given. *)
Definition list_isos_args (E : env) (domainid account projectid zoneid : value)
  : dict :=
  let args := [("isready", param E "is_ready");
               ("isofilter", param E "iso_filter");
               ("domainid", domainid); ("account", account);
               ("projectid", projectid); ("zoneid", zoneid)] in
  if negb (Py.truthy (param E "checksum"))
  then (args ++ [("name", param E "name")])%list else args.

(** The choice among the listed ISOs: none for an empty response, the
    first one when no checksum is given, else the first one with this
    checksum. *)
Definition select_iso (checksum isos : value) : outcome (option value) :=
  if Py.truthy isos then
    if negb (Py.truthy checksum) then
      let! l := Py.getitem isos "iso" in
      let! i := Py.first l in
      Ok (Some i)
    else
      let! x := Py.getitem isos "iso" in
      let! l := Py.iter x in
      first_match (checksum_test checksum) l
  else Ok None.

(** [get_iso()] *)
Definition get_iso (E : env) : M value :=
  cached <- gets iso ;;
  (if negb (Py.truthy cached) then
     domainid <- get_domain E (Some "id") ;;
     account <- get_account E (Some "name") ;;
     projectid <- get_project E (Some "id") ;;
     zoneid <- get_zone E (Some "id") ;;
     let args := list_isos_args E domainid account projectid zoneid in
     let checksum := param E "checksum" in
     isos <- api E "listIsos" args ;;
     chosen <- lift (select_iso checksum isos) ;;
     match chosen with
     | Some i => modify (set_iso i)
     | None => ret tt
     end
   else ret tt) ;;;
  gets iso.

(** [register_iso()] *)
Definition register_iso (E : env) : M value :=
  iso <- get_iso E ;;
  if negb (Py.truthy iso) then
    zoneid <- get_zone E (Some "id") ;;
    domainid <- get_domain E (Some "id") ;;
    account <- get_account E (Some "name") ;;
    projectid <- get_project E (Some "id") ;;
    let bootable := param E "bootable" in
    ostypeid <- get_os_type E (Some "id") ;;
    let args := [("zoneid", zoneid); ("domainid", domainid);
                 ("account", account); ("projectid", projectid);
                 ("bootable", bootable); ("ostypeid", ostypeid);
                 ("name", param E "name");
                 ("displaytext", param E "name");
                 ("checksum", param E "checksum");
                 ("isdynamicallyscalable", param E "is_dynamically_scalable");
                 ("isfeatured", param E "is_featured");
                 ("ispublic", param E "is_public")] in
    if Py.truthy bootable && negb (Py.truthy ostypeid)
    then fail_json "OS type 'os_type' is requried if 'bootable=true'." else
    let url := param E "url" in
    let args := (args ++ [("url", url)])%list in
    if negb (Py.truthy url) then fail_json "URL is requried." else
    mark_changed ;;;
    if negb (check_mode E) then
      res <- api E "registerIso" args ;;
      lift (let! l := Py.getitem res "iso" in Py.first l)
    else ret iso
  else ret iso.

(** [remove_iso()] *)
Definition remove_iso (E : env) : M value :=
  iso <- get_iso E ;;
  if Py.truthy iso then
    mark_changed ;;;
    id <- lift (Py.getitem iso "id") ;;
    projectid <- get_project E (Some "id") ;;
    zoneid <- get_zone E (Some "id") ;;
    let args := [("id", id); ("projectid", projectid); ("zoneid", zoneid)] in
    if negb (check_mode E) then
      _ <- api E "deleteIso" args ;;
      ret iso
    else ret iso
  else ret iso.

(** [if k in src: self.result[rk] = src[k]] *)
Definition report (src : value) (k rk : string) : M unit :=
  b <- lift (Py.contains (VStr k) src) ;;
  if b then v <- lift (Py.getitem src k) ;; result_set rk v
  else ret tt.

(** [get_result(iso)] *)
Definition get_result (iso : value) : M dict :=
  (if Py.truthy iso then
     report iso "displaytext" "displaytext" ;;;
     report iso "name" "name" ;;;
     report iso "zonename" "zone" ;;;
     report iso "checksum" "checksum" ;;;
     report iso "status" "status" ;;;
     report iso "isready" "is_ready" ;;;
     report iso "created" "created" ;;;
     report iso "project" "project" ;;;
     report iso "domain" "domain" ;;;
     report iso "account" "account"
   else ret tt) ;;;
  gets result.

(** The body of [main]'s [try]. *)
Definition run (E : env) : M dict :=
  let state := param E "state" in
  iso <- (if Py.in_list state [VStr "absent"] then remove_iso E
          else register_iso E) ;;
  get_result iso.

(** [main()] *)
Definition main (E : env) : outcome dict * world :=
  match run E init_world with
  | (Raise (CloudStackException e), w) =>
      (Exit ("CloudStackException: " ++ e), w)
  | r => r
  end.

End AnsibleCloudStackIso.

(** ** Platforms and invocations used in the examples *)

(** A platform that answers each action with a fixed response. *)
Definition table_cs (t : dict) : oracle :=
  fun _ c => Reply (Py.get t (action c)).

(** Two parameter dicts that agree on every key but [k]. *)
Definition agree_off (k : string) (p q : dict) : Prop :=
  forall k', k' <> k -> Py.get p k' = Py.get q k'.

Definition root_domain : value :=
  VDict [("id", VStr "1"); ("name", VStr "ROOT"); ("path", VStr "ROOT")].

Definition sales_domain : value :=
  VDict [("id", VStr "2"); ("name", VStr "Sales"); ("path", VStr "ROOT/Sales");
         ("networkdomain", VStr "old.com")].

Definition two_domains : dict :=
  [("listDomains",
    VDict [("count", VInt 2); ("domain", VList [root_domain; sales_domain])]);
   ("createDomain", VDict [("domain", VDict [("id", VStr "3")])]);
   ("updateDomain", VDict [("domain", sales_domain)]);
   ("deleteDomain", VDict [("jobid", VStr "j1")])].

Definition list_domains : call := Call "listDomains" [("listall", VBool true)].

(** No listed domain has the path that [_get_domain_internal] looks for:
    the response is empty, or each entry of its [domain] list carries a
    [path] that differs, case apart, from the rooted path. *)
Definition no_domain_matches (path : string) (resp : value) : Prop :=
  Py.truthy resp = false \/
  exists l, Py.getitem resp "domain" = Ok (VList l) /\
    Forall (fun d => exists f dp,
                d = VDict f /\ Py.lookup "path" f = Some (VStr dp) /\
                Py.lower dp <> Py.lower (AnsibleCloudStackDomain.rooted path)) l.


(** Scenario A: the path of the module's own example, on a platform that
    has the root domain only and answers [createDomain] with the new
    domain. *)
Definition customers_domain : value :=
  VDict [("id", VStr "3"); ("name", VStr "customers");
         ("path", VStr "ROOT/customers"); ("parentdomainname", VStr "ROOT")].

Definition root_only : dict :=
  [("listDomains", VDict [("count", VInt 1); ("domain", VList [root_domain])]);
   ("createDomain", VDict [("domain", customers_domain)])].

Definition scenario_A : env :=
  Env [("path", VStr "/ROOT/customers"); ("state", VStr "present")] false
      (table_cs root_only).

(** The same request for a path that the lookup can resolve: a child of
    the existing domain [ROOT/Sales]. *)
Definition scenario_A_nested : env :=
  Env [("path", VStr "Sales/customers"); ("state", VStr "present")] false
      (table_cs two_domains).

(** A platform with one zone, one OS type and one ISO. *)
Definition zone1 : value := VDict [("id", VStr "z1"); ("name", VStr "zone1")].
Definition debian : value :=
  VDict [("id", VStr "os1"); ("description", VStr "Debian")].
Definition debian_iso : value :=
  VDict [("id", VStr "i1"); ("name", VStr "deb"); ("checksum", VStr "abc")].

Definition one_zone : dict :=
  [("listZones", VDict [("count", VInt 1); ("zone", VList [zone1])]);
   ("listOsTypes", VDict [("count", VInt 1); ("ostype", VList [debian])])].

Definition one_iso : dict :=
  (one_zone ++ [("listIsos", VDict [("count", VInt 1); ("iso", VList [debian_iso])])])%list.

(** Zone, then OS type twice, as one invocation resolves them. *)
Definition os_type_twice (E : env) : M (value * value) :=
  AnsibleCloudStack.get_zone E (Some "id") ;;;
  a <- AnsibleCloudStack.get_os_type E (Some "id") ;;
  b <- AnsibleCloudStack.get_os_type E (Some "id") ;;
  ret (a, b).

Definition debian_env : env :=
  Env [("os_type", VStr "Debian")] false (table_cs one_zone).

(** The zone of [one_zone], asked for by its name as listed and in upper
    case. *)
Definition exact_zone_env : env :=
  Env [("zone", VStr "zone1")] false (table_cs one_zone).

(** The current value as [has_changed] compares it: converted to the type
    of the desired value. *)
Definition coerced (want cur : value) : outcome value :=
  if Py.isinstance_int want then let! z := Py.int cur in Ok (VInt z)
  else if Py.isinstance_str want then let! s := Py.str cur in Ok (VStr s)
  else Ok cur.

(** A desired field that counts as a difference: it is not [None], the
    current dict has the key, and the converted current value is not
    equal to the desired one. *)
Definition field_differs (current : dict) (kv : string * value) : Prop :=
  snd kv <> VNone /\
  exists c c', Py.lookup (fst kv) current = Some c /\
               coerced (snd kv) c = Ok c' /\ Py.eqb (snd kv) c' = false.

(** The comparison in the words of the specification: numeric as soon
    as one side is an integer. *)
Definition is_int (v : value) : bool :=
  match v with VInt _ => true | _ => false end.

Definition spec_differs (want cur : value) : bool :=
  if is_int want || is_int cur then
    match Py.int want, Py.int cur with
    | Ok x, Ok y => negb (x =? y)%Z
    | _, _ => true
    end
  else negb (Py.eqb want cur).

(** Scenario B: the domain [ROOT/Sales] has network domain [old.com],
    [example.com] is asked for. *)
Definition scenario_B : env :=
  Env [("path", VStr "ROOT/Sales"); ("state", VStr "present");
       ("network_domain", VStr "example.com")] false (table_cs two_domains).

(** A caller's tag list: entries with [key] and [value]. *)
Definition tag_entry (kv : string * string) : value :=
  VDict [("key", VStr (fst kv)); ("value", VStr (snd kv))].

Definition tag_list (T : list (string * string)) : value :=
  VList (map tag_entry T).

(** The call by which [_create_tags] adds the tags [T]. *)
Definition create_tags_call (rid resource_type : value)
           (T : list (string * string)) : call :=
  Call "createTags"
       [("resourceids", rid); ("resourcetype", resource_type);
        ("tags", tag_list T)].

Definition changed_of (w : world) : value := Py.get (result (self w)) "changed".

(** A platform that keeps tags and does nothing else: [listTags] answers
    the tags created and not deleted by the calls so far (an empty
    response when there is none). *)
Definition call_tags (c : call) : list value :=
  match Py.get (args c) "tags" with
  | VList l => l
  | _ => []
  end.

Fixpoint stored_tags (calls : list call) (acc : list value) : list value :=
  match calls with
  | [] => acc
  | c :: r =>
      if action c =? "createTags" then stored_tags r (acc ++ call_tags c)
      else if action c =? "deleteTags" then
        stored_tags r (filter (fun t => negb (Py.in_list t (call_tags c))) acc)
      else stored_tags r acc
  end.

Definition tag_store_cs : oracle :=
  fun calls c =>
    if action c =? "listTags" then
      match stored_tags calls [] with
      | [] => Reply (VDict [])
      | l => Reply (VDict [("count", VInt (Z.of_nat (length l))); ("tag", VList l)])
      end
    else Reply (VDict [("success", VBool true)]).

Definition prod_tags : list (string * string) := [("env", "prod")].

Definition tags_env : env :=
  Env [("tags", tag_list prod_tags)] false tag_store_cs.

Definition untagged : value := VDict [("id", VStr "r1"); ("tags", VList [])].

(** [ensure_tags] with the same tag list twice: the second call is a
    fresh invocation, on the resource as the first one returned it and
    on the platform as the first one left it. *)
Definition ensure_tags_twice
  : option (world * (outcome value * world)) :=
  match AnsibleCloudStack.ensure_tags tags_env untagged (VStr "ISO") init_world with
  | (Ok r, w) =>
      Some (w, AnsibleCloudStack.ensure_tags tags_env r (VStr "ISO")
                 {| self := init_self; log := log w |})
  | _ => None
  end.

(** The calls of the entity resolvers. *)
Definition resolver_call (c : call) : bool :=
  existsb (String.eqb (action c))
    ["listDomains"; "listAccounts"; "listProjects"; "listZones"; "listOsTypes"].

Definition is_resolver_call (c : call) : Prop := resolver_call c = true.

(** [w'] has the log of [w] and, after it, calls that satisfy [P]. *)
Definition extends_by (P : call -> Prop) (w w' : world) : Prop :=
  exists ext, log w' = (log w ++ ext)%list /\ Forall P ext.

(** Whatever its outcome, [m] issues only calls that satisfy [P]. *)
Definition emits {A} (P : call -> Prop) (m : M A) : Prop :=
  forall w o w', m w = (o, w') -> extends_by P w w'.

(** A cache of [self] that its resolver will not assign any more: it
    holds an entity, or the parameter that selects one is not given. *)
Definition settled (E : env) (f : self_t -> value) (pname : string)
           (w : world) : Prop :=
  Py.truthy (f (self w)) = true \/ Py.truthy (param E pname) = false.

(** From [w] to [w'] the settled caches, the OS type, the ISO and the
    result are as they were. *)
Record keeps (E : env) (w w' : world) : Prop := Keeps {
  keeps_domain : settled E domain "domain" w -> domain (self w') = domain (self w);
  keeps_account : settled E account "account" w -> account (self w') = account (self w);
  keeps_project : settled E project "project" w -> project (self w') = project (self w);
  keeps_zone : Py.truthy (zone (self w)) = true -> zone (self w') = zone (self w);
  keeps_os_type : os_type (self w') = os_type (self w);
  keeps_iso : iso (self w') = iso (self w);
  keeps_result : result (self w') = result (self w)
}.

(** In [w] the resolver of the cache [f] answers [v] for the key [k]
    without a remote call: the cache holds an entity with this item, or
    (for a resolver with an optional parameter [pname]) nothing is cached
    and nothing is asked for. *)
Definition answers (E : env) (f : self_t -> value) (pname : option string)
           (k : string) (v : value) (w : world) : Prop :=
  (Py.truthy (f (self w)) = true /\
   forall w0, AnsibleCloudStack._get_by_key (Some k) (f (self w)) w0 = (Ok v, w0)) \/
  (exists p, pname = Some p /\ Py.truthy (f (self w)) = false /\
             Py.truthy (param E p) = false /\ v = VNone).

(** The test of [select_iso] for a given checksum, as a boolean. *)
Definition checksum_is (checksum j : value) : bool :=
  match Py.getitem j "checksum" with
  | Ok c => Py.eqb c checksum
  | _ => false
  end.

(** An ISO looked for by checksum, under another name than the listed
    one has. *)
Definition checksum_env : env :=
  Env [("name", VStr "Debian 7"); ("checksum", VStr "abc");
       ("state", VStr "present")] false (table_cs one_iso).

(** Scenario D: a bootable ISO without OS type, on a platform that lists
    no ISO, and on one that lists an ISO already. *)
Definition os_type_message : string :=
  "OS type 'os_type' is requried if 'bootable=true'.".

Definition scenario_D_params : dict :=
  [("name", VStr "deb"); ("url", VStr "http://mirror/debian.iso");
   ("bootable", VBool true); ("state", VStr "present")].

Definition scenario_D : env := Env scenario_D_params false (table_cs one_zone).

Definition scenario_D_registered : env :=
  Env scenario_D_params false (table_cs one_iso).

(** A call that changes nothing on the platform. *)
Definition quiet (c : call) : Prop := mutating c = false.

(** [m] does not look at the log: from two worlds with the same [self]
    it has the same outcome and leaves the same [self]. *)
Definition log_free {A} (m : M A) : Prop :=
  forall w o w' w2, m w = (o, w') -> self w2 = self w ->
                    exists w2', m w2 = (o, w2') /\ self w2' = self w'.

(** [m] leaves [result['changed']] as it is. *)
Definition keeps_changed {A} (m : M A) : Prop :=
  forall w o w', m w = (o, w') -> changed_of w' = changed_of w.

(** A new bootable ISO with its OS type, on a platform that registers
    it, and on one that refuses. *)
Definition register_params : dict :=
  [("name", VStr "deb"); ("url", VStr "http://mirror/debian.iso");
   ("os_type", VStr "Debian"); ("bootable", VBool true);
   ("state", VStr "present")].

Definition registering_cs : oracle :=
  table_cs (one_zone ++ [("registerIso", VDict [("iso", VList [debian_iso])])])%list.

Definition refusing_cs : oracle :=
  fun calls c =>
    if action c =? "registerIso" then Fault "Unable to register the ISO"
    else table_cs one_zone calls c.

(** A call whose action is a listing ([list...]). *)
Definition listing (c : call) : Prop := Py.startswith (action c) "list" = true.

(** No entity of the list [l] is selected by [s]: each one is a dict
    whose name (the item [field]) and whose id both differ from [s]. *)
Definition none_named (field : string) (s : value) (l : list value) : Prop :=
  Forall (fun x => exists f n i,
              x = VDict f /\ Py.lookup field f = Some n /\
              Py.lookup "id" f = Some i /\
              Py.eqb s n = false /\ Py.eqb s i = false) l.

(** A listing response without a match for [s]: empty, or a list under
    [field] of entities none of which [s] selects. *)
Definition lists_no_match (resp : value) (field name : string) (s : value) : Prop :=
  Py.truthy resp = false \/
  exists l, Py.getitem resp field = Ok (VList l) /\ none_named name s l.

Definition logged (w : world) (c : call) : world :=
  {| self := self w; log := log w ++ [c] |}.

(** A zone that the platform of [one_zone] does not list. *)
Definition missing_zone_env : env :=
  Env [("zone", VStr "zone9")] false (table_cs one_zone).

(** A platform that answers every call with an empty response. *)
Definition empty_cs : oracle := fun _ _ => Reply (VDict []).

(** Tags as the platform lists them: dicts with a string under [key]. *)
Definition keyed_tags (existing : list value) : Prop :=
  Forall (fun t => exists f k, t = VDict f /\ Py.lookup "key" f = Some (VStr k))
         existing.

(** The call by which [_delete_tags] removes the tags [gone]. *)
Definition delete_tags_call (rid resource_type : value) (gone : list value) : call :=
  Call "deleteTags"
       [("resourceids", rid); ("resourcetype", resource_type);
        ("tags", VList gone)].

(** A resource that carries the tag [env=prod], and desired tags given
    as a dict. *)
Definition tagged : value :=
  VDict [("id", VStr "r1"); ("tags", VList [tag_entry ("env", "prod")])].

Definition dict_tags_env : env :=
  Env [("tags", VDict [("env", VStr "prod")])] false tag_store_cs.

(** The parent path that [get_parent_domain] looks up for the path [p]. *)
Definition parent_path (p : string) : string :=
  Py.join_slash (Py.but_last (Py.split_slash p)).

(** [state=absent], live, for the listed domain [ROOT/Sales]. *)
Definition absent_found_env : env :=
  Env [("path", VStr "ROOT/Sales"); ("state", VStr "absent")] false
      (table_cs two_domains).

(** A value that is not a list or a dict. *)
Definition scalar (v : value) : Prop :=
  match v with
  | VList _ | VDict _ => False
  | _ => True
  end.

(** A desired field that the current dict satisfies: the desired value
    is [None], or the key is missing from the current dict, or the
    current dict holds this very value. *)
Definition satisfied (current : dict) (kv : string * value) : Prop :=
  scalar (snd kv) /\
  (snd kv = VNone \/ Py.lookup (fst kv) current = None \/
   Py.lookup (fst kv) current = Some (snd kv)).

(** The desired fields whose key is in [only_keys]. *)
Definition restrict (want : dict) (ks : list value) : dict :=
  filter (fun kv => Py.in_list (VStr (fst kv)) ks) want.

(** The integer that the decimal digits [d] denote when they follow
    digits that denote [acc]. *)
Fixpoint uint_val (d : Decimal.uint) (acc : Z) : Z :=
  match d with
  | Decimal.Nil => acc
  | Decimal.D0 d => uint_val d (10 * acc + 0)
  | Decimal.D1 d => uint_val d (10 * acc + 1)
  | Decimal.D2 d => uint_val d (10 * acc + 2)
  | Decimal.D3 d => uint_val d (10 * acc + 3)
  | Decimal.D4 d => uint_val d (10 * acc + 4)
  | Decimal.D5 d => uint_val d (10 * acc + 5)
  | Decimal.D6 d => uint_val d (10 * acc + 6)
  | Decimal.D7 d => uint_val d (10 * acc + 7)
  | Decimal.D8 d => uint_val d (10 * acc + 8)
  | Decimal.D9 d => uint_val d (10 * acc + 9)
  end%Z.

(** The status query of [poll_job], and a world after [n] more of them. *)
Definition query (jobid : value) : call :=
  Call "queryAsyncJobResult" [("jobid", jobid)].

Definition polled (w : world) (jobid : value) (n : nat) : world :=
  {| self := self w; log := log w ++ repeat (query jobid) n |}.

(** A response on which the loop of [poll_job] goes on: the status is
    [0], or there is no [jobresult]. *)
Definition not_ready (res : value) : Prop :=
  exists status,
    Py.getitem res "jobstatus" = Ok status /\
    (Py.eqb status (VInt 0) = true \/ Py.contains (VStr "jobresult") res = Ok false).

(** A response on which the loop is left: a status other than [0] and
    the payload [jobresult]. *)
Definition ready (res jobresult : value) : Prop :=
  exists status,
    Py.getitem res "jobstatus" = Ok status /\ Py.eqb status (VInt 0) = false /\
    Py.contains (VStr "jobresult") res = Ok true /\
    Py.getitem res "jobresult" = Ok jobresult.

(** The platform answers the first [n] queries after [w] with responses
    that are not ready. *)
Definition pending_for (E : env) (w : world) (jobid : value) (n : nat) : Prop :=
  forall m, (m < n)%nat ->
            exists res, cs E (log w ++ repeat (query jobid) m)%list (query jobid) = Reply res /\
                        not_ready res.

(** A job, a platform on which it ends without payload, and one on which
    it is done at the third query. *)
Definition a_job : value := VDict [("jobid", VStr "j1")].

Definition no_payload_cs : oracle :=
  fun _ _ => Reply (VDict [("jobstatus", VInt 2)]).

Definition third_time_cs : oracle :=
  fun calls _ =>
    if (length calls <? 2)%nat then Reply (VDict [("jobstatus", VInt 0)])
    else Reply (VDict [("jobstatus", VInt 1);
                       ("jobresult", VDict [("domain", customers_domain)])]).

(** The calls of [poll_job]. *)
Definition is_query (c : call) : Prop := action c = "queryAsyncJobResult".

(** A job that fails at the second query. *)
Definition failing_cs : oracle :=
  fun calls _ =>
    if (length calls <? 1)%nat then Reply (VDict [("jobstatus", VInt 0)])
    else Reply (VDict [("jobstatus", VInt 2);
                       ("jobresult", VDict [("errorcode", VInt 530);
                                            ("errortext", VStr "Failed to delete domain")])]).

(** The fields that [get_result] copies, each with its key in the
    result, for a domain and for an ISO. *)
Definition domain_fields : list (string * string) :=
  [("name", "name"); ("path", "path"); ("parentdomainname", "parent_domain");
   ("state", "state"); ("networkdomain", "network_domain")].

Definition iso_fields : list (string * string) :=
  [("displaytext", "displaytext"); ("name", "name"); ("zonename", "zone");
   ("checksum", "checksum"); ("status", "status"); ("isready", "is_ready");
   ("created", "created"); ("project", "project"); ("domain", "domain");
   ("account", "account")].

(** The result [r] after the fields that [f] has are copied, in order. *)
Definition reported (fields : list (string * string)) (f r : dict) : dict :=
  fold_left (fun r kv => match Py.lookup (fst kv) f with
                         | Some v => Py.setitem r (snd kv) v
                         | None => r
                         end) fields r.

(** The world of [w] with the result [r]. *)
Definition with_result (r : dict) (w : world) : world :=
  {| self := set_result r (self w); log := log w |}.

(** The call of [remove_iso]. *)
Definition delete_iso_call (id projectid zoneid : value) : call :=
  Call "deleteIso" [("id", id); ("projectid", projectid); ("zoneid", zoneid)].

(** A registration that names no URL and is not bootable. *)
Definition no_url_env : env :=
  Env [("name", VStr "deb"); ("bootable", VBool false); ("state", VStr "present")]
      false (table_cs one_zone).

(** The removal of the ISO that the platform lists. *)
Definition remove_env : env :=
  Env [("name", VStr "deb"); ("state", VStr "absent")] false
      (table_cs (one_iso ++ [("deleteIso", VDict [("jobid", VStr "j7")])])%list).

(** The call of [register_iso], from the resolved ids and the
    parameters. *)
Definition register_iso_call (E : env) (zoneid domainid account projectid ostypeid : value)
  : call :=
  Call "registerIso"
       [("zoneid", zoneid); ("domainid", domainid); ("account", account);
        ("projectid", projectid); ("bootable", param E "bootable");
        ("ostypeid", ostypeid); ("name", param E "name");
        ("displaytext", param E "name"); ("checksum", param E "checksum");
        ("isdynamicallyscalable", param E "is_dynamically_scalable");
        ("isfeatured", param E "is_featured"); ("ispublic", param E "is_public");
        ("url", param E "url")].

(** A registration on a platform that lists no ISO. *)
Definition register_env : env := Env register_params false registering_cs.

(** An account without its domain. *)
Definition account_only_env : env :=
  Env [("name", VStr "deb"); ("account", VStr "alice"); ("state", VStr "present")]
      false (table_cs one_iso).

(** The worlds of [register_env] after the lookup and after the OS type
    is resolved. *)
Definition register_w1 : world :=
  snd (AnsibleCloudStackIso.get_iso register_env init_world).

Definition register_w2 : world :=
  snd (AnsibleCloudStack.get_os_type register_env (Some "id") register_w1).

(** The ways to write the path of a domain [name] directly below the
    root domain. *)
Definition below_root (name : string) : list string :=
  [name; "/" ++ name; "ROOT/" ++ name; "/ROOT/" ++ name].

(** A listing response in which no domain has the path [root/] or
    [root/root], case apart. *)
Definition lists_no_root_child (resp : value) : Prop :=
  Py.truthy resp = false \/
  exists l, Py.getitem resp "domain" = Ok (VList l) /\
    Forall (fun d => exists f dp,
                d = VDict f /\ Py.lookup "path" f = Some (VStr dp) /\
                Py.lower dp <> "root/" /\ Py.lower dp <> "root/root") l.





(** An object of the domain module whose domain is resolved: the cache
    holds [ROOT/Sales], the lookup call is in the log. *)
Definition sales_resolved : world :=
  {| self := set_domain sales_domain init_self; log := [list_domains] |}.

(** ** The monad *)

Lemma bind_ok {A B} (m : M A) (k : A -> M B) w a w1 :
  m w = (Ok a, w1) -> bind m k w = k a w1.
Proof. unfold bind; intros ->; reflexivity. Qed.

Lemma bind_exit {A B} (m : M A) (k : A -> M B) w msg w1 :
  m w = (Exit msg, w1) -> bind m k w = (Exit msg, w1).
Proof. unfold bind; intros ->; reflexivity. Qed.

Lemma bind_raise {A B} (m : M A) (k : A -> M B) w e w1 :
  m w = (Raise e, w1) -> bind m k w = (Raise e, w1).
Proof. unfold bind; intros ->; reflexivity. Qed.

Lemma bind_inv_ok {A B} (m : M A) (k : A -> M B) w b w' :
  bind m k w = (Ok b, w') ->
  exists a w1, m w = (Ok a, w1) /\ k a w1 = (Ok b, w').
Proof.
  unfold bind; destruct (m w) as [[a | msg | e] w1]; intros H;
    try discriminate; eauto.
Qed.

Lemma bind_assoc {A B C} (m : M A) (k : A -> M B) (h : B -> M C) w :
  bind (bind m k) h w = bind m (fun a => bind (k a) h) w.
Proof. unfold bind; destruct (m w) as [[a | msg | e] w1]; reflexivity. Qed.

Lemma bind_ret {A B} (a : A) (k : A -> M B) w : bind (ret a) k w = k a w.
Proof. reflexivity. Qed.

Lemma bind_lift_ok {A B} (a : A) (k : A -> M B) w :
  bind (lift (Ok a)) k w = k a w.
Proof. reflexivity. Qed.

Lemma bind_gets {A B} (f : self_t -> A) (k : A -> M B) w :
  bind (gets f) k w = k (f (self w)) w.
Proof. reflexivity. Qed.

Lemma bind_modify {B} (f : self_t -> self_t) (k : unit -> M B) w :
  bind (modify f) k w = k tt {| self := f (self w); log := log w |}.
Proof. reflexivity. Qed.

Lemma bind_api_reply {B} (E : env) (a : string) (xs : dict) (v : value)
      (k : value -> M B) w :
  cs E (log w) (Call a xs) = Reply v ->
  bind (api E a xs) k w = k v {| self := self w; log := log w ++ [Call a xs] |}.
Proof. intros H; unfold bind, api; rewrite H; reflexivity. Qed.

#[global] Arguments bind : simpl never.
#[global] Arguments ret : simpl never.
#[global] Arguments lift : simpl never.
#[global] Arguments gets : simpl never.
#[global] Arguments modify : simpl never.
#[global] Arguments api : simpl never.
#[global] Arguments fail_json : simpl never.
#[global] Arguments raise : simpl never.

(** One step of a run: the first action of a sequence is performed. *)
Ltac mstep :=
  first
    [ rewrite bind_assoc
    | rewrite bind_ret
    | rewrite bind_lift_ok
    | rewrite bind_gets
    | rewrite bind_modify ].

Ltac msteps := repeat (mstep; cbn).

(** ** C10: [clean_up] *)

(** C10.  Two invocations of the domain module whose parameters agree on
    every key but [clean_up] (same check mode, same platform) end with the
    same outcome, the same object state and the same log of remote
    calls: no method reads the parameter. *)
Theorem clean_up_has_no_effect (p q : dict) (chk : bool) (c : oracle) :
  agree_off "clean_up" p q ->
  AnsibleCloudStackDomain.main (Env p chk c)
  = AnsibleCloudStackDomain.main (Env q chk c).
Proof.
  intros H.
  assert (Hpath : Py.get p "path" = Py.get q "path") by (apply H; discriminate).
  assert (Hstate : Py.get p "state" = Py.get q "state") by (apply H; discriminate).
  assert (Hnd : Py.get p "network_domain" = Py.get q "network_domain")
    by (apply H; discriminate).
  unfold AnsibleCloudStackDomain.main, AnsibleCloudStackDomain.run,
    AnsibleCloudStackDomain.absent_domain, AnsibleCloudStackDomain.present_domain,
    AnsibleCloudStackDomain._create_domain, AnsibleCloudStackDomain._update_domain,
    AnsibleCloudStackDomain.get_parent_domain, AnsibleCloudStackDomain.get_name,
    AnsibleCloudStackDomain.get_domain,
    AnsibleCloudStackDomain._get_domain_internal, api, param.
  cbn [params check_mode cs].
  rewrite Hpath, Hstate, Hnd.
  reflexivity.
Qed.

Lemma clean_up_has_no_effect_witness :
  AnsibleCloudStackDomain.main
    (Env [("clean_up", VBool true); ("path", VStr "ROOT/Sales");
          ("state", VStr "absent")] true (table_cs two_domains))
  = AnsibleCloudStackDomain.main
      (Env [("clean_up", VBool false); ("path", VStr "ROOT/Sales");
            ("state", VStr "absent")] true (table_cs two_domains)).
Proof.
  apply clean_up_has_no_effect.
  intros k Hk. unfold Py.get; cbn [Py.lookup].
  destruct (String.eqb_spec "clean_up" k) as [e | _]; [congruence | reflexivity].
Defined.

(** ** C9: [state=absent] without a matching domain *)

Lemma first_match_none (test : value -> outcome bool) (l : list value) :
  Forall (fun x => test x = Ok false) l -> first_match test l = Ok None.
Proof.
  induction 1 as [| x l Hx _ IH]; cbn; [reflexivity |].
  rewrite Hx; exact IH.
Qed.

Lemma path_test_differs (path : string) (d : value) (f : dict) (dp : string) :
  d = VDict f -> Py.lookup "path" f = Some (VStr dp) ->
  Py.lower dp <> Py.lower path ->
  AnsibleCloudStackDomain.path_test path d = Ok false.
Proof.
  intros -> Hf Hne. unfold AnsibleCloudStackDomain.path_test; cbn.
  rewrite Hf; cbn. f_equal.
  apply String.eqb_neq. congruence.
Qed.

Lemma search_no_domain (path : string) (resp : value) (w : world) :
  no_domain_matches path resp ->
  AnsibleCloudStack.search resp "domain"
    (AnsibleCloudStackDomain.path_test (AnsibleCloudStackDomain.rooted path)) w
  = (Ok None, w).
Proof.
  unfold AnsibleCloudStack.search. intros [Hf | (l & Hl & Hall)].
  - rewrite Hf; reflexivity.
  - destruct (Py.truthy resp); [| reflexivity].
    rewrite Hl; cbn. mstep.
    unfold lift. rewrite first_match_none; [reflexivity |].
    eapply Forall_impl; [| exact Hall].
    intros d (f & dp & Hd & Hp & Hne). eapply path_test_differs; eauto.
Qed.

Lemma get_domain_internal_none (E : env) (path : string) (resp : value) (w : world) :
  Py.endswith_char path "/" = false ->
  cs E (log w) list_domains = Reply resp ->
  no_domain_matches path resp ->
  AnsibleCloudStackDomain._get_domain_internal E (VStr path) w
  = (Ok VNone, {| self := self w; log := log w ++ [list_domains] |}).
Proof.
  intros Hend Hc Hno. unfold AnsibleCloudStackDomain._get_domain_internal.
  rewrite Hend. fold list_domains.
  rewrite (bind_api_reply _ _ _ resp) by exact Hc.
  erewrite bind_ok by (apply search_no_domain; exact Hno).
  reflexivity.
Qed.

Lemma domain_main_ok (E : env) (r : dict) (w : world) :
  AnsibleCloudStackDomain.main E = (Ok r, w)
  <-> AnsibleCloudStackDomain.run E init_world = (Ok r, w).
Proof.
  unfold AnsibleCloudStackDomain.main.
  destruct (AnsibleCloudStackDomain.run E init_world) as [[r0 | msg | []] w0];
    split; intros H; try exact H; discriminate.
Qed.






(** ** C5: scenario A *)

(** C5.  At the path [/ROOT/customers] with no such domain yet, the
    invocation looks for the path [root//root/customers], then for the
    parent [root/root], finds neither and ends in the [TypeError] of the
    message of [get_parent_domain]: the log holds the two lookups and no
    [createDomain].  At a path whose parent the lookup resolves, the
    create call carries a list as [name], and the result reports
    [changed] without [path]. *)
Theorem scenario_A_fails :
  AnsibleCloudStackDomain.rooted "/ROOT/customers" = "root//root/customers" /\
  AnsibleCloudStackDomain.rooted "/ROOT" = "root/root" /\
  fst (AnsibleCloudStackDomain.main scenario_A) = Raise TypeError /\
  log (snd (AnsibleCloudStackDomain.main scenario_A))
  = [list_domains; list_domains] /\
  fst (AnsibleCloudStackDomain.main scenario_A_nested)
  = Ok [("changed", VBool true)] /\
  log (snd (AnsibleCloudStackDomain.main scenario_A_nested))
  = [list_domains; list_domains;
     Call "createDomain"
       [("name", VList [VStr "customers"]); ("parrentdomainid", VStr "2");
        ("networkdomain", VNone)]].
Proof. repeat split; vm_compute; reflexivity. Qed.

(** ** C3: a resolver called twice *)

(** C3.  With the zone resolved, the first [get_os_type('id')] returns the
    id of the OS type and the second one the id of the zone. *)
Theorem os_type_second_call_differs :
  fst (os_type_twice debian_env init_world) = Ok (VStr "os1", VStr "z1").
Proof. vm_compute; reflexivity. Qed.


(** ** C4: how a selector is matched *)

Lemma lower_ascii_idem (c : ascii) :
  Py.lower_ascii (Py.lower_ascii c) = Py.lower_ascii c.
Proof. destruct c as [[] [] [] [] [] [] [] []]; reflexivity. Qed.

Lemma lower_idem (s : string) : Py.lower (Py.lower s) = Py.lower s.
Proof.
  induction s as [| c s IH]; cbn; [reflexivity |].
  rewrite lower_ascii_idem, IH; reflexivity.
Qed.





(** ** C7: the diff of [has_changed] *)

Lemma lookup_setitem_same (d : dict) (k : string) (v : value) :
  Py.lookup k (Py.setitem d k v) = Some v.
Proof.
  induction d as [| [k' x] d IH]; cbn.
  - rewrite String.eqb_refl; reflexivity.
  - destruct (k' =? k) eqn:Hk; cbn; rewrite Hk; [reflexivity | exact IH].
Qed.

Lemma lookup_setitem_ne (d : dict) (k k' : string) (v : value) :
  k' <> k -> Py.lookup k' (Py.setitem d k v) = Py.lookup k' d.
Proof.
  intros Hne. induction d as [| [k0 x] d IH]; cbn.
  - destruct (String.eqb_spec k k'); [congruence | reflexivity].
  - destruct (String.eqb_spec k0 k) as [-> | Hk]; cbn.
    + destruct (String.eqb_spec k k'); [congruence | reflexivity].
    + rewrite IH; reflexivity.
Qed.

Lemma setitem_lookup_id (d : dict) (k : string) (v : value) :
  Py.lookup k d = Some v -> Py.setitem d k v = d.
Proof.
  induction d as [| [k' x] d IH]; cbn; [discriminate |].
  destruct (k' =? k) eqn:Hk.
  - intros [= ->]; reflexivity.
  - intros H; rewrite (IH H); reflexivity.
Qed.

(** One turn of the loop of [has_changed], without [only_keys]. *)
Lemma has_changed_cons (k : string) (v : value) (rest current : dict) :
  AnsibleCloudStack.has_changed ((k, v) :: rest) current VNone
  = if Py.is_none v then AnsibleCloudStack.has_changed rest current VNone
    else match Py.lookup k current with
         | None => AnsibleCloudStack.has_changed rest current VNone
         | Some cur =>
             let! c := coerced v cur in
             if negb (Py.eqb v c) then Ok (true, Py.setitem current k c)
             else AnsibleCloudStack.has_changed rest (Py.setitem current k c) VNone
         end.
Proof.
  cbn [AnsibleCloudStack.has_changed Py.truthy obind].
  destruct (Py.is_none v) eqn:Hv; [reflexivity |].
  destruct (Py.lookup k current) as [cur |] eqn:Hc; [| reflexivity].
  unfold coerced.
  destruct (Py.isinstance_int v); [| destruct (Py.isinstance_str v)].
  - destruct (Py.int cur); cbn [obind Py.getitem]; try reflexivity.
    rewrite lookup_setitem_same; reflexivity.
  - destruct (Py.str cur); cbn [obind Py.getitem]; try reflexivity.
    rewrite lookup_setitem_same; reflexivity.
  - cbn [obind Py.getitem]. rewrite Hc, (setitem_lookup_id _ _ _ Hc); reflexivity.
Qed.

Lemma field_differs_setitem (current : dict) (k : string) (c : value)
      (rest : dict) :
  ~ In k (map fst rest) ->
  Exists (field_differs (Py.setitem current k c)) rest
  <-> Exists (field_differs current) rest.
Proof.
  intros Hk. rewrite !Exists_exists.
  split; intros ([k' v'] & Hin & Hnn & c0 & c1 & Hl & Hco & He);
    exists (k', v'); (split; [exact Hin |]); (split; [exact Hnn |]);
    exists c0, c1; (split; [| split; assumption]); cbn in *;
    assert (k' <> k) by (intros ->; apply Hk; apply (in_map fst _ _ Hin)).
  - rewrite lookup_setitem_ne in Hl by assumption; exact Hl.
  - rewrite lookup_setitem_ne by assumption; exact Hl.
Qed.

Lemma has_changed_iff (want current : dict) (b : bool) (current' : dict) :
  NoDup (map fst want) ->
  AnsibleCloudStack.has_changed want current VNone = Ok (b, current') ->
  (b = true <-> Exists (field_differs current) want).
Proof.
  revert current. induction want as [| [k v] rest IH]; intros current Hnd H.
  - cbn in H. injection H as <- _. split; [discriminate | intros HE; inversion HE].
  - rewrite has_changed_cons in H. cbn in Hnd. inversion Hnd as [| ? ? Hk Hnd']; subst.
    assert (Hskip : forall P : Prop,
               (field_differs current (k, v) -> P) ->
               (b = true <-> Exists (field_differs current) rest) ->
               (~ field_differs current (k, v)) ->
               (b = true <-> Exists (field_differs current) ((k, v) :: rest))).
    { intros P _ Hr Hn. rewrite Hr. split; [apply Exists_cons_tl |].
      intros HE; inversion HE; subst; [contradiction | assumption]. }
    destruct (Py.is_none v) eqn:Hv.
    { apply (Hskip True); auto.
      intros (Hnn & _); destruct v; cbn in *; try discriminate; congruence. }
    destruct (Py.lookup k current) as [cur |] eqn:Hc.
    2:{ apply (Hskip True); auto.
        intros (_ & c0 & c1 & Hl & _); cbn in Hl; congruence. }
    destruct (coerced v cur) as [c | |] eqn:Hco; cbn [obind] in H; try discriminate.
    destruct (Py.eqb v c) eqn:He; cbn [negb] in H.
    + apply IH in H; [| assumption].
      rewrite field_differs_setitem in H by assumption.
      apply (Hskip True); auto.
      intros (_ & c0 & c1 & Hl & Hco' & He'); cbn in *.
      rewrite Hc in Hl; injection Hl as <-. congruence.
    + injection H as <- _. split; [| reflexivity]. intros _.
      apply Exists_cons_hd. split.
      * destruct v; cbn in *; congruence.
      * exists cur, c; cbn; auto.
Qed.

(** C7.  The diff of [has_changed] is not numeric.  A desired string is
    compared as a string, also with an integer on the other side: ['010']
    against [10] counts as a change.  A desired integer that Python 2
    holds as a [long] is no instance of [int] and is compared without any
    conversion: [2**70] against its own decimal string counts as a
    change.  The comparison of the specification finds no difference in
    either case. *)
Theorem diff_is_not_numeric :
  spec_differs (VStr "010") (VInt 10) = false /\
  AnsibleCloudStack.has_changed
    [("networkdomain", VStr "010")] [("networkdomain", VInt 10)] VNone
  = Ok (true, [("networkdomain", VStr "10")]) /\
  spec_differs (VInt (2 ^ 70)) (VStr "1180591620717411303424") = false /\
  AnsibleCloudStack.has_changed
    [("size", VInt (2 ^ 70))] [("size", VStr "1180591620717411303424")] VNone
  = Ok (true, [("size", VStr "1180591620717411303424")]).
Proof. repeat apply conj; vm_compute; reflexivity. Qed.

(** ** C1: [ensure_tags] once more *)

(** C1.  On a platform that keeps the tags and does nothing else, an
    [ensure_tags] with the tag list [env=prod] adds the tag; a second
    [ensure_tags] with the same list, right after it and on the resource
    as the first one returned it, removes that very tag with a
    [deleteTags] call, adds it again with a [createTags] call and leaves
    [changed] true. *)
Theorem ensure_tags_twice_changes :
  exists w1 r2 w2,
    ensure_tags_twice = Some (w1, (Ok r2, w2)) /\
    log w1 = [create_tags_call (VStr "r1") (VStr "ISO") prod_tags;
              Call "listTags" [("resourceid", VStr "r1")]] /\
    log w2 = (log w1 ++
              [Call "deleteTags"
                 [("resourceids", VStr "r1"); ("resourcetype", VStr "ISO");
                  ("tags", tag_list prod_tags)];
               create_tags_call (VStr "r1") (VStr "ISO") prod_tags;
               Call "listTags" [("resourceid", VStr "r1")]])%list /\
    changed_of w2 = VBool true.
Proof.
  do 3 eexists. split; [vm_compute; reflexivity |].
  repeat apply conj; reflexivity.
Qed.


(** ** The calls a method issues *)

Section Emits.
Variable P : call -> Prop.

Lemma extends_refl (w : world) : extends_by P w w.
Proof. exists []; split; [symmetry; apply app_nil_r | constructor]. Qed.

Lemma extends_trans (w1 w2 w3 : world) :
  extends_by P w1 w2 -> extends_by P w2 w3 -> extends_by P w1 w3.
Proof.
  intros (e1 & H1 & F1) (e2 & H2 & F2). exists (e1 ++ e2)%list. split.
  - rewrite H2, H1, app_assoc; reflexivity.
  - apply Forall_app; split; assumption.
Qed.

Lemma emits_lift {A} (o : outcome A) : emits P (lift o).
Proof. intros w o' w' [= _ <-]; apply extends_refl. Qed.

Lemma emits_ret {A} (a : A) : emits P (ret a).
Proof. intros w o' w' [= _ <-]; apply extends_refl. Qed.

Lemma emits_fail_json {A} (msg : string) : emits P (@fail_json A msg).
Proof. apply emits_lift. Qed.

Lemma emits_raise {A} (e : exn) : emits P (@raise A e).
Proof. apply emits_lift. Qed.

Lemma emits_gets {A} (f : self_t -> A) : emits P (gets f).
Proof. intros w o' w' [= _ <-]; apply extends_refl. Qed.

Lemma emits_modify (f : self_t -> self_t) : emits P (modify f).
Proof.
  intros w o' w' [= _ <-]. exists []. split; [| constructor].
  cbn. symmetry; apply app_nil_r.
Qed.

Lemma emits_bind {A B} (m : M A) (k : A -> M B) :
  emits P m -> (forall a, emits P (k a)) -> emits P (bind m k).
Proof.
  intros Hm Hk w o w' H. unfold bind in H.
  destruct (m w) as [[a | msg | e] w1] eqn:E; specialize (Hm _ _ _ E).
  - eapply extends_trans; [exact Hm | eapply Hk; exact H].
  - injection H as _ <-; exact Hm.
  - injection H as _ <-; exact Hm.
Qed.

Lemma emits_api (E : env) (a : string) (xs : dict) :
  P (Call a xs) -> emits P (api E a xs).
Proof.
  intros Hp w o w' H. unfold api in H.
  exists [Call a xs]. split; [| repeat constructor; exact Hp].
  destruct (cs E (log w) (Call a xs)); injection H as _ <-; reflexivity.
Qed.

Lemma emits_fail_fmt {A} (pre : string) (v : value) (post : string) :
  emits P (@fail_fmt A pre v post).
Proof.
  unfold fail_fmt. apply emits_bind; [apply emits_lift | intros; apply emits_fail_json].
Qed.

Lemma emits_mark_changed : emits P mark_changed.
Proof. apply emits_modify. Qed.

Lemma emits_result_set (k : string) (v : value) : emits P (result_set k v).
Proof. apply emits_modify. Qed.

Lemma emits_get_by_key (key : option string) (d : value) :
  emits P (AnsibleCloudStack._get_by_key key d).
Proof.
  unfold AnsibleCloudStack._get_by_key. destruct key as [k |]; [| apply emits_ret].
  destruct (Py.truthy (VStr k)); [| apply emits_ret].
  apply emits_bind; [apply emits_lift |].
  intros []; [apply emits_lift | apply emits_fail_json].
Qed.

Lemma emits_search (resp : value) (field : string) (test : value -> outcome bool) :
  emits P (AnsibleCloudStack.search resp field test).
Proof.
  unfold AnsibleCloudStack.search. destruct (Py.truthy resp); [| apply emits_ret].
  apply emits_bind; [apply emits_lift | intros; apply emits_lift].
Qed.

End Emits.

Lemma emits_weaken {A} (P Q : call -> Prop) (m : M A) :
  (forall c, P c -> Q c) -> emits P m -> emits Q m.
Proof.
  intros HPQ Hm w o w' H. destruct (Hm _ _ _ H) as (ext & Hl & HF).
  exists ext; split; [exact Hl |]. eapply Forall_impl; eauto.
Qed.

(** A proof that a sequence issues only calls of a kind goes through
    its actions one by one. *)
Ltac emits_leaf :=
  first
    [ apply emits_ret | apply emits_lift | apply emits_fail_json
    | apply emits_raise | apply emits_gets | apply emits_modify
    | apply emits_fail_fmt | apply emits_mark_changed
    | apply emits_result_set | apply emits_get_by_key | apply emits_search
    | apply emits_api; reflexivity
    | assumption ].

Ltac emits_go :=
  repeat
    (first
       [ emits_leaf
       | apply emits_bind; [| intros ?]
       | match goal with
         | |- emits _ (if ?b then _ else _) => destruct b
         | |- emits _ (match ?x with _ => _ end) => destruct x
         end ]).

Lemma emits_get_domain (E : env) (key : option string) :
  emits is_resolver_call (AnsibleCloudStack.get_domain E key).
Proof. unfold AnsibleCloudStack.get_domain. emits_go. Qed.

Lemma emits_get_account (E : env) (key : option string) :
  emits is_resolver_call (AnsibleCloudStack.get_account E key).
Proof.
  unfold AnsibleCloudStack.get_account.
  pose proof (emits_get_domain E (Some "id")). emits_go.
Qed.

Lemma emits_get_project (E : env) (key : option string) :
  emits is_resolver_call (AnsibleCloudStack.get_project E key).
Proof.
  unfold AnsibleCloudStack.get_project.
  pose proof (emits_get_domain E (Some "id")).
  pose proof (emits_get_account E (Some "name")). emits_go.
Qed.

Lemma emits_get_zone (E : env) (key : option string) :
  emits is_resolver_call (AnsibleCloudStack.get_zone E key).
Proof. unfold AnsibleCloudStack.get_zone. emits_go. Qed.

Lemma emits_get_os_type (E : env) (key : option string) :
  emits is_resolver_call (AnsibleCloudStack.get_os_type E key).
Proof. unfold AnsibleCloudStack.get_os_type. emits_go. Qed.

(** ** What a resolver leaves behind *)

Lemma lift_inv {A} (o o' : outcome A) (w w' : world) :
  lift o w = (o', w') -> o' = o /\ w' = w.
Proof. intros [= <- <-]; split; reflexivity. Qed.

Lemma api_inv (E : env) (a : string) (xs : dict) (v : value) (w w' : world) :
  api E a xs w = (Ok v, w') ->
  w' = {| self := self w; log := log w ++ [Call a xs] |} /\
  cs E (log w) (Call a xs) = Reply v.
Proof.
  unfold api. destruct (cs E (log w) (Call a xs)); intros [= <- <-].
  split; reflexivity.
Qed.

Lemma fail_fmt_not_ok {A} (pre : string) (v : value) (post : string)
      (w : world) (x : A) (w' : world) :
  fail_fmt pre v post w = (Ok x, w') -> False.
Proof.
  unfold fail_fmt, bind, lift, fail_json. destruct (Py.str v); discriminate.
Qed.

Lemma search_inv (resp : value) (field : string) (test : value -> outcome bool)
      (w : world) (o : outcome (option value)) (w' : world) :
  AnsibleCloudStack.search resp field test w = (o, w') -> w' = w.
Proof.
  unfold AnsibleCloudStack.search, bind, lift, ret.
  destruct (Py.truthy resp); [| intros [= _ <-]; reflexivity].
  destruct (let! x := Py.getitem resp field in Py.iter x);
    intros [= _ <-]; reflexivity.
Qed.

Lemma get_by_key_inv (key : option string) (d : value) (w : world)
      (o : outcome value) (w' : world) :
  AnsibleCloudStack._get_by_key key d w = (o, w') ->
  w' = w /\ forall w0, AnsibleCloudStack._get_by_key key d w0 = (o, w0).
Proof.
  unfold AnsibleCloudStack._get_by_key, bind, lift, ret, fail_json.
  destruct key as [k |]; [destruct (Py.truthy (VStr k)) |].
  - destruct (Py.contains (VStr k) d) as [[|] | |]; intros [= <- <-];
      split; reflexivity.
  - intros [= <- <-]; split; reflexivity.
  - intros [= <- <-]; split; reflexivity.
Qed.

Lemma get_by_key_truthy (k : string) (d v : value) (w w' : world) :
  Py.truthy (VStr k) = true ->
  AnsibleCloudStack._get_by_key (Some k) d w = (Ok v, w') ->
  Py.truthy d = true.
Proof.
  intros Hk. unfold AnsibleCloudStack._get_by_key, bind, lift, ret, fail_json.
  rewrite Hk. destruct d as [| | | s | l | [| kv r]]; cbn; try discriminate.
  - destruct (Py.is_sub k s); discriminate.
  - destruct (Py.in_list (VStr k) l); discriminate.
  - reflexivity.
Qed.

Lemma keeps_refl (E : env) (w : world) : keeps E w w.
Proof. constructor; reflexivity. Qed.

Lemma settled_eq (E : env) (f : self_t -> value) (p : string) (w w' : world) :
  f (self w') = f (self w) -> settled E f p w -> settled E f p w'.
Proof. unfold settled; intros ->; exact (fun H => H). Qed.

Lemma keeps_trans (E : env) (w1 w2 w3 : world) :
  keeps E w1 w2 -> keeps E w2 w3 -> keeps E w1 w3.
Proof.
  intros [d1 a1 p1 z1 o1 i1 r1] [d2 a2 p2 z2 o2 i2 r2]. constructor.
  - intros H. rewrite d2, d1; auto. eapply settled_eq; [apply d1 |]; auto.
  - intros H. rewrite a2, a1; auto. eapply settled_eq; [apply a1 |]; auto.
  - intros H. rewrite p2, p1; auto. eapply settled_eq; [apply p1 |]; auto.
  - intros H. rewrite z2, z1; auto. rewrite z1; auto.
  - congruence.
  - congruence.
  - congruence.
Qed.

Lemma keeps_log (E : env) (w w' : world) (l : list call) :
  keeps E w w' -> keeps E w {| self := self w'; log := l |}.
Proof. intros [d a p z o i r]; constructor; assumption. Qed.

Lemma keeps_set_domain (E : env) (w w' : world) (d : value) (l : list call) :
  keeps E w w' -> ~ settled E domain "domain" w ->
  keeps E w {| self := set_domain d (self w'); log := l |}.
Proof.
  intros [d0 a p z o i r] Hn; constructor; cbn; try assumption.
  intros H; contradiction.
Qed.

Lemma keeps_set_account (E : env) (w w' : world) (x : value) (l : list call) :
  keeps E w w' -> ~ settled E account "account" w ->
  keeps E w {| self := set_account x (self w'); log := l |}.
Proof.
  intros [d0 a p z o i r] Hn; constructor; cbn; try assumption.
  intros H; contradiction.
Qed.

Lemma keeps_set_project (E : env) (w w' : world) (x : value) (l : list call) :
  keeps E w w' -> ~ settled E project "project" w ->
  keeps E w {| self := set_project x (self w'); log := l |}.
Proof.
  intros [d0 a p z o i r] Hn; constructor; cbn; try assumption.
  intros H; contradiction.
Qed.

Lemma keeps_set_zone (E : env) (w w' : world) (x : value) (l : list call) :
  keeps E w w' -> Py.truthy (zone (self w)) = false ->
  keeps E w {| self := set_zone x (self w'); log := l |}.
Proof.
  intros [d0 a p z o i r] Hn; constructor; cbn; try assumption.
  intros H; congruence.
Qed.

Lemma not_settled (E : env) (f : self_t -> value) (p : string) (w : world) :
  Py.truthy (f (self w)) = false -> Py.truthy (param E p) = true ->
  ~ settled E f p w.
Proof. intros H1 H2 [H | H]; congruence. Qed.

(** A resolver that returns has kept what was settled, and will answer
    the same once more. *)
Lemma get_domain_ok (E : env) (k : string) (w : world) (v : value) (w' : world) :
  Py.truthy (VStr k) = true ->
  AnsibleCloudStack.get_domain E (Some k) w = (Ok v, w') ->
  keeps E w w' /\ answers E domain (Some "domain") k v w'.
Proof.
  intros Hk H. unfold AnsibleCloudStack.get_domain in H. rewrite bind_gets in H.
  destruct (Py.truthy (domain (self w))) eqn:Hc.
  - apply get_by_key_inv in H as [-> Hpure].
    split; [apply keeps_refl | left; auto].
  - destruct (Py.truthy (param E "domain")) eqn:Hp; cbn [negb] in H.
    + apply bind_inv_ok in H as (domains & w1 & Hapi & H).
      apply api_inv in Hapi as [-> _].
      apply bind_inv_ok in H as (found & w2 & Hs & H).
      apply search_inv in Hs as ->.
      destruct found as [d |]; [| apply fail_fmt_not_ok in H; contradiction].
      rewrite bind_modify in H. pose proof (get_by_key_truthy _ _ _ _ _ Hk H) as Ht.
      apply get_by_key_inv in H as [-> Hpure]. cbn [self log]. split.
      * apply keeps_set_domain; [apply keeps_refl | apply not_settled; assumption].
      * left; cbn; auto.
    + injection H as <- <-. split; [apply keeps_refl |].
      right; exists "domain"; auto.
Qed.

Lemma get_account_ok (E : env) (k : string) (w : world) (v : value) (w' : world) :
  Py.truthy (VStr k) = true ->
  AnsibleCloudStack.get_account E (Some k) w = (Ok v, w') ->
  keeps E w w' /\ answers E account (Some "account") k v w'.
Proof.
  intros Hk H. unfold AnsibleCloudStack.get_account in H. rewrite bind_gets in H.
  destruct (Py.truthy (account (self w))) eqn:Hc.
  - apply get_by_key_inv in H as [-> Hpure].
    split; [apply keeps_refl | left; auto].
  - destruct (Py.truthy (param E "account")) eqn:Hp; cbn [negb] in H.
    + destruct (Py.truthy (param E "domain")); cbn [negb] in H; [| discriminate].
      apply bind_inv_ok in H as (domainid & w1 & Hd & H).
      apply get_domain_ok in Hd as [Hkeep _]; [| reflexivity].
      apply bind_inv_ok in H as (accounts & w2 & Hapi & H).
      apply api_inv in Hapi as [-> _].
      destruct (Py.truthy accounts); [| apply fail_fmt_not_ok in H; contradiction].
      apply bind_inv_ok in H as (a & w3 & Hl & H).
      apply lift_inv in Hl as [_ ->].
      rewrite bind_modify in H. pose proof (get_by_key_truthy _ _ _ _ _ Hk H) as Ht.
      apply get_by_key_inv in H as [-> Hpure]. cbn [self log]. split.
      * apply keeps_set_account; [exact Hkeep | apply not_settled; assumption].
      * left; cbn; auto.
    + injection H as <- <-. split; [apply keeps_refl |].
      right; exists "account"; auto.
Qed.

Lemma get_project_ok (E : env) (k : string) (w : world) (v : value) (w' : world) :
  Py.truthy (VStr k) = true ->
  AnsibleCloudStack.get_project E (Some k) w = (Ok v, w') ->
  keeps E w w' /\ answers E project (Some "project") k v w'.
Proof.
  intros Hk H. unfold AnsibleCloudStack.get_project in H. rewrite bind_gets in H.
  destruct (Py.truthy (project (self w))) eqn:Hc.
  - apply get_by_key_inv in H as [-> Hpure].
    split; [apply keeps_refl | left; auto].
  - destruct (Py.truthy (param E "project")) eqn:Hp; cbn [negb] in H.
    + apply bind_inv_ok in H as (a & w1 & Ha & H).
      apply get_account_ok in Ha as [Hkeep1 _]; [| reflexivity].
      apply bind_inv_ok in H as (d & w2 & Hd & H).
      apply get_domain_ok in Hd as [Hkeep2 _]; [| reflexivity].
      apply bind_inv_ok in H as (projects & w3 & Hapi & H).
      apply api_inv in Hapi as [-> _].
      apply bind_inv_ok in H as (found & w4 & Hs & H).
      apply search_inv in Hs as ->.
      destruct found as [p |]; [| apply fail_fmt_not_ok in H; contradiction].
      rewrite bind_modify in H. pose proof (get_by_key_truthy _ _ _ _ _ Hk H) as Ht.
      apply get_by_key_inv in H as [-> Hpure]. cbn [self log]. split.
      * apply keeps_set_project; [| apply not_settled; assumption].
        eapply keeps_trans; eassumption.
      * left; cbn; auto.
    + injection H as <- <-. split; [apply keeps_refl |].
      right; exists "project"; auto.
Qed.

Lemma get_zone_ok (E : env) (k : string) (w : world) (v : value) (w' : world) :
  Py.truthy (VStr k) = true ->
  AnsibleCloudStack.get_zone E (Some k) w = (Ok v, w') ->
  keeps E w w' /\ answers E zone None k v w'.
Proof.
  intros Hk H. unfold AnsibleCloudStack.get_zone in H. rewrite bind_gets in H.
  destruct (Py.truthy (zone (self w))) eqn:Hc.
  - apply get_by_key_inv in H as [-> Hpure].
    split; [apply keeps_refl | left; auto].
  - apply bind_inv_ok in H as (zones & w1 & Hapi & H).
    apply api_inv in Hapi as [-> _].
    destruct (Py.truthy (param E "zone")); cbn [negb] in H.
    + apply bind_inv_ok in H as (found & w2 & Hs & H).
      apply search_inv in Hs as ->.
      destruct found as [z |]; [| apply fail_fmt_not_ok in H; contradiction].
      rewrite bind_modify in H. pose proof (get_by_key_truthy _ _ _ _ _ Hk H) as Ht.
      apply get_by_key_inv in H as [-> Hpure]. cbn [self log]. split.
      * apply keeps_set_zone; [apply keeps_refl | assumption].
      * left; cbn; auto.
    + apply bind_inv_ok in H as (z & w2 & Hl & H).
      apply lift_inv in Hl as [_ ->].
      rewrite bind_modify in H. pose proof (get_by_key_truthy _ _ _ _ _ Hk H) as Ht.
      apply get_by_key_inv in H as [-> Hpure]. cbn [self log]. split.
      * apply keeps_set_zone; [apply keeps_refl | assumption].
      * left; cbn; auto.
Qed.

Lemma answers_eq (E : env) (f : self_t -> value) (pn : option string)
      (k : string) (v : value) (w w' : world) :
  f (self w') = f (self w) -> answers E f pn k v w -> answers E f pn k v w'.
Proof. unfold answers; intros ->; exact (fun H => H). Qed.

Lemma answers_settled (E : env) (f : self_t -> value) (p : string)
      (k : string) (v : value) (w : world) :
  answers E f (Some p) k v w -> settled E f p w.
Proof.
  intros [[H _] | (q & [= <-] & _ & H & _)]; [left | right]; assumption.
Qed.

Lemma answers_truthy (E : env) (f : self_t -> value)
      (k : string) (v : value) (w : world) :
  answers E f None k v w -> Py.truthy (f (self w)) = true.
Proof. intros [[H _] | (q & [=] & _)]; assumption. Qed.

Lemma get_domain_again (E : env) (k : string) (v : value) (w : world) :
  answers E domain (Some "domain") k v w ->
  AnsibleCloudStack.get_domain E (Some k) w = (Ok v, w).
Proof.
  unfold AnsibleCloudStack.get_domain. rewrite bind_gets.
  intros [[Ht Hpure] | (q & [= <-] & Hf & Hp & ->)].
  - rewrite Ht; apply Hpure.
  - rewrite Hf, Hp; reflexivity.
Qed.

Lemma get_account_again (E : env) (k : string) (v : value) (w : world) :
  answers E account (Some "account") k v w ->
  AnsibleCloudStack.get_account E (Some k) w = (Ok v, w).
Proof.
  unfold AnsibleCloudStack.get_account. rewrite bind_gets.
  intros [[Ht Hpure] | (q & [= <-] & Hf & Hp & ->)].
  - rewrite Ht; apply Hpure.
  - rewrite Hf, Hp; reflexivity.
Qed.

Lemma get_project_again (E : env) (k : string) (v : value) (w : world) :
  answers E project (Some "project") k v w ->
  AnsibleCloudStack.get_project E (Some k) w = (Ok v, w).
Proof.
  unfold AnsibleCloudStack.get_project. rewrite bind_gets.
  intros [[Ht Hpure] | (q & [= <-] & Hf & Hp & ->)].
  - rewrite Ht; apply Hpure.
  - rewrite Hf, Hp; reflexivity.
Qed.

Lemma get_zone_again (E : env) (k : string) (v : value) (w : world) :
  answers E zone None k v w ->
  AnsibleCloudStack.get_zone E (Some k) w = (Ok v, w).
Proof.
  unfold AnsibleCloudStack.get_zone. rewrite bind_gets.
  intros [[Ht Hpure] | (q & [=] & _)].
  rewrite Ht; apply Hpure.
Qed.

(** ** The ISO lookup *)

Lemma get_iso_inv (E : env) (w : world) (i : value) (w' : world) :
  Py.truthy (iso (self w)) = false ->
  AnsibleCloudStackIso.get_iso E w = (Ok i, w') ->
  exists did wa a wb pid wc zid wd isos chosen,
    AnsibleCloudStack.get_domain E (Some "id") w = (Ok did, wa) /\
    AnsibleCloudStack.get_account E (Some "name") wa = (Ok a, wb) /\
    AnsibleCloudStack.get_project E (Some "id") wb = (Ok pid, wc) /\
    AnsibleCloudStack.get_zone E (Some "id") wc = (Ok zid, wd) /\
    cs E (log wd)
       (Call "listIsos" (AnsibleCloudStackIso.list_isos_args E did a pid zid))
    = Reply isos /\
    AnsibleCloudStackIso.select_iso (param E "checksum") isos = Ok chosen /\
    w' = {| self := match chosen with
                    | Some j => set_iso j (self wd)
                    | None => self wd
                    end;
            log := log wd ++
                   [Call "listIsos"
                      (AnsibleCloudStackIso.list_isos_args E did a pid zid)] |} /\
    i = iso (self w').
Proof.
  intros Hc H. unfold AnsibleCloudStackIso.get_iso in H.
  rewrite bind_gets, Hc in H. cbn [negb] in H.
  apply bind_inv_ok in H as ([] & w0 & H & Hi).
  injection Hi as <- <-.
  apply bind_inv_ok in H as (did & wa & Hd & H).
  apply bind_inv_ok in H as (a & wb & Ha & H).
  apply bind_inv_ok in H as (pid & wc & Hp & H).
  apply bind_inv_ok in H as (zid & wd & Hz & H).
  apply bind_inv_ok in H as (isos & we & Hapi & H).
  apply api_inv in Hapi as [-> Hcs].
  apply bind_inv_ok in H as (chosen & wf & Hsel & H).
  apply lift_inv in Hsel as [Hsel ->].
  exists did, wa, a, wb, pid, wc, zid, wd, isos, chosen.
  repeat (split; [first [assumption | symmetry; assumption] |]).
  destruct chosen; injection H as <-; split; reflexivity.
Qed.

(** The first [get_iso] of an invocation that returns: every resolver it
    used will answer the same again without a call, and the log is the
    calls of the resolvers and then one [listIsos]. *)
Lemma get_iso_first (E : env) (i : value) (w' : world) :
  AnsibleCloudStackIso.get_iso E init_world = (Ok i, w') ->
  exists did a pid zid pre isos chosen,
    answers E domain (Some "domain") "id" did w' /\
    answers E account (Some "account") "name" a w' /\
    answers E project (Some "project") "id" pid w' /\
    answers E zone None "id" zid w' /\
    os_type (self w') = VNone /\
    result (self w') = [("changed", VBool false)] /\
    log w' = (pre ++ [Call "listIsos"
                        (AnsibleCloudStackIso.list_isos_args E did a pid zid)])%list /\
    Forall is_resolver_call pre /\
    cs E pre (Call "listIsos" (AnsibleCloudStackIso.list_isos_args E did a pid zid))
    = Reply isos /\
    AnsibleCloudStackIso.select_iso (param E "checksum") isos = Ok chosen /\
    i = match chosen with Some j => j | None => VNone end.
Proof.
  intros H. apply get_iso_inv in H; [| reflexivity].
  destruct H as (did & wa & a & wb & pid & wc & zid & wd & isos & chosen
                 & Hd & Ha & Hp & Hz & Hcs & Hsel & -> & ->).
  pose proof (emits_get_domain _ _ _ _ _ Hd) as Ed.
  pose proof (emits_get_account _ _ _ _ _ Ha) as Ea.
  pose proof (emits_get_project _ _ _ _ _ Hp) as Ep.
  pose proof (emits_get_zone _ _ _ _ _ Hz) as Ez.
  pose proof (extends_trans _ _ _ _ (extends_trans _ _ _ _
                (extends_trans _ _ _ _ Ed Ea) Ep) Ez) as (pre & Hpre & HF).
  cbn in Hpre.
  apply get_domain_ok in Hd as [Kd Ad]; [| reflexivity].
  apply get_account_ok in Ha as [Ka Aa]; [| reflexivity].
  apply get_project_ok in Hp as [Kp Ap]; [| reflexivity].
  apply get_zone_ok in Hz as [Kz Az]; [| reflexivity].
  pose proof (keeps_trans _ _ _ _ Kp Kz) as Kpz.
  pose proof (keeps_trans _ _ _ _ Ka Kpz) as Kaz.
  pose proof (keeps_trans _ _ _ _ Kd Kaz) as Kdz.
  exists did, a, pid, zid, pre, isos, chosen.
  assert (Hself : forall f : self_t -> value,
             (forall j s, f (set_iso j s) = f s) ->
             f match chosen with Some j => set_iso j (self wd) | None => self wd end
             = f (self wd)).
  { intros f Hf. destruct chosen; [apply Hf | reflexivity]. }
  repeat apply conj.
  - eapply answers_eq; [| eapply answers_eq; [| exact Ad]].
    + cbn [self]. apply (Hself domain); reflexivity.
    + apply (keeps_domain _ _ _ Kaz). eapply answers_settled; exact Ad.
  - eapply answers_eq; [| eapply answers_eq; [| exact Aa]].
    + cbn [self]. apply (Hself account); reflexivity.
    + apply (keeps_account _ _ _ Kpz). eapply answers_settled; exact Aa.
  - eapply answers_eq; [| eapply answers_eq; [| exact Ap]].
    + cbn [self]. apply (Hself project); reflexivity.
    + apply (keeps_project _ _ _ Kz). eapply answers_settled; exact Ap.
  - eapply answers_eq; [| exact Az].
    cbn [self]. apply (Hself zone); reflexivity.
  - cbn [self]. rewrite (Hself os_type) by reflexivity.
    rewrite (keeps_os_type _ _ _ Kdz); reflexivity.
  - cbn [self]. transitivity (result (self wd)).
    + destruct chosen; reflexivity.
    + rewrite (keeps_result _ _ _ Kdz); reflexivity.
  - cbn [log]. rewrite Hpre; reflexivity.
  - exact HF.
  - rewrite <- Hpre; exact Hcs.
  - exact Hsel.
  - cbn [self]. destruct chosen; cbn; [reflexivity |].
    rewrite (keeps_iso _ _ _ Kdz); reflexivity.
Qed.


(** ** C8: lookup of an ISO by checksum *)

Lemma first_match_find (c : value) (l : list value) (r : option value) :
  first_match (AnsibleCloudStackIso.checksum_test c) l = Ok r ->
  r = find (checksum_is c) l.
Proof.
  induction l as [| x l IH]; cbn.
  - intros [= <-]; reflexivity.
  - unfold AnsibleCloudStackIso.checksum_test, checksum_is.
    destruct (Py.getitem x "checksum") as [v | |]; cbn; try discriminate.
    destruct (Py.eqb v c); [intros [= <-]; reflexivity | exact IH].
Qed.

Lemma resolver_call_cases (c : call) :
  is_resolver_call c ->
  In (action c)
     ["listDomains"; "listAccounts"; "listProjects"; "listZones"; "listOsTypes"].
Proof.
  unfold is_resolver_call, resolver_call. intros H.
  apply existsb_exists in H as (a & Hin & Heq).
  apply String.eqb_eq in Heq as ->. exact Hin.
Qed.

Lemma resolver_not_list_isos (c : call) :
  is_resolver_call c -> action c <> "listIsos".
Proof.
  intros H He. apply resolver_call_cases in H. rewrite He in H.
  cbn in H. intuition discriminate.
Qed.

Lemma resolver_not_mutating (c : call) :
  is_resolver_call c -> mutating c = false.
Proof.
  intros H. apply resolver_call_cases in H. unfold mutating.
  cbn in H. intuition (match goal with E : _ = action c |- _ => rewrite <- E end; reflexivity).
Qed.

(** C8.  When a checksum is given, a [get_iso] that returns has issued
    one [listIsos] call, the last call of its log, whose arguments have no
    [name]; it returns [None] for an empty response and else the first
    listed ISO whose checksum equals the given one ([None] when there is
    none). *)
Theorem iso_found_by_checksum (E : env) (i : value) (w' : world) :
  Py.truthy (param E "checksum") = true ->
  AnsibleCloudStackIso.get_iso E init_world = (Ok i, w') ->
  exists pre xs isos,
    log w' = (pre ++ [Call "listIsos" xs])%list /\
    Forall (fun c => action c <> "listIsos") pre /\
    Py.lookup "name" xs = None /\
    cs E pre (Call "listIsos" xs) = Reply isos /\
    (Py.truthy isos = false -> i = VNone) /\
    (Py.truthy isos = true ->
     exists l, (let! x := Py.getitem isos "iso" in Py.iter x) = Ok l /\
               i = match find (checksum_is (param E "checksum")) l with
                   | Some j => j
                   | None => VNone
                   end).
Proof.
  intros Hck H. apply get_iso_first in H.
  destruct H as (did & a & pid & zid & pre & isos & chosen
                 & _ & _ & _ & _ & _ & _ & Hlog & HF & Hcs & Hsel & ->).
  exists pre, (AnsibleCloudStackIso.list_isos_args E did a pid zid), isos.
  repeat apply conj; try assumption.
  - eapply Forall_impl; [| exact HF]. apply resolver_not_list_isos.
  - unfold AnsibleCloudStackIso.list_isos_args. rewrite Hck. reflexivity.
  - intros Hf. unfold AnsibleCloudStackIso.select_iso in Hsel.
    rewrite Hf in Hsel. injection Hsel as <-. reflexivity.
  - intros Ht. unfold AnsibleCloudStackIso.select_iso in Hsel.
    rewrite Ht, Hck in Hsel. cbn [negb] in Hsel.
    destruct (Py.getitem isos "iso") as [x | |]; cbn [obind] in *; try discriminate.
    destruct (Py.iter x) as [l | |]; cbn [obind] in *; try discriminate.
    exists l. split; [reflexivity |].
    rewrite (first_match_find _ _ _ Hsel). reflexivity.
Qed.

Lemma iso_found_by_checksum_witness :
  exists pre xs isos,
    log (snd (AnsibleCloudStackIso.get_iso checksum_env init_world))
    = (pre ++ [Call "listIsos" xs])%list /\
    Forall (fun c => action c <> "listIsos") pre /\
    Py.lookup "name" xs = None /\
    cs checksum_env pre (Call "listIsos" xs) = Reply isos /\
    (Py.truthy isos = false -> debian_iso = VNone) /\
    (Py.truthy isos = true ->
     exists l, (let! x := Py.getitem isos "iso" in Py.iter x) = Ok l /\
               debian_iso
               = match find (checksum_is (param checksum_env "checksum")) l with
                 | Some j => j
                 | None => VNone
                 end).
Proof.
  apply (iso_found_by_checksum checksum_env debian_iso
           (snd (AnsibleCloudStackIso.get_iso checksum_env init_world)));
    [reflexivity | vm_compute; reflexivity].
Defined.

(** ** C2: a bootable ISO without OS type *)

Lemma get_os_type_absent (E : env) (key : option string) (w : world) :
  Py.truthy (os_type (self w)) = false ->
  Py.truthy (param E "os_type") = false ->
  AnsibleCloudStack.get_os_type E key w = (Ok VNone, w).
Proof.
  intros Hc Hp. unfold AnsibleCloudStack.get_os_type.
  rewrite bind_gets, Hc, Hp. reflexivity.
Qed.

(** C2 (amended).  With [state=present], [bootable] true and no OS type,
    when the lookup finds no ISO the invocation fails with the message
    that names [os_type], right after the lookup: the calls issued are
    those of the lookup (resolver listings and [listIsos]), none of them
    mutating. *)
Theorem bootable_needs_os_type (E : env) (i : value) (w1 : world) :
  Py.in_list (param E "state") [VStr "absent"] = false ->
  Py.truthy (param E "bootable") = true ->
  Py.truthy (param E "os_type") = false ->
  AnsibleCloudStackIso.get_iso E init_world = (Ok i, w1) ->
  Py.truthy i = false ->
  AnsibleCloudStackIso.main E = (Exit os_type_message, w1) /\
  Forall (fun c => mutating c = false) (log w1).
Proof.
  intros Hstate Hboot Hos Hget Hi.
  pose proof (get_iso_first _ _ _ Hget)
    as (did & a & pid & zid & pre & isos & chosen
        & Ad & Aa & Ap & Az & Hot & _ & Hlog & HF & _ & _ & _).
  split.
  - unfold AnsibleCloudStackIso.main, AnsibleCloudStackIso.run.
    rewrite Hstate.
    erewrite bind_exit; [reflexivity |].
    unfold AnsibleCloudStackIso.register_iso.
    rewrite (bind_ok _ _ _ _ _ Hget), Hi. cbn [negb].
    rewrite (bind_ok _ _ _ _ _ (get_zone_again _ _ _ _ Az)).
    rewrite (bind_ok _ _ _ _ _ (get_domain_again _ _ _ _ Ad)).
    rewrite (bind_ok _ _ _ _ _ (get_account_again _ _ _ _ Aa)).
    rewrite (bind_ok _ _ _ _ _ (get_project_again _ _ _ _ Ap)).
    erewrite bind_ok
      by (apply get_os_type_absent; [rewrite Hot; reflexivity | exact Hos]).
    rewrite Hboot. reflexivity.
  - rewrite Hlog. apply Forall_app; split.
    + eapply Forall_impl; [| exact HF]. apply resolver_not_mutating.
    + repeat constructor.
Qed.

Lemma bootable_needs_os_type_witness :
  AnsibleCloudStackIso.main scenario_D
  = (Exit os_type_message,
     snd (AnsibleCloudStackIso.get_iso scenario_D init_world)) /\
  Forall (fun c => mutating c = false)
         (log (snd (AnsibleCloudStackIso.get_iso scenario_D init_world))).
Proof.
  apply (bootable_needs_os_type scenario_D VNone); reflexivity.
Defined.

(** C2 as stated fails: the failure comes after the calls of the lookup,
    and with the ISO registered already there is no failure. *)
Lemma os_type_check_comes_after_lookup :
  (fst (AnsibleCloudStackIso.main scenario_D) = Exit os_type_message /\
   map action (log (snd (AnsibleCloudStackIso.main scenario_D)))
   = ["listZones"; "listIsos"]) /\
  fst (AnsibleCloudStackIso.main scenario_D_registered)
  = Ok [("changed", VBool false); ("name", VStr "deb"); ("checksum", VStr "abc")].
Proof. repeat apply conj; vm_compute; reflexivity. Qed.


(** ** C6: check mode *)

Lemma emits_quiet_resolver {A} (m : M A) :
  emits is_resolver_call m -> emits quiet m.
Proof. apply emits_weaken. exact resolver_not_mutating. Qed.

Lemma dry_domain_run (E : env) :
  check_mode E = true -> emits quiet (AnsibleCloudStackDomain.run E).
Proof.
  intros Hchk.
  unfold AnsibleCloudStackDomain.run, AnsibleCloudStackDomain.absent_domain,
    AnsibleCloudStackDomain.present_domain, AnsibleCloudStackDomain._create_domain,
    AnsibleCloudStackDomain._update_domain, AnsibleCloudStackDomain.get_parent_domain,
    AnsibleCloudStackDomain.get_name, AnsibleCloudStackDomain.get_domain,
    AnsibleCloudStackDomain._get_domain_internal,
    AnsibleCloudStackDomain.get_result, AnsibleCloudStackDomain.report.
  rewrite Hchk. cbn [negb]. emits_go.
Qed.

Lemma dry_iso_run (E : env) :
  check_mode E = true -> emits quiet (AnsibleCloudStackIso.run E).
Proof.
  intros Hchk.
  pose proof (emits_quiet_resolver _ (emits_get_domain E (Some "id"))).
  pose proof (emits_quiet_resolver _ (emits_get_account E (Some "name"))).
  pose proof (emits_quiet_resolver _ (emits_get_project E (Some "id"))).
  pose proof (emits_quiet_resolver _ (emits_get_zone E (Some "id"))).
  pose proof (emits_quiet_resolver _ (emits_get_os_type E (Some "id"))).
  unfold AnsibleCloudStackIso.run, AnsibleCloudStackIso.register_iso,
    AnsibleCloudStackIso.remove_iso, AnsibleCloudStackIso.get_iso,
    AnsibleCloudStackIso.get_result, AnsibleCloudStackIso.report.
  rewrite Hchk. cbn [negb]. emits_go.
Qed.

Lemma dry_ensure_tags (E : env) (resource rt : value) :
  check_mode E = true ->
  emits quiet (AnsibleCloudStack.ensure_tags E resource rt).
Proof.
  intros Hchk.
  unfold AnsibleCloudStack.ensure_tags, AnsibleCloudStack._delete_tags,
    AnsibleCloudStack._create_tags, AnsibleCloudStack.get_tags.
  rewrite Hchk. cbn [negb]. emits_go.
Qed.

Lemma emits_from_init {A} (P : call -> Prop) (m : M A) :
  emits P m -> Forall P (log (snd (m init_world))).
Proof.
  intros H. destruct (m init_world) as [o w] eqn:E.
  destruct (H _ _ _ E) as (ext & Hl & HF). cbn [snd]. rewrite Hl. exact HF.
Qed.

Lemma domain_main_log (E : env) :
  log (snd (AnsibleCloudStackDomain.main E))
  = log (snd (AnsibleCloudStackDomain.run E init_world)).
Proof.
  unfold AnsibleCloudStackDomain.main.
  destruct (AnsibleCloudStackDomain.run E init_world) as [[r | msg | []] w];
    reflexivity.
Qed.

Lemma iso_main_log (E : env) :
  log (snd (AnsibleCloudStackIso.main E))
  = log (snd (AnsibleCloudStackIso.run E init_world)).
Proof.
  unfold AnsibleCloudStackIso.main.
  destruct (AnsibleCloudStackIso.run E init_world) as [[r | msg | []] w];
    reflexivity.
Qed.

Lemma log_free_lift {A} (o : outcome A) : log_free (lift o).
Proof. intros w o' w' w2 [= <- <-] Hs; exists w2; split; [reflexivity | exact Hs]. Qed.

Lemma log_free_ret {A} (a : A) : log_free (ret a).
Proof. apply (log_free_lift (Ok a)). Qed.

Lemma log_free_gets {A} (f : self_t -> A) : log_free (gets f).
Proof.
  intros w o' w' w2 [= <- <-] Hs; exists w2; split; [| exact Hs].
  unfold gets; rewrite Hs; reflexivity.
Qed.

Lemma log_free_modify (f : self_t -> self_t) : log_free (modify f).
Proof.
  intros w o' w' w2 [= <- <-] Hs. eexists; split; [reflexivity |].
  cbn; rewrite Hs; reflexivity.
Qed.

Lemma log_free_bind {A B} (m : M A) (k : A -> M B) :
  log_free m -> (forall a, log_free (k a)) -> log_free (bind m k).
Proof.
  intros Hm Hk w o w' w2 H Hs. unfold bind in *.
  destruct (m w) as [[a | msg | e] w1] eqn:E;
    destruct (Hm _ _ _ _ E Hs) as (w21 & -> & Hs1).
  - eapply Hk; eassumption.
  - injection H as <- <-; eauto.
  - injection H as <- <-; eauto.
Qed.

Ltac log_free_go :=
  repeat
    (first
       [ apply log_free_ret | apply log_free_lift | apply log_free_gets
       | apply log_free_modify
       | apply log_free_bind; [| intros ?]
       | match goal with
         | |- log_free (if ?b then _ else _) => destruct b
         end ]).

Lemma log_free_domain_result (d : value) :
  log_free (AnsibleCloudStackDomain.get_result d).
Proof.
  unfold AnsibleCloudStackDomain.get_result, AnsibleCloudStackDomain.report,
    result_set.
  log_free_go.
Qed.

Lemma log_free_iso_result (i : value) :
  log_free (AnsibleCloudStackIso.get_result i).
Proof.
  unfold AnsibleCloudStackIso.get_result, AnsibleCloudStackIso.report,
    result_set.
  log_free_go.
Qed.

Lemma keeps_changed_lift {A} (o : outcome A) : keeps_changed (lift o).
Proof. intros w o' w' [= _ <-]; reflexivity. Qed.

Lemma keeps_changed_ret {A} (a : A) : keeps_changed (ret a).
Proof. apply (keeps_changed_lift (Ok a)). Qed.

Lemma keeps_changed_bind {A B} (m : M A) (k : A -> M B) :
  keeps_changed m -> (forall a, keeps_changed (k a)) -> keeps_changed (bind m k).
Proof.
  intros Hm Hk w o w' H. unfold bind in H.
  destruct (m w) as [[a | msg | e] w1] eqn:E; specialize (Hm _ _ _ E).
  - rewrite <- Hm. eapply Hk; exact H.
  - injection H as _ <-; exact Hm.
  - injection H as _ <-; exact Hm.
Qed.

Lemma keeps_changed_result_set (k : string) (v : value) :
  k <> "changed" -> keeps_changed (result_set k v).
Proof.
  intros Hk w o w' [= _ <-]. unfold changed_of, Py.get; cbn.
  rewrite lookup_setitem_ne by congruence. reflexivity.
Qed.

Lemma keeps_changed_iso_report (src : value) (k rk : string) :
  rk <> "changed" -> keeps_changed (AnsibleCloudStackIso.report src k rk).
Proof.
  intros Hk. unfold AnsibleCloudStackIso.report.
  apply keeps_changed_bind; [apply keeps_changed_lift |].
  intros []; [| apply keeps_changed_ret].
  apply keeps_changed_bind; [apply keeps_changed_lift |].
  intros v; apply keeps_changed_result_set; exact Hk.
Qed.

Lemma iso_result_changed (i : value) (w : world) (r : dict) (w' : world) :
  AnsibleCloudStackIso.get_result i w = (Ok r, w') ->
  Py.get r "changed" = changed_of w.
Proof.
  unfold AnsibleCloudStackIso.get_result. intros H.
  apply bind_inv_ok in H as ([] & w1 & H & Hr).
  injection Hr as <- _. fold (changed_of w1).
  match type of H with
  | ?m w = _ => assert (K : keeps_changed m)
  end.
  { destruct (Py.truthy i); [| apply keeps_changed_ret].
    repeat first [ apply keeps_changed_iso_report; discriminate
                 | apply keeps_changed_bind; [| intros ?] ]. }
  exact (K _ _ _ H).
Qed.

(** A live run that completes, and the run in check mode. *)

Lemma absent_domain_dry (p : dict) (c : oracle) (w : world) (v : value) (w' : world) :
  AnsibleCloudStackDomain.absent_domain (Env p false c) w = (Ok v, w') ->
  AnsibleCloudStackDomain.absent_domain (Env p true c) w = (Ok v, w').
Proof.
  unfold AnsibleCloudStackDomain.absent_domain. cbn [check_mode negb]. intros H.
  apply bind_inv_ok in H as (d & w1 & Hg & H).
  change (AnsibleCloudStackDomain.get_domain (Env p true c) None)
    with (AnsibleCloudStackDomain.get_domain (Env p false c) None).
  rewrite (bind_ok _ _ _ _ _ Hg).
  destruct (Py.truthy d); [| exact H].
  exfalso.
  apply bind_inv_ok in H as (? & ? & _ & H).
  apply bind_inv_ok in H as (? & ? & _ & H).
  apply bind_inv_ok in H as (? & ? & _ & H).
  discriminate.
Qed.

Lemma error_check_inv (res : value) (w w' : world) :
  (err <- lift (Py.contains (VStr "errortext") res) ;;
   (if err then
      e <- lift (Py.getitem res "errortext") ;; fail_fmt "Failed: '" e "'"
    else ret tt)) w = (Ok tt, w') ->
  w' = w.
Proof.
  intros H. apply bind_inv_ok in H as (err & w1 & Hl & H).
  apply lift_inv in Hl as [_ ->]. destruct err.
  - apply bind_inv_ok in H as (e & w2 & _ & H).
    apply fail_fmt_not_ok in H; contradiction.
  - injection H as <-; reflexivity.
Qed.

Lemma create_domain_dry (p : dict) (c : oracle) (d : value) (w : world)
      (x : value) (w' : world) :
  AnsibleCloudStackDomain._create_domain (Env p false c) d w = (Ok x, w') ->
  exists w2,
    AnsibleCloudStackDomain._create_domain (Env p true c) d w = (Ok d, w2) /\
    self w2 = self w'.
Proof.
  unfold AnsibleCloudStackDomain._create_domain. cbn [check_mode negb]. intros H.
  apply bind_inv_ok in H as ([] & w1 & Hm & H). rewrite (bind_ok _ _ _ _ _ Hm).
  apply bind_inv_ok in H as (name & w2 & Hn & H).
  change (AnsibleCloudStackDomain.get_name (Env p true c))
    with (AnsibleCloudStackDomain.get_name (Env p false c)).
  rewrite (bind_ok _ _ _ _ _ Hn).
  apply bind_inv_ok in H as (parent & w3 & Hp & H).
  change (AnsibleCloudStackDomain.get_parent_domain (Env p true c))
    with (AnsibleCloudStackDomain.get_parent_domain (Env p false c)).
  rewrite (bind_ok _ _ _ _ _ Hp).
  exists w3. split; [reflexivity |].
  apply bind_inv_ok in H as (res & w4 & Hapi & H).
  apply api_inv in Hapi as [-> _].
  rewrite <- bind_assoc in H.
  apply bind_inv_ok in H as ([] & w5 & He & H).
  apply error_check_inv in He as ->.
  apply lift_inv in H as [_ ->]. reflexivity.
Qed.

Lemma update_domain_dry (p : dict) (c : oracle) (d : value) (w : world)
      (r : value * value) (w' : world) :
  AnsibleCloudStackDomain._update_domain (Env p false c) d w = (Ok r, w') ->
  exists r2 w2,
    AnsibleCloudStackDomain._update_domain (Env p true c) d w = (Ok r2, w2) /\
    snd r2 = snd r /\ self w2 = self w'.
Proof.
  unfold AnsibleCloudStackDomain._update_domain. cbn [check_mode negb]. intros H.
  apply bind_inv_ok in H as (id & w1 & Hid & H). rewrite (bind_ok _ _ _ _ _ Hid).
  destruct d; try discriminate.
  apply bind_inv_ok in H as ([b d'] & w2 & Hc & H).
  change (param (Env p true c) "network_domain")
    with (param (Env p false c) "network_domain").
  rewrite (bind_ok _ _ _ _ _ Hc). cbn [fst snd] in *.
  destruct b.
  - apply bind_inv_ok in H as ([] & w3 & Hm & H). rewrite (bind_ok _ _ _ _ _ Hm).
    eexists; exists w3. split; [reflexivity |].
    apply bind_inv_ok in H as (res & w4 & Hapi & H).
    apply api_inv in Hapi as [-> _].
    rewrite <- bind_assoc in H.
    apply bind_inv_ok in H as ([] & w5 & He & H).
    apply error_check_inv in He as ->.
    apply bind_inv_ok in H as (u & w6 & Hl & H).
    apply lift_inv in Hl as [_ ->].
    injection H as <- <-. split; reflexivity.
  - injection H as <- <-. eexists; eexists. split; [reflexivity |].
    split; reflexivity.
Qed.

Lemma present_domain_dry (p : dict) (c : oracle) (w : world)
      (v : value) (w' : world) :
  AnsibleCloudStackDomain.present_domain (Env p false c) w = (Ok v, w') ->
  exists w2,
    AnsibleCloudStackDomain.present_domain (Env p true c) w = (Ok v, w2) /\
    self w2 = self w'.
Proof.
  unfold AnsibleCloudStackDomain.present_domain. intros H.
  apply bind_inv_ok in H as (d & w1 & Hg & H).
  change (AnsibleCloudStackDomain.get_domain (Env p true c) None)
    with (AnsibleCloudStackDomain.get_domain (Env p false c) None).
  rewrite (bind_ok _ _ _ _ _ Hg).
  destruct (Py.truthy d); cbn [negb] in *.
  - apply bind_inv_ok in H as (r & w2 & Hu & H).
    apply update_domain_dry in Hu as (r2 & w3 & Hu & Hr & Hs).
    rewrite (bind_ok _ _ _ _ _ Hu). rewrite bind_modify in *.
    injection H as <- <-. rewrite Hr. eexists; split; [reflexivity |].
    cbn. rewrite Hs. reflexivity.
  - apply bind_inv_ok in H as (x & w2 & Hcr & H).
    apply create_domain_dry in Hcr as (w3 & Hcr & Hs).
    rewrite (bind_ok _ _ _ _ _ Hcr).
    injection H as <- <-. exists w3; split; [reflexivity | exact Hs].
Qed.

Lemma remove_iso_dry (p : dict) (c : oracle) (w : world) (v : value) (w' : world) :
  AnsibleCloudStackIso.remove_iso (Env p false c) w = (Ok v, w') ->
  exists w2,
    AnsibleCloudStackIso.remove_iso (Env p true c) w = (Ok v, w2) /\
    self w2 = self w'.
Proof.
  unfold AnsibleCloudStackIso.remove_iso. cbn [check_mode negb]. intros H.
  apply bind_inv_ok in H as (i & w1 & Hg & H).
  change (AnsibleCloudStackIso.get_iso (Env p true c))
    with (AnsibleCloudStackIso.get_iso (Env p false c)).
  rewrite (bind_ok _ _ _ _ _ Hg).
  destruct (Py.truthy i);
    [| injection H as <- <-; exists w1; split; reflexivity].
  apply bind_inv_ok in H as ([] & w2 & Hm & H). rewrite (bind_ok _ _ _ _ _ Hm).
  apply bind_inv_ok in H as (id & w3 & Hid & H). rewrite (bind_ok _ _ _ _ _ Hid).
  apply bind_inv_ok in H as (pid & w4 & Hp & H).
  change (AnsibleCloudStack.get_project (Env p true c))
    with (AnsibleCloudStack.get_project (Env p false c)).
  rewrite (bind_ok _ _ _ _ _ Hp).
  apply bind_inv_ok in H as (zid & w5 & Hz & H).
  change (AnsibleCloudStack.get_zone (Env p true c))
    with (AnsibleCloudStack.get_zone (Env p false c)).
  rewrite (bind_ok _ _ _ _ _ Hz).
  apply bind_inv_ok in H as (res & w6 & Hapi & H).
  apply api_inv in Hapi as [-> _].
  injection H as <- <-. exists w5; split; reflexivity.
Qed.

Lemma register_iso_dry (p : dict) (c : oracle) (w : world) (v : value) (w' : world) :
  AnsibleCloudStackIso.register_iso (Env p false c) w = (Ok v, w') ->
  exists v2 w2,
    AnsibleCloudStackIso.register_iso (Env p true c) w = (Ok v2, w2) /\
    ((v2 = v /\ w2 = w') \/
     (Py.truthy v2 = false /\ changed_of w2 = VBool true /\
      changed_of w' = VBool true)).
Proof.
  unfold AnsibleCloudStackIso.register_iso. cbn [check_mode negb]. intros H.
  apply bind_inv_ok in H as (i & w1 & Hg & H).
  change (AnsibleCloudStackIso.get_iso (Env p true c))
    with (AnsibleCloudStackIso.get_iso (Env p false c)).
  rewrite (bind_ok _ _ _ _ _ Hg).
  destruct (Py.truthy i) eqn:Hi; cbn [negb] in *;
    [injection H as <- <-; exists i, w1; split;
     [reflexivity | left; split; reflexivity] |].
  apply bind_inv_ok in H as (zid & w2 & Hz & H).
  change (AnsibleCloudStack.get_zone (Env p true c))
    with (AnsibleCloudStack.get_zone (Env p false c)).
  rewrite (bind_ok _ _ _ _ _ Hz).
  apply bind_inv_ok in H as (did & w3 & Hd & H).
  change (AnsibleCloudStack.get_domain (Env p true c))
    with (AnsibleCloudStack.get_domain (Env p false c)).
  rewrite (bind_ok _ _ _ _ _ Hd).
  apply bind_inv_ok in H as (a & w4 & Ha & H).
  change (AnsibleCloudStack.get_account (Env p true c))
    with (AnsibleCloudStack.get_account (Env p false c)).
  rewrite (bind_ok _ _ _ _ _ Ha).
  apply bind_inv_ok in H as (pid & w5 & Hp & H).
  change (AnsibleCloudStack.get_project (Env p true c))
    with (AnsibleCloudStack.get_project (Env p false c)).
  rewrite (bind_ok _ _ _ _ _ Hp).
  apply bind_inv_ok in H as (oid & w6 & Ho & H).
  change (AnsibleCloudStack.get_os_type (Env p true c))
    with (AnsibleCloudStack.get_os_type (Env p false c)).
  rewrite (bind_ok _ _ _ _ _ Ho).
  change (param (Env p true c)) with (param (Env p false c)).
  destruct (Py.truthy (param (Env p false c) "bootable") && negb (Py.truthy oid));
    [discriminate |].
  destruct (Py.truthy (param (Env p false c) "url")); cbn [negb] in *;
    [| discriminate].
  apply bind_inv_ok in H as ([] & w7 & Hm & H). rewrite (bind_ok _ _ _ _ _ Hm).
  injection Hm as <-.
  apply bind_inv_ok in H as (res & w8 & Hapi & H).
  apply api_inv in Hapi as [-> _].
  apply lift_inv in H as [_ ->].
  exists i; eexists. split; [reflexivity |]. right.
  split; [exact Hi |].
  unfold changed_of, Py.get; cbn [self result set_result].
  rewrite lookup_setitem_same. split; reflexivity.
Qed.


Lemma iso_main_ok (E : env) (r : dict) (w : world) :
  AnsibleCloudStackIso.main E = (Ok r, w)
  <-> AnsibleCloudStackIso.run E init_world = (Ok r, w).
Proof.
  unfold AnsibleCloudStackIso.main.
  destruct (AnsibleCloudStackIso.run E init_world) as [[r0 | msg | []] w0];
    split; intros H; try exact H; discriminate.
Qed.

Lemma domain_run_dry (p : dict) (c : oracle) (r : dict) (w : world) :
  AnsibleCloudStackDomain.run (Env p false c) init_world = (Ok r, w) ->
  exists w', AnsibleCloudStackDomain.run (Env p true c) init_world = (Ok r, w').
Proof.
  unfold AnsibleCloudStackDomain.run. intros H.
  apply bind_inv_ok in H as (d & w1 & Hop & H).
  change (param (Env p true c)) with (param (Env p false c)).
  assert (exists w2,
             (if Py.in_list (param (Env p false c) "state") [VStr "absent"]
              then AnsibleCloudStackDomain.absent_domain (Env p true c)
              else AnsibleCloudStackDomain.present_domain (Env p true c))
               init_world = (Ok d, w2) /\ self w2 = self w1)
    as (w2 & Hdry & Hs).
  { destruct (Py.in_list (param (Env p false c) "state") [VStr "absent"]).
    - apply absent_domain_dry in Hop. eauto.
    - apply present_domain_dry in Hop. exact Hop. }
  rewrite (bind_ok _ _ _ _ _ Hdry).
  destruct (log_free_domain_result d _ _ _ w2 H Hs) as (w2' & Hr & _).
  eauto.
Qed.

Lemma iso_run_dry (p : dict) (c : oracle) (r : dict) (w : world) :
  AnsibleCloudStackIso.run (Env p false c) init_world = (Ok r, w) ->
  exists r' w',
    AnsibleCloudStackIso.run (Env p true c) init_world = (Ok r', w') /\
    Py.get r' "changed" = Py.get r "changed".
Proof.
  unfold AnsibleCloudStackIso.run. intros H.
  apply bind_inv_ok in H as (i & w1 & Hop & H).
  change (param (Env p true c)) with (param (Env p false c)).
  destruct (Py.in_list (param (Env p false c) "state") [VStr "absent"]).
  - apply remove_iso_dry in Hop as (w2 & Hdry & Hs).
    rewrite (bind_ok _ _ _ _ _ Hdry).
    destruct (log_free_iso_result i _ _ _ w2 H Hs) as (w2' & Hr & _).
    eauto.
  - apply register_iso_dry in Hop
      as (i2 & w2 & Hdry & [[-> ->] | (Hi & Hc2 & Hc1)]);
      rewrite (bind_ok _ _ _ _ _ Hdry); [eauto |].
    rewrite (iso_result_changed _ _ _ _ H), Hc1.
    unfold AnsibleCloudStackIso.get_result. rewrite Hi.
    rewrite bind_ret. unfold gets.
    eexists; eexists; split; [reflexivity | exact Hc2].
Qed.

(** C6 (amended).  In check mode neither module issues a mutating call,
    and neither does [ensure_tags]; and whenever the live invocation
    completes, the invocation in check mode completes too and reports the
    same [changed] (for the domain module the same result). *)
Theorem dry_run_mirrors_live (p : dict) (c : oracle) :
  Forall quiet (log (snd (AnsibleCloudStackDomain.main (Env p true c)))) /\
  Forall quiet (log (snd (AnsibleCloudStackIso.main (Env p true c)))) /\
  (forall resource rt,
      Forall quiet
        (log (snd (AnsibleCloudStack.ensure_tags (Env p true c) resource rt
                     init_world)))) /\
  (forall r w,
      AnsibleCloudStackDomain.main (Env p false c) = (Ok r, w) ->
      exists w', AnsibleCloudStackDomain.main (Env p true c) = (Ok r, w')) /\
  (forall r w,
      AnsibleCloudStackIso.main (Env p false c) = (Ok r, w) ->
      exists r' w',
        AnsibleCloudStackIso.main (Env p true c) = (Ok r', w') /\
        Py.get r' "changed" = Py.get r "changed").
Proof.
  repeat apply conj.
  - rewrite domain_main_log. apply emits_from_init, dry_domain_run; reflexivity.
  - rewrite iso_main_log. apply emits_from_init, dry_iso_run; reflexivity.
  - intros resource rt. apply emits_from_init, dry_ensure_tags; reflexivity.
  - intros r w H. apply domain_main_ok, domain_run_dry in H as (w' & H).
    exists w'. apply domain_main_ok; exact H.
  - intros r w H. apply iso_main_ok, iso_run_dry in H as (r' & w' & H & Hc).
    exists r', w'. split; [apply iso_main_ok; exact H | exact Hc].
Qed.

Lemma dry_run_mirrors_live_witness :
  exists r' w',
    AnsibleCloudStackIso.main (Env register_params true registering_cs)
    = (Ok r', w') /\
    Py.get r' "changed" = VBool true.
Proof.
  destruct (dry_run_mirrors_live register_params registering_cs)
    as (_ & _ & _ & _ & H).
  apply (H [("changed", VBool true); ("name", VStr "deb"); ("checksum", VStr "abc")]
           (snd (AnsibleCloudStackIso.main (Env register_params false registering_cs)))).
  vm_compute; reflexivity.
Defined.

(** C6 as stated fails: where the platform refuses the registration the
    live invocation fails, and the invocation in check mode reports a
    change. *)
Lemma dry_run_cannot_foresee_failure :
  fst (AnsibleCloudStackIso.main (Env register_params true refusing_cs))
  = Ok [("changed", VBool true)] /\
  fst (AnsibleCloudStackIso.main (Env register_params false refusing_cs))
  = Exit "CloudStackException: Unable to register the ISO".
Proof. split; vm_compute; reflexivity. Qed.


(** ** C4: how a selector is matched by the resolvers *)


















(** * Further properties of the code *)

(** ** Resolvers: a second call *)

Lemma get_hypervisor_again (E : env) (n : value) (w w' : world) :
  AnsibleCloudStack.get_hypervisor E w = (Ok n, w') ->
  Py.truthy n = true ->
  AnsibleCloudStack.get_hypervisor E w' = (Ok n, w').
Proof.
  intros H Hn.
  assert (Hc : hypervisor (self w') = n).
  { unfold AnsibleCloudStack.get_hypervisor in H. rewrite bind_gets in H.
    destruct (Py.truthy (hypervisor (self w))).
    - injection H as <- <-; reflexivity.
    - apply bind_inv_ok in H as (hs & w1 & _ & H).
      destruct (negb (Py.truthy (param E "hypervisor"))).
      + apply bind_inv_ok in H as (x & w2 & _ & H).
        rewrite bind_modify in H. injection H as <- <-; reflexivity.
      + apply bind_inv_ok in H as (l & w2 & _ & H).
        apply bind_inv_ok in H as (found & w3 & _ & H).
        destruct found; [| apply fail_fmt_not_ok in H; contradiction].
        apply bind_inv_ok in H as (x & w4 & _ & H).
        rewrite bind_modify in H. injection H as <- <-; reflexivity. }
  unfold AnsibleCloudStack.get_hypervisor. rewrite bind_gets, Hc, Hn. reflexivity.
Qed.

Lemma domain_get_domain_again (E : env) (k : string) (v : value) (w w' : world) :
  Py.truthy (VStr k) = true ->
  AnsibleCloudStackDomain.get_domain E (Some k) w = (Ok v, w') ->
  AnsibleCloudStackDomain.get_domain E (Some k) w' = (Ok v, w').
Proof.
  intros Hk H. unfold AnsibleCloudStackDomain.get_domain in H.
  rewrite bind_gets in H.
  assert (exists w1, (d <- gets domain ;; AnsibleCloudStack._get_by_key (Some k) d) w1
                     = (Ok v, w')) as (w1 & H1).
  { destruct (negb (Py.truthy (domain (self w)))).
    - rewrite bind_assoc in H. apply bind_inv_ok in H as (d & w1 & _ & H).
      rewrite bind_modify in H. eexists; exact H.
    - rewrite bind_ret in H. eexists; exact H. }
  rewrite bind_gets in H1.
  pose proof (get_by_key_truthy _ _ _ _ _ Hk H1) as Ht.
  apply get_by_key_inv in H1 as [-> Hpure].
  unfold AnsibleCloudStackDomain.get_domain.
  rewrite bind_gets, Ht. cbn [negb]. rewrite bind_ret, bind_gets.
  apply Hpure.
Qed.

(** X1.  A resolver that has returned an entity item returns the same
    item when it is called again in the state it left, and issues no
    call for it. *)
Theorem resolvers_answer_again (E : env) (k : string) (v : value) (w w' : world) :
  Py.truthy (VStr k) = true ->
  (AnsibleCloudStack.get_zone E (Some k) w = (Ok v, w') ->
   AnsibleCloudStack.get_zone E (Some k) w' = (Ok v, w')) /\
  (AnsibleCloudStack.get_domain E (Some k) w = (Ok v, w') ->
   AnsibleCloudStack.get_domain E (Some k) w' = (Ok v, w')) /\
  (AnsibleCloudStack.get_account E (Some k) w = (Ok v, w') ->
   AnsibleCloudStack.get_account E (Some k) w' = (Ok v, w')) /\
  (AnsibleCloudStack.get_project E (Some k) w = (Ok v, w') ->
   AnsibleCloudStack.get_project E (Some k) w' = (Ok v, w')) /\
  (AnsibleCloudStackDomain.get_domain E (Some k) w = (Ok v, w') ->
   AnsibleCloudStackDomain.get_domain E (Some k) w' = (Ok v, w')) /\
  (AnsibleCloudStack.get_hypervisor E w = (Ok v, w') -> Py.truthy v = true ->
   AnsibleCloudStack.get_hypervisor E w' = (Ok v, w')).
Proof.
  intros Hk. repeat apply conj; intros H.
  - apply get_zone_again. exact (proj2 (get_zone_ok _ _ _ _ _ Hk H)).
  - apply get_domain_again. exact (proj2 (get_domain_ok _ _ _ _ _ Hk H)).
  - apply get_account_again. exact (proj2 (get_account_ok _ _ _ _ _ Hk H)).
  - apply get_project_again. exact (proj2 (get_project_ok _ _ _ _ _ Hk H)).
  - eapply domain_get_domain_again; eassumption.
  - intros Hn. eapply get_hypervisor_again; eassumption.
Qed.

Lemma resolvers_answer_again_witness :
  AnsibleCloudStack.get_zone exact_zone_env (Some "id")
    (snd (AnsibleCloudStack.get_zone exact_zone_env (Some "id") init_world))
  = (Ok (VStr "z1"),
     snd (AnsibleCloudStack.get_zone exact_zone_env (Some "id") init_world)).
Proof.
  apply (resolvers_answer_again exact_zone_env "id" (VStr "z1") init_world);
    reflexivity.
Defined.

(** ** Resolvers: the calls they issue *)

Lemma listing_not_mutating (c : call) : listing c -> mutating c = false.
Proof.
  unfold listing, mutating. intros H.
  destruct (existsb (String.eqb (action c)) _) eqn:Hex; [| reflexivity].
  apply existsb_exists in Hex as (a & Hin & Heq).
  apply String.eqb_eq in Heq. rewrite Heq in H.
  cbn in Hin. repeat (destruct Hin as [<- | Hin]; [discriminate |]).
  contradiction.
Qed.

(** X2.  Whatever their outcome, the resolvers, the tag listing and the
    lookups of both modules issue listing calls only; a listing call is
    never a mutating one. *)
Theorem lookups_only_list (E : env) (key : option string) :
  emits listing (AnsibleCloudStack.get_domain E key) /\
  emits listing (AnsibleCloudStack.get_account E key) /\
  emits listing (AnsibleCloudStack.get_project E key) /\
  emits listing (AnsibleCloudStack.get_zone E key) /\
  emits listing (AnsibleCloudStack.get_os_type E key) /\
  emits listing (AnsibleCloudStack.get_hypervisor E) /\
  (forall resource, emits listing (AnsibleCloudStack.get_tags E resource)) /\
  (forall path, emits listing (AnsibleCloudStackDomain._get_domain_internal E path)) /\
  emits listing (AnsibleCloudStackDomain.get_domain E key) /\
  emits listing (AnsibleCloudStackIso.get_iso E) /\
  (forall c, listing c -> mutating c = false).
Proof.
  assert (Hd : forall key, emits listing (AnsibleCloudStack.get_domain E key))
    by (intros; unfold AnsibleCloudStack.get_domain; emits_go).
  assert (Ha : forall key, emits listing (AnsibleCloudStack.get_account E key)).
  { intros; unfold AnsibleCloudStack.get_account.
    pose proof (Hd (Some "id")); emits_go. }
  assert (Hp : forall key, emits listing (AnsibleCloudStack.get_project E key)).
  { intros; unfold AnsibleCloudStack.get_project.
    pose proof (Hd (Some "id")); pose proof (Ha (Some "name")); emits_go. }
  assert (Hz : forall key, emits listing (AnsibleCloudStack.get_zone E key))
    by (intros; unfold AnsibleCloudStack.get_zone; emits_go).
  repeat apply conj; auto.
  - unfold AnsibleCloudStack.get_os_type; emits_go.
  - unfold AnsibleCloudStack.get_hypervisor; emits_go.
  - intros; unfold AnsibleCloudStack.get_tags; emits_go.
  - intros; unfold AnsibleCloudStackDomain._get_domain_internal; emits_go.
  - unfold AnsibleCloudStackDomain.get_domain,
      AnsibleCloudStackDomain._get_domain_internal; emits_go.
  - pose proof (Hd (Some "id")); pose proof (Ha (Some "name")).
    pose proof (Hp (Some "id")); pose proof (Hz (Some "id")).
    unfold AnsibleCloudStackIso.get_iso; emits_go.
  - exact listing_not_mutating.
Qed.


(** ** Resolvers: no match, no selector, empty listing *)

Lemma search_none_named (resp : value) (field name : string) (s : value)
      (test : value -> value -> outcome bool) (w : world) :
  (forall f n i,
      Py.lookup name f = Some n -> Py.lookup "id" f = Some i ->
      test s (VDict f) = Ok (Py.in_list s [n; i])) ->
  lists_no_match resp field name s ->
  AnsibleCloudStack.search resp field (test s) w = (Ok None, w).
Proof.
  intros Htest [Hf | (l & Hl & Hall)]; unfold AnsibleCloudStack.search.
  - rewrite Hf; reflexivity.
  - destruct (Py.truthy resp); [| reflexivity].
    rewrite Hl; cbn. mstep. unfold lift.
    rewrite first_match_none; [reflexivity |].
    eapply Forall_impl; [| exact Hall].
    intros x (f & n & i & -> & Hn & Hi & En & Ei).
    rewrite (Htest _ _ _ Hn Hi). cbn. rewrite En, Ei. reflexivity.
Qed.

Lemma zone_test_in_list (s : value) (f : dict) (n i : value) :
  Py.lookup "name" f = Some n -> Py.lookup "id" f = Some i ->
  AnsibleCloudStack.zone_test s (VDict f) = Ok (Py.in_list s [n; i]).
Proof.
  intros Hn Hi. unfold AnsibleCloudStack.zone_test; cbn.
  rewrite Hn; cbn. rewrite Hi; reflexivity.
Qed.

Lemma os_type_test_in_list (s : value) (f : dict) (n i : value) :
  Py.lookup "description" f = Some n -> Py.lookup "id" f = Some i ->
  AnsibleCloudStack.os_type_test s (VDict f) = Ok (Py.in_list s [n; i]).
Proof.
  intros Hn Hi. unfold AnsibleCloudStack.os_type_test; cbn.
  rewrite Hn; cbn. rewrite Hi; reflexivity.
Qed.

(** X3.  A zone or an OS type that is asked for by a non-empty string
    and matches no listed entity (by name or description, or by id) makes
    the resolver fail with the message that names the selector, after
    the one listing call. *)
Theorem selector_without_match (E : env) (key : option string) (s : string)
        (resp : value) (w : world) :
  s <> "" ->
  (Py.truthy (zone (self w)) = false ->
   param E "zone" = VStr s ->
   cs E (log w) (Call "listZones" []) = Reply resp ->
   lists_no_match resp "zone" "name" (VStr s) ->
   AnsibleCloudStack.get_zone E key w
   = (Exit ("zone '" ++ s ++ "' not found"), logged w (Call "listZones" []))) /\
  (Py.truthy (os_type (self w)) = false ->
   param E "os_type" = VStr s ->
   cs E (log w) (Call "listOsTypes" []) = Reply resp ->
   lists_no_match resp "ostype" "description" (VStr s) ->
   AnsibleCloudStack.get_os_type E key w
   = (Exit ("OS type '" ++ s ++ "' not found"), logged w (Call "listOsTypes" []))).
Proof.
  intros Hs.
  assert (Ht : Py.truthy (VStr s) = true)
    by (cbn; destruct s; [congruence | reflexivity]).
  split; intros Hc Hp Hcs Hno.
  - unfold AnsibleCloudStack.get_zone. rewrite bind_gets, Hc, Hp.
    rewrite (bind_api_reply _ _ _ resp) by exact Hcs. rewrite Ht. cbn [negb].
    erewrite bind_ok
      by (apply (search_none_named _ _ "name"); [apply zone_test_in_list | exact Hno]).
    reflexivity.
  - unfold AnsibleCloudStack.get_os_type. rewrite bind_gets, Hc, Hp, Ht.
    cbn [negb].
    rewrite (bind_api_reply _ _ _ resp) by exact Hcs.
    erewrite bind_ok
      by (apply (search_none_named _ _ "description");
          [apply os_type_test_in_list | exact Hno]).
    reflexivity.
Qed.

Lemma selector_without_match_witness :
  AnsibleCloudStack.get_zone missing_zone_env (Some "id") init_world
  = (Exit "zone 'zone9' not found", logged init_world (Call "listZones" [])).
Proof.
  destruct (selector_without_match missing_zone_env (Some "id") "zone9"
              (VDict [("count", VInt 1); ("zone", VList [zone1])]) init_world)
    as [H _]; [discriminate |].
  apply H; try reflexivity.
  right. exists [zone1]. split; [reflexivity |].
  repeat constructor.
  exists [("id", VStr "z1"); ("name", VStr "zone1")], (VStr "zone1"), (VStr "z1").
  repeat split; reflexivity.
Defined.

(** X4.  Without a [zone] parameter [get_zone] takes the first listed
    zone; on an empty listing response it does not fail with a message
    but raises [KeyError].  [get_hypervisor] raises [KeyError] on an
    empty response whether a hypervisor is asked for or not. *)
Theorem first_listed_or_key_error (E : env) (w : world) :
  (forall resp z rest,
      Py.truthy (zone (self w)) = false ->
      Py.truthy (param E "zone") = false ->
      cs E (log w) (Call "listZones" []) = Reply resp ->
      Py.getitem resp "zone" = Ok (VList (z :: rest)) ->
      AnsibleCloudStack.get_zone E None w
      = (Ok z, {| self := set_zone z (self w);
                  log := log w ++ [Call "listZones" []] |})) /\
  (forall key,
      Py.truthy (zone (self w)) = false ->
      Py.truthy (param E "zone") = false ->
      cs E (log w) (Call "listZones" []) = Reply (VDict []) ->
      AnsibleCloudStack.get_zone E key w
      = (Raise (KeyError "zone"), logged w (Call "listZones" []))) /\
  (Py.truthy (hypervisor (self w)) = false ->
   cs E (log w) (Call "listHypervisors" []) = Reply (VDict []) ->
   AnsibleCloudStack.get_hypervisor E w
   = (Raise (KeyError "hypervisor"), logged w (Call "listHypervisors" []))).
Proof.
  repeat apply conj.
  - intros resp z rest Hc Hp Hcs Hl.
    unfold AnsibleCloudStack.get_zone. rewrite bind_gets, Hc, Hp.
    rewrite (bind_api_reply _ _ _ resp) by exact Hcs. cbn [negb].
    rewrite Hl. reflexivity.
  - intros key Hc Hp Hcs.
    unfold AnsibleCloudStack.get_zone. rewrite bind_gets, Hc, Hp.
    rewrite (bind_api_reply _ _ _ (VDict [])) by exact Hcs. reflexivity.
  - intros Hc Hcs.
    unfold AnsibleCloudStack.get_hypervisor. rewrite bind_gets, Hc.
    rewrite (bind_api_reply _ _ _ (VDict [])) by exact Hcs.
    destruct (negb (Py.truthy (param E "hypervisor"))); reflexivity.
Qed.

Lemma first_listed_or_key_error_witness :
  AnsibleCloudStack.get_zone (Env [] false empty_cs) (Some "id") init_world
  = (Raise (KeyError "zone"), logged init_world (Call "listZones" [])) /\
  AnsibleCloudStack.get_hypervisor (Env [] false empty_cs) init_world
  = (Raise (KeyError "hypervisor"), logged init_world (Call "listHypervisors" [])).
Proof.
  destruct (first_listed_or_key_error (Env [] false empty_cs) init_world)
    as (_ & Hz & Hh).
  split; [apply Hz | apply Hh]; reflexivity.
Defined.


(** ** Tags: what [_delete_tags] removes *)

Lemma string_not_in_entries (k : string) (T : list (string * string)) :
  Py.in_list (VStr k) (map tag_entry T) = false.
Proof. induction T as [| kv T IH]; [reflexivity | exact IH]. Qed.

Lemma tags_to_delete_all (existing : list value) (T : list (string * string)) :
  keyed_tags existing ->
  AnsibleCloudStack.tags_to_delete existing (tag_list T) = Ok existing.
Proof.
  induction 1 as [| t l (f & k & -> & Hk) _ IH]; [reflexivity |].
  cbn [AnsibleCloudStack.tags_to_delete Py.getitem]. rewrite Hk.
  cbn [obind tag_list Py.contains]. rewrite string_not_in_entries.
  fold (tag_list T). rewrite IH. reflexivity.
Qed.

(** X5.  With the desired tags given as a list of entries, a live
    [_delete_tags] removes every tag the resource has, whatever the
    desired list holds: it marks the change and issues one [deleteTags]
    call that carries all existing tags. *)
Theorem delete_tags_removes_all (E : env) (resource rt rid : value)
        (existing : list value) (T : list (string * string)) (w : world) :
  check_mode E = false ->
  Py.getitem resource "tags" = Ok (VList existing) ->
  Py.getitem resource "id" = Ok rid ->
  existing <> [] -> keyed_tags existing ->
  snd (AnsibleCloudStack._delete_tags E resource rt (tag_list T) w)
  = {| self := set_result (Py.setitem (result (self w)) "changed" (VBool true))
                          (self w);
       log := log w ++ [delete_tags_call rid rt existing] |}.
Proof.
  intros Hchk Htags Hid Hne Hk. unfold AnsibleCloudStack._delete_tags.
  rewrite Htags. cbn [obind Py.iter]. mstep.
  rewrite (tags_to_delete_all _ _ Hk). mstep.
  destruct existing as [| t l]; [congruence |]. cbn [Py.truthy].
  rewrite Hchk, Hid. cbn [negb]. unfold mark_changed, result_set. mstep. mstep.
  unfold bind, api, ret, delete_tags_call. cbn [self log].
  destruct (cs E _ _); reflexivity.
Qed.

Lemma delete_tags_removes_all_witness :
  snd (AnsibleCloudStack._delete_tags tags_env tagged (VStr "ISO")
         (tag_list prod_tags) init_world)
  = {| self := set_result [("changed", VBool true)] init_self;
       log := [delete_tags_call (VStr "r1") (VStr "ISO")
                 [tag_entry ("env", "prod")]] |}.
Proof.
  apply (delete_tags_removes_all tags_env tagged (VStr "ISO") (VStr "r1")
           [tag_entry ("env", "prod")] prod_tags init_world);
    try reflexivity; [discriminate |].
  repeat constructor. eexists _, "env". split; reflexivity.
Defined.

(** X6.  With the desired tags given as a dict, [_delete_tags] raises
    [NameError] at the first existing tag whose key the dict has (the
    tags before it having other keys): no call is issued and nothing is
    marked. *)
Theorem delete_tags_name_error (E : env) (resource rt : value)
        (before after : list value) (f : dict) (k : string) (v x : value)
        (d : dict) (w : world) :
  Py.getitem resource "tags" = Ok (VList (before ++ VDict f :: after)) ->
  Forall (fun t => exists g j, t = VDict g /\ Py.lookup "key" g = Some (VStr j) /\
                               Py.lookup j d = None) before ->
  Py.lookup "key" f = Some (VStr k) -> Py.lookup "value" f = Some v ->
  Py.lookup k d = Some x ->
  AnsibleCloudStack._delete_tags E resource rt (VDict d) w
  = (Raise (NameError "key"), w).
Proof.
  intros Htags Hbefore Hk Hv Hd. unfold AnsibleCloudStack._delete_tags.
  rewrite Htags. cbn [obind Py.iter]. mstep.
  replace (AnsibleCloudStack.tags_to_delete (before ++ VDict f :: after) (VDict d))
    with (@Raise (list value) (NameError "key")); [reflexivity |].
  symmetry. clear Htags.
  induction Hbefore as [| t l (g & j & -> & Hj & Hn) _ IH].
  - cbn. rewrite Hk. cbn. rewrite Hd, Hv. reflexivity.
  - cbn [app AnsibleCloudStack.tags_to_delete Py.getitem]. rewrite Hj.
    cbn [obind Py.contains]. rewrite Hn. rewrite IH. reflexivity.
Qed.

Lemma delete_tags_name_error_witness :
  AnsibleCloudStack._delete_tags dict_tags_env tagged (VStr "ISO")
    (VDict [("env", VStr "prod")]) init_world
  = (Raise (NameError "key"), init_world).
Proof.
  apply (delete_tags_name_error dict_tags_env tagged (VStr "ISO") [] []
           [("key", VStr "env"); ("value", VStr "prod")] "env" (VStr "prod")
           (VStr "prod"));
    try reflexivity.
  constructor.
Defined.


(** ** Domain paths *)

Lemma lower_app (a b : string) : Py.lower (a ++ b) = Py.lower a ++ Py.lower b.
Proof. induction a as [| c a IH]; cbn; [reflexivity | rewrite IH; reflexivity]. Qed.

Lemma rooted_prefix (p : string) :
  Py.startswith (AnsibleCloudStackDomain.rooted p) "root/" = true.
Proof.
  unfold AnsibleCloudStackDomain.rooted, Py.startswith.
  destruct (String.prefix "/" (Py.lower p) && negb (String.prefix "/root/" (Py.lower p)))
    eqn:H1.
  - apply andb_prop in H1 as [H1 _]. cbn. exact H1.
  - destruct (String.prefix "root/" (Py.lower p)) eqn:H2; cbn [negb].
    + exact H2.
    + cbn. destruct (Py.lower p); reflexivity.
Qed.

Lemma lower_rooted (p : string) :
  Py.lower (AnsibleCloudStackDomain.rooted p) = AnsibleCloudStackDomain.rooted p.
Proof.
  unfold AnsibleCloudStackDomain.rooted.
  destruct (_ && _); [| destruct (negb _)];
    rewrite ?lower_app, lower_idem; reflexivity.
Qed.

Lemma root_prefix_no_slash (r : string) :
  String.prefix "root/" r = true -> String.prefix "/" r = false.
Proof.
  destruct r as [| c r]; [discriminate |].
  change (String.prefix "root/" (String c r))
    with (if ascii_dec "r" c then String.prefix "oot/" r else false).
  change (String.prefix "/" (String c r))
    with (if ascii_dec "/" c then String.prefix "" r else false).
  destruct (ascii_dec "r" c) as [<- | _]; [| discriminate]. intros _.
  destruct (ascii_dec "/" "r"); [discriminate | reflexivity].
Qed.

(** X7.  The path that [_get_domain_internal] looks for always starts
    with [root/], is in lower case, and rooting it again changes
    nothing. *)
Theorem rooted_is_stable (p : string) :
  Py.startswith (AnsibleCloudStackDomain.rooted p) "root/" = true /\
  Py.lower (AnsibleCloudStackDomain.rooted p) = AnsibleCloudStackDomain.rooted p /\
  AnsibleCloudStackDomain.rooted (AnsibleCloudStackDomain.rooted p)
  = AnsibleCloudStackDomain.rooted p.
Proof.
  split; [apply rooted_prefix | split; [apply lower_rooted |]].
  pose proof (rooted_prefix p) as H. unfold Py.startswith in H.
  unfold AnsibleCloudStackDomain.rooted at 1. rewrite lower_rooted.
  unfold Py.startswith. rewrite (root_prefix_no_slash _ H), H. reflexivity.
Qed.

Lemma first_match_some (test : value -> outcome bool) (l : list value) (x : value) :
  first_match test l = Ok (Some x) -> In x l /\ test x = Ok true.
Proof.
  induction l as [| y l IH]; cbn; [discriminate |].
  destruct (test y) as [[|] | |] eqn:Hy; try discriminate.
  - intros [= <-]. auto.
  - intros H. destruct (IH H). auto.
Qed.

Lemma get_domain_internal_found (E : env) (p : string) (d : value)
        (w w' : world) :
  AnsibleCloudStackDomain._get_domain_internal E (VStr p) w = (Ok d, w') ->
  w' = logged w list_domains /\
  (d = VNone \/
   exists f dp resp l,
     d = VDict f /\ Py.lookup "path" f = Some (VStr dp) /\
     Py.lower dp = AnsibleCloudStackDomain.rooted p /\
     Py.lower dp <> "root" /\
     cs E (log w) list_domains = Reply resp /\
     (let! x := Py.getitem resp "domain" in Py.iter x) = Ok l /\ In d l).
Proof.
  unfold AnsibleCloudStackDomain._get_domain_internal. intros H.
  destruct (Py.endswith_char p "/"); [discriminate |].
  apply bind_inv_ok in H as (resp & w1 & Hapi & H).
  apply api_inv in Hapi as [-> Hcs].
  apply bind_inv_ok in H as (found & w2 & Hs & H).
  pose proof (search_inv _ _ _ _ _ _ Hs) as ->.
  destruct found as [x |]; unfold ret in H; injection H as <- <-;
    (split; [reflexivity |]); [right | left; reflexivity].
  unfold AnsibleCloudStack.search in Hs.
  destruct (Py.truthy resp); [| discriminate].
  apply bind_inv_ok in Hs as (l & w3 & Hl & Hs).
  apply lift_inv in Hl as [Hl ->]. apply lift_inv in Hs as [Hs _].
  symmetry in Hs. apply first_match_some in Hs as [Hin Ht].
  unfold AnsibleCloudStackDomain.path_test in Ht.
  destruct x as [| | | | | f]; try discriminate. cbn in Ht.
  destruct (Py.lookup "path" f) as [[| | | dp | |] |] eqn:Hp; try discriminate.
  cbn in Ht. injection Ht as Ht. apply String.eqb_eq in Ht.
  rewrite lower_rooted in Ht.
  exists f, dp, resp, l.
  split; [reflexivity |]. split; [exact Hp |].
  split; [symmetry; exact Ht |]. split.
  - intros Hr. pose proof (rooted_prefix p) as Hpre.
    rewrite Ht, Hr in Hpre. discriminate.
  - split; [exact Hcs |]. split; [symmetry; exact Hl | exact Hin].
Qed.

(** X8.  When [_get_domain_internal] returns, it has issued the one
    [listDomains] call and returns [None] or a listed domain whose path
    in lower case is the rooted path; the root domain itself (path
    [ROOT]) is never what it returns. *)
Theorem found_domain_has_rooted_path (E : env) (p : string) (d : value)
        (w w' : world) :
  AnsibleCloudStackDomain._get_domain_internal E (VStr p) w = (Ok d, w') ->
  w' = logged w list_domains /\
  (d = VNone \/
   exists f dp resp l,
     d = VDict f /\ Py.lookup "path" f = Some (VStr dp) /\
     Py.lower dp = AnsibleCloudStackDomain.rooted p /\
     Py.lower dp <> "root" /\
     cs E (log w) list_domains = Reply resp /\
     (let! x := Py.getitem resp "domain" in Py.iter x) = Ok l /\ In d l).
Proof. exact (get_domain_internal_found E p d w w'). Qed.

Lemma found_domain_has_rooted_path_witness :
  logged init_world list_domains = logged init_world list_domains /\
  (sales_domain = VNone \/
   exists f dp resp l,
     sales_domain = VDict f /\ Py.lookup "path" f = Some (VStr dp) /\
     Py.lower dp = AnsibleCloudStackDomain.rooted "Sales" /\
     Py.lower dp <> "root" /\
     cs scenario_B (log init_world) list_domains = Reply resp /\
     (let! x := Py.getitem resp "domain" in Py.iter x) = Ok l /\
     In sales_domain l).
Proof.
  apply (found_domain_has_rooted_path scenario_B "Sales" sales_domain init_world).
  reflexivity.
Defined.

Lemma append_assoc_str (a b c : string) : (a ++ b) ++ c = a ++ (b ++ c).
Proof. induction a as [| x a IH]; cbn; [reflexivity | rewrite IH; reflexivity]. Qed.

Lemma split_slash_nonempty (p : string) : Py.split_slash p <> [].
Proof.
  destruct p as [| c r]; cbn; [discriminate |].
  destruct (Ascii.eqb c "/"); [discriminate |].
  destruct (Py.split_slash r); discriminate.
Qed.

Lemma join_split (p : string) : Py.join_slash (Py.split_slash p) = p.
Proof.
  induction p as [| c r IH]; [reflexivity |]. cbn [Py.split_slash].
  destruct (Ascii.eqb_spec c "/") as [-> | Hc].
  - pose proof (split_slash_nonempty r) as Hne.
    destruct (Py.split_slash r) as [| h t]; [congruence |].
    cbn [Py.join_slash]. cbn. f_equal. exact IH.
  - destruct (Py.split_slash r) as [| h t].
    + pose proof (split_slash_nonempty r); cbn in IH. subst r; reflexivity.
    + destruct t as [| h' t']; cbn [Py.join_slash] in *.
      * rewrite IH; reflexivity.
      * cbn. rewrite <- IH. reflexivity.
Qed.

Lemma is_sub_slash_cons (c : ascii) (h : string) :
  c <> "/"%char -> Py.is_sub "/" (String c h) = Py.is_sub "/" h.
Proof.
  intros Hc.
  change (Py.is_sub "/" (String c h))
    with (String.prefix "/" (String c h) || Py.is_sub "/" h).
  change (String.prefix "/" (String c h))
    with (if ascii_dec "/" c then String.prefix "" h else false).
  destruct (ascii_dec "/" c); [congruence | reflexivity].
Qed.

Lemma split_no_slash (p : string) :
  Forall (fun n => Py.is_sub "/" n = false) (Py.split_slash p).
Proof.
  induction p as [| c r IH]; [repeat constructor |]. cbn [Py.split_slash].
  destruct (Ascii.eqb_spec c "/") as [-> | Hc].
  - constructor; [reflexivity | exact IH].
  - destruct (Py.split_slash r) as [| h t].
    + constructor; [| constructor].
      rewrite is_sub_slash_cons by exact Hc. reflexivity.
    + inversion IH as [| ? ? Hh Ht]; subst. constructor; [| exact Ht].
      rewrite is_sub_slash_cons by exact Hc. exact Hh.
Qed.

Lemma last_slice_snoc {A} (l : list A) :
  l <> [] -> exists n, Py.last_slice l = [n] /\ l = (Py.but_last l ++ [n])%list.
Proof.
  induction l as [| x l IH]; [congruence |]. intros _.
  destruct l as [| y l].
  - exists x; split; reflexivity.
  - destruct IH as (n & Hn & Hl); [discriminate |].
    exists n. split; [exact Hn |].
    unfold Py.but_last in *. cbn [removelast] in *.
    cbn [app]. f_equal. exact Hl.
Qed.

Lemma join_snoc (a : list string) (n : string) :
  a <> [] -> Py.join_slash (a ++ [n]) = Py.join_slash a ++ "/" ++ n.
Proof.
  induction a as [| x a IH]; [congruence |]. intros _.
  destruct a as [| y a]; [reflexivity |].
  change (Py.join_slash ((x :: y :: a) ++ [n]))
    with (x ++ "/" ++ Py.join_slash ((y :: a) ++ [n])).
  rewrite IH by discriminate.
  change (Py.join_slash (x :: y :: a)) with (x ++ "/" ++ Py.join_slash (y :: a)).
  rewrite !append_assoc_str. reflexivity.
Qed.

(** X9.  Splitting a path at its slashes and joining the parts gives the
    path back.  The slice [path.split('/')[-1:]] that the body of
    [get_name] takes is a list of one name without slash, and with the
    parent path ['/'.join(path.split('/')[:-1])] that the body of
    [get_parent_domain] looks up it makes up the path:
    [path = parent + "/" + name], or [path = name] with an empty parent
    when the path has no slash. *)
Theorem path_recomposes (p : string) :
  Py.join_slash (Py.split_slash p) = p /\
  exists n,
    Py.last_slice (Py.split_slash p) = [n] /\
    Py.is_sub "/" n = false /\
    ((p = n /\ parent_path p = "") \/ p = parent_path p ++ "/" ++ n).
Proof.
  split; [apply join_split |].
  destruct (last_slice_snoc (Py.split_slash p) (split_slash_nonempty p))
    as (n & Hn & Hl).
  exists n. split; [exact Hn | split].
  - pose proof (split_no_slash p) as HF. rewrite Hl in HF.
    apply Forall_app in HF as [_ HF]. inversion HF; assumption.
  - unfold parent_path. pose proof (join_split p) as Hj. rewrite Hl in Hj.
    destruct (Py.but_last (Py.split_slash p)) as [| x a] eqn:Hb.
    + left. cbn in Hj. auto.
    + right. rewrite join_snoc in Hj by discriminate. symmetry; exact Hj.
Qed.


(** ** [absent_domain], live *)

(** X10.  A live [absent_domain] on an object whose domain is resolved
    (the cache [self.domain] holds it, with an id) marks the change and
    issues [deleteDomain] with that id, and never completes: when the
    platform answers the call, the test ['errortext' in account] raises
    [NameError], so that the job is never polled and the removal never
    reported; when the platform refuses the call, its exception goes
    up. *)
Theorem absent_live (E : env) (f : dict) (id : value) (w : world) :
  check_mode E = false ->
  domain (self w) = VDict f ->
  Py.lookup "id" f = Some id ->
  snd (AnsibleCloudStackDomain.absent_domain E w)
  = {| self := set_result (Py.setitem (result (self w)) "changed" (VBool true))
                          (self w);
       log := log w ++ [Call "deleteDomain" [("id", id)]] |} /\
  (forall res,
      cs E (log w) (Call "deleteDomain" [("id", id)]) = Reply res ->
      fst (AnsibleCloudStackDomain.absent_domain E w) = Raise (NameError "account")) /\
  (forall msg,
      cs E (log w) (Call "deleteDomain" [("id", id)]) = Fault msg ->
      fst (AnsibleCloudStackDomain.absent_domain E w)
      = Raise (CloudStackException msg)).
Proof.
  intros Hchk Hd Hid.
  assert (Hf : Py.truthy (VDict f) = true)
    by (destruct f; [discriminate Hid | reflexivity]).
  assert (Hg : AnsibleCloudStackDomain.get_domain E None w = (Ok (VDict f), w)).
  { unfold AnsibleCloudStackDomain.get_domain.
    rewrite bind_gets, Hd, Hf. cbn [negb].
    rewrite bind_ret, bind_gets, Hd. reflexivity. }
  unfold AnsibleCloudStackDomain.absent_domain.
  rewrite (bind_ok _ _ _ _ _ Hg), Hf, Hchk. cbn [negb].
  unfold mark_changed, result_set. rewrite bind_modify.
  unfold Py.getitem. rewrite Hid, bind_lift_ok.
  unfold bind, api, raise, lift. cbn [log].
  destruct (cs E (log w) (Call "deleteDomain" [("id", id)])) as [res | msg].
  - repeat apply conj; [reflexivity | reflexivity | discriminate].
  - repeat apply conj; [reflexivity | discriminate |].
    intros ? [= <-]. reflexivity.
Qed.

Lemma absent_live_witness :
  AnsibleCloudStackDomain.absent_domain absent_found_env sales_resolved
  = (Raise (NameError "account"),
     {| self := set_result [("changed", VBool true)] (set_domain sales_domain init_self);
        log := [list_domains; Call "deleteDomain" [("id", VStr "2")]] |}).
Proof.
  destruct (absent_live absent_found_env
              [("id", VStr "2"); ("name", VStr "Sales"); ("path", VStr "ROOT/Sales");
               ("networkdomain", VStr "old.com")]
              (VStr "2") sales_resolved)
    as (Hw & Hr & _); [reflexivity | reflexivity | reflexivity |].
  rewrite (surjective_pairing
             (AnsibleCloudStackDomain.absent_domain absent_found_env sales_resolved)).
  rewrite Hw, (Hr (VDict [("jobid", VStr "j1")])); reflexivity.
Defined.


(** ** [has_changed]: nothing to change, and [only_keys] *)

Lemma coerced_same (v : value) :
  scalar v -> v <> VNone ->
  exists c, coerced v v = Ok c /\ Py.eqb v c = true.
Proof.
  destruct v as [| b | z | s | |]; cbn [scalar]; try contradiction; intros _ Hn.
  - eexists; split; [reflexivity |]. destruct b; reflexivity.
  - unfold coerced. destruct (Py.isinstance_int (VInt z));
      (eexists; split; [reflexivity |]); cbn; apply Z.eqb_refl.
  - eexists; split; [reflexivity |]. cbn. apply String.eqb_refl.
Qed.

Lemma lookup_in_nodup (d : dict) (k : string) (v : value) :
  NoDup (map fst d) -> In (k, v) d -> Py.lookup k d = Some v.
Proof.
  induction d as [| [k0 v0] d IH]; cbn; [contradiction |].
  intros Hnd [[= -> ->] | Hin].
  - rewrite String.eqb_refl; reflexivity.
  - inversion Hnd as [| ? ? Hk Hnd']; subst.
    destruct (String.eqb_spec k0 k) as [-> | _]; [| auto].
    exfalso; apply Hk. apply (in_map fst _ _ Hin).
Qed.

Lemma has_changed_satisfied (want current : dict) :
  NoDup (map fst want) -> Forall (satisfied current) want ->
  exists current', AnsibleCloudStack.has_changed want current VNone
                   = Ok (false, current').
Proof.
  revert current. induction want as [| [k v] rest IH]; intros current Hnd Hall.
  - eexists; reflexivity.
  - inversion Hnd as [| ? ? Hk Hnd']; subst.
    inversion Hall as [| ? ? [Hsc Hv] Hrest]; subst. cbn [fst snd] in *.
    rewrite has_changed_cons.
    destruct (Py.is_none v) eqn:Hnone; [apply IH; assumption |].
    destruct Hv as [-> | [Hl | Hl]]; [discriminate | |]; rewrite Hl.
    + apply IH; assumption.
    + destruct (coerced_same v Hsc) as (c & Hc & He);
        [intros ->; discriminate |].
      rewrite Hc. cbn [obind]. rewrite He. cbn [negb].
      apply IH; [assumption |].
      eapply Forall_forall. intros [k' v'] Hin.
      pose proof (proj1 (Forall_forall _ _) Hrest _ Hin) as [Hs' Hv'].
      split; [exact Hs' |]. cbn [fst snd] in *.
      rewrite lookup_setitem_ne; [exact Hv' |].
      intros ->. apply Hk. apply (in_map fst _ _ Hin).
Qed.

(** X11.  When every desired field is [None], or missing from the
    current dict, or has the value the current dict holds (dict keys
    being unique and the desired values no lists or dicts),
    [has_changed] completes and answers false; in particular a dict
    compared with itself has not changed. *)
Theorem has_changed_nothing_to_do (want current : dict) :
  NoDup (map fst want) ->
  (Forall (satisfied current) want ->
   exists current', AnsibleCloudStack.has_changed want current VNone
                    = Ok (false, current')) /\
  (Forall (fun kv => scalar (snd kv)) want ->
   exists want', AnsibleCloudStack.has_changed want want VNone = Ok (false, want')).
Proof.
  intros Hnd. split; [apply has_changed_satisfied; exact Hnd |].
  intros Hsc. apply has_changed_satisfied; [exact Hnd |].
  apply Forall_forall. intros [k v] Hin. split.
  - exact (proj1 (Forall_forall _ _) Hsc _ Hin).
  - right; right. apply lookup_in_nodup; assumption.
Qed.

Lemma has_changed_nothing_to_do_witness :
  exists d, AnsibleCloudStack.has_changed
              [("id", VStr "2"); ("networkdomain", VStr "old.com"); ("size", VInt 3)]
              [("id", VStr "2"); ("networkdomain", VStr "old.com"); ("size", VInt 3)]
              VNone
            = Ok (false, d).
Proof.
  apply (has_changed_nothing_to_do _ []).
  - repeat constructor; cbn; intuition discriminate.
  - repeat constructor.
Defined.

Lemma has_changed_cons_gen (ok : value) (k : string) (v : value)
      (rest current : dict) (skip : bool) :
  (if Py.truthy ok then let! b := Py.contains (VStr k) ok in Ok (negb b)
   else Ok false) = Ok skip ->
  AnsibleCloudStack.has_changed ((k, v) :: rest) current ok
  = if skip then AnsibleCloudStack.has_changed rest current ok
    else if Py.is_none v then AnsibleCloudStack.has_changed rest current ok
    else match Py.lookup k current with
         | None => AnsibleCloudStack.has_changed rest current ok
         | Some cur =>
             let! c := coerced v cur in
             if negb (Py.eqb v c) then Ok (true, Py.setitem current k c)
             else AnsibleCloudStack.has_changed rest (Py.setitem current k c) ok
         end.
Proof.
  intros Hskip. cbn [AnsibleCloudStack.has_changed]. rewrite Hskip.
  cbn [obind]. destruct skip; [reflexivity |].
  destruct (Py.is_none v) eqn:Hv; [reflexivity |].
  destruct (Py.lookup k current) as [cur |] eqn:Hc; [| reflexivity].
  unfold coerced.
  destruct (Py.isinstance_int v); [| destruct (Py.isinstance_str v)].
  - destruct (Py.int cur); cbn [obind Py.getitem]; try reflexivity.
    rewrite lookup_setitem_same; reflexivity.
  - destruct (Py.str cur); cbn [obind Py.getitem]; try reflexivity.
    rewrite lookup_setitem_same; reflexivity.
  - cbn [obind Py.getitem]. rewrite Hc, (setitem_lookup_id _ _ _ Hc); reflexivity.
Qed.

(** X12.  With a non-empty list as [only_keys], [has_changed] is
    [has_changed] without [only_keys] on the desired fields whose key is
    in the list; an empty list restricts nothing. *)
Theorem only_keys_restricts (want current : dict) (ks : list value) :
  (ks <> [] ->
   AnsibleCloudStack.has_changed want current (VList ks)
   = AnsibleCloudStack.has_changed (restrict want ks) current VNone) /\
  AnsibleCloudStack.has_changed want current (VList [])
  = AnsibleCloudStack.has_changed want current VNone.
Proof.
  split.
  - intros Hks. revert current.
    induction want as [| [k v] rest IH]; intros current; [reflexivity |].
    rewrite (has_changed_cons_gen _ _ _ _ _ (negb (Py.in_list (VStr k) ks)))
      by (destruct ks; [congruence | reflexivity]).
    unfold restrict; cbn [filter fst]. fold (restrict rest ks).
    destruct (Py.in_list (VStr k) ks); cbn [negb]; [| apply IH].
    rewrite has_changed_cons.
    destruct (Py.is_none v); [apply IH |].
    destruct (Py.lookup k current); [| apply IH].
    destruct (coerced v v0); cbn [obind]; try reflexivity.
    destruct (negb (Py.eqb v a)); [reflexivity | apply IH].
  - revert current.
    induction want as [| [k v] rest IH]; intros current; [reflexivity |].
    rewrite (has_changed_cons_gen _ _ _ _ _ false) by reflexivity.
    rewrite has_changed_cons.
    destruct (Py.is_none v); [apply IH |].
    destruct (Py.lookup k current); [| apply IH].
    destruct (coerced v v0); cbn [obind]; try reflexivity.
    destruct (negb (Py.eqb v a)); [reflexivity | apply IH].
Qed.

Lemma only_keys_restricts_witness :
  AnsibleCloudStack.has_changed
    [("name", VStr "new"); ("networkdomain", VStr "old.com")]
    [("name", VStr "old"); ("networkdomain", VStr "old.com")]
    (VList [VStr "networkdomain"])
  = AnsibleCloudStack.has_changed
      (restrict [("name", VStr "new"); ("networkdomain", VStr "old.com")]
                [VStr "networkdomain"])
      [("name", VStr "old"); ("networkdomain", VStr "old.com")] VNone.
Proof.
  apply (only_keys_restricts
           [("name", VStr "new"); ("networkdomain", VStr "old.com")]
           [("name", VStr "old"); ("networkdomain", VStr "old.com")]
           [VStr "networkdomain"]).
  discriminate.
Defined.


(** ** [int] of [str] of an integer *)

Lemma parse_digits_uint (d : Decimal.uint) (acc : Z) :
  Py.parse_digits (NilEmpty.string_of_uint d) acc = Some (uint_val d acc).
Proof.
  revert acc. induction d; intros acc; cbn [NilEmpty.string_of_uint uint_val];
    [reflexivity | ..];
    (etransitivity; [| apply IHd]); reflexivity.
Qed.

Lemma uint_val_pos (d : Decimal.uint) (acc : positive) :
  uint_val d (Zpos acc) = Zpos (Pos.of_uint_acc d acc).
Proof.
  revert acc. induction d; intros acc; cbn [uint_val Pos.of_uint_acc];
    [reflexivity | ..];
    rewrite <- IHd; f_equal; lia.
Qed.

Lemma uint_val_0 (d : Decimal.uint) : uint_val d 0 = Z.of_uint d.
Proof.
  unfold Z.of_uint.
  induction d; cbn [uint_val Pos.of_uint]; [reflexivity | exact IHd | ..];
    apply uint_val_pos.
Qed.

Lemma rstrip_digits (d : Decimal.uint) :
  Py.rstrip (NilEmpty.string_of_uint d) = NilEmpty.string_of_uint d.
Proof.
  induction d; cbn [NilEmpty.string_of_uint Py.rstrip]; [reflexivity | ..];
    rewrite IHd; destruct (NilEmpty.string_of_uint d); reflexivity.
Qed.

Lemma digits_nonempty (d : Decimal.uint) :
  d <> Decimal.Nil -> NilEmpty.string_of_uint d <> "".
Proof. destruct d; [congruence | ..]; discriminate. Qed.

Lemma parse_unsigned_digits (d : Decimal.uint) :
  d <> Decimal.Nil ->
  Py.parse_unsigned (NilEmpty.string_of_uint d) = Some (Z.of_uint d).
Proof.
  intros Hd. pose proof (digits_nonempty d Hd) as Hne.
  unfold Py.parse_unsigned.
  destruct (NilEmpty.string_of_uint d) eqn:Hs; [congruence |].
  rewrite <- Hs, parse_digits_uint, uint_val_0. reflexivity.
Qed.

Lemma parse_int_digits (d : Decimal.uint) :
  d <> Decimal.Nil ->
  Py.parse_int (NilEmpty.string_of_uint d) = Some (Z.of_uint d).
Proof.
  intros Hd. rewrite <- (parse_unsigned_digits d Hd). unfold Py.parse_int.
  replace (Py.lstrip (NilEmpty.string_of_uint d)) with (NilEmpty.string_of_uint d)
    by (destruct d; reflexivity).
  rewrite rstrip_digits. destruct d; reflexivity.
Qed.

Lemma parse_int_minus_digits (d : Decimal.uint) :
  d <> Decimal.Nil ->
  Py.parse_int (String "-" (NilEmpty.string_of_uint d)) = Some (- Z.of_uint d)%Z.
Proof.
  intros Hd. unfold Py.parse_int.
  change (Py.lstrip (String "-" (NilEmpty.string_of_uint d)))
    with (String "-" (NilEmpty.string_of_uint d)).
  replace (Py.rstrip (String "-" (NilEmpty.string_of_uint d)))
    with (String "-" (NilEmpty.string_of_uint d)).
  - rewrite (parse_unsigned_digits d Hd). reflexivity.
  - cbn [Py.rstrip]. rewrite rstrip_digits.
    destruct (NilEmpty.string_of_uint d); reflexivity.
Qed.

Lemma parse_int_str (z : Z) : Py.parse_int (Py.str_of_Z z) = Some z.
Proof.
  destruct z as [| p | p]; [reflexivity | |]; unfold Py.str_of_Z; cbn [Z.to_int].
  - unfold NilZero.string_of_int, NilZero.string_of_uint.
    pose proof (DecimalPos.Unsigned.to_uint_nonnil p) as Hn.
    destruct (Pos.to_uint p) eqn:Hp; [congruence | ..];
      rewrite <- Hp; (rewrite parse_int_digits by (rewrite Hp; discriminate));
      unfold Z.of_uint; rewrite DecimalPos.Unsigned.of_to; reflexivity.
  - unfold NilZero.string_of_int, NilZero.string_of_uint.
    pose proof (DecimalPos.Unsigned.to_uint_nonnil p) as Hn.
    destruct (Pos.to_uint p) eqn:Hp; [congruence | ..];
      rewrite <- Hp; (rewrite parse_int_minus_digits by (rewrite Hp; discriminate));
      unfold Z.of_uint; rewrite DecimalPos.Unsigned.of_to; reflexivity.
Qed.

(** X13.  [int] reads back what [str] prints for any integer.  So for
    [has_changed] a desired integer that Python 2 holds as an [int] (not
    as a [long]) and its decimal string are the same value; and a
    desired decimal string and the integer that it prints are the same
    value, whatever the size of the integer. *)
Theorem integer_and_its_string_alike (k : string) (z : Z) :
  Py.int (VStr (Py.str_of_Z z)) = Ok z /\
  (Py.isinstance_int (VInt z) = true ->
   AnsibleCloudStack.has_changed [(k, VInt z)] [(k, VStr (Py.str_of_Z z))] VNone
   = Ok (false, [(k, VInt z)])) /\
  AnsibleCloudStack.has_changed [(k, VStr (Py.str_of_Z z))] [(k, VInt z)] VNone
  = Ok (false, [(k, VStr (Py.str_of_Z z))]).
Proof.
  assert (Hint : Py.int (VStr (Py.str_of_Z z)) = Ok z)
    by (cbn [Py.int]; rewrite parse_int_str; reflexivity).
  split; [exact Hint |]. split.
  - intros Hz. rewrite has_changed_cons. cbn [Py.is_none Py.lookup].
    rewrite String.eqb_refl. unfold coerced. rewrite Hz, Hint.
    cbn [obind Py.eqb Py.int_like].
    rewrite Z.eqb_refl. cbn. rewrite String.eqb_refl. reflexivity.
  - rewrite has_changed_cons. cbn [Py.is_none Py.lookup].
    rewrite String.eqb_refl. unfold coerced.
    cbn [Py.isinstance_int Py.isinstance_str Py.str obind Py.eqb].
    rewrite String.eqb_refl. cbn. rewrite String.eqb_refl. reflexivity.
Qed.

Lemma integer_and_its_string_alike_witness :
  AnsibleCloudStack.has_changed [("size", VInt 42)] [("size", VStr "42")] VNone
  = Ok (false, [("size", VInt 42)]).
Proof.
  destruct (integer_and_its_string_alike "size" 42) as (_ & H & _).
  apply H. reflexivity.
Defined.


(** ** [poll_job] *)

Lemma poll_round_not_ready (E : env) (job jobid res : value)
      (key : option string) (w : world) :
  Py.getitem job "jobid" = Ok jobid ->
  cs E (log w) (query jobid) = Reply res ->
  not_ready res ->
  AnsibleCloudStack.poll_round E job key w = (Ok None, logged w (query jobid)).
Proof.
  intros Hj Hcs (status & Hst & Hnr). unfold AnsibleCloudStack.poll_round.
  rewrite Hj, bind_lift_ok. fold (query jobid).
  rewrite (bind_api_reply _ _ _ res) by exact Hcs.
  rewrite Hst, bind_lift_ok.
  destruct Hnr as [H0 | Hno].
  - rewrite H0. reflexivity.
  - destruct (negb (Py.eqb status (VInt 0))); [rewrite Hno |]; reflexivity.
Qed.

Lemma polled_succ (w : world) (jobid : value) (n : nat) :
  polled (logged w (query jobid)) jobid n = polled w jobid (S n).
Proof.
  unfold polled, logged; cbn [self log repeat].
  rewrite <- app_assoc. reflexivity.
Qed.

Lemma polled_zero (w : world) (jobid : value) : polled w jobid 0 = w.
Proof. unfold polled; cbn [repeat]. rewrite app_nil_r. destruct w; reflexivity. Qed.

Lemma pending_for_next (E : env) (w : world) (jobid : value) (n : nat) :
  pending_for E w jobid (S n) ->
  pending_for E (logged w (query jobid)) jobid n.
Proof.
  intros H m Hm. destruct (H (S m)) as (res & Hcs & Hnr); [lia |].
  exists res. split; [| exact Hnr].
  unfold logged; cbn [log]. rewrite <- app_assoc. exact Hcs.
Qed.

Lemma pending_for_first (E : env) (w : world) (jobid : value) (n : nat) :
  pending_for E w jobid (S n) ->
  exists res, cs E (log w) (query jobid) = Reply res /\ not_ready res.
Proof.
  intros H. destruct (H 0%nat) as (res & Hcs & Hnr); [lia |].
  cbn [repeat] in Hcs. rewrite app_nil_r in Hcs. eauto.
Qed.

Lemma poll_loop_skip (E : env) (job jobid : value) (key : option string)
      (n fuel : nat) (w : world) :
  Py.getitem job "jobid" = Ok jobid ->
  pending_for E w jobid n ->
  AnsibleCloudStack.poll_loop (n + fuel) E job key w
  = AnsibleCloudStack.poll_loop fuel E job key (polled w jobid n).
Proof.
  intros Hj. revert w. induction n as [| n IH]; intros w Hp.
  - rewrite polled_zero. reflexivity.
  - destruct (pending_for_first _ _ _ _ Hp) as (res & Hcs & Hnr).
    cbn [Nat.add AnsibleCloudStack.poll_loop].
    rewrite (bind_ok _ _ _ _ _ (poll_round_not_ready _ _ _ _ key _ Hj Hcs Hnr)).
    rewrite IH by (apply pending_for_next; exact Hp).
    rewrite polled_succ. reflexivity.
Qed.

(** X14.  [poll_job] has no bound of its own: as long as the platform
    answers with status [0], or with another status but no [jobresult],
    the loop goes on; after any number [n] of such answers it has issued
    [n] queries and has not returned. *)
Theorem poll_job_keeps_polling (E : env) (job jobid : value)
        (key : option string) (n : nat) (w : world) :
  Py.contains (VStr "jobid") job = Ok true ->
  Py.getitem job "jobid" = Ok jobid ->
  pending_for E w jobid n ->
  AnsibleCloudStack.poll_job n E job key w = (Ok None, polled w jobid n).
Proof.
  intros Hc Hj Hp. unfold AnsibleCloudStack.poll_job.
  rewrite Hc, bind_lift_ok.
  rewrite <- (Nat.add_0_r n) at 1.
  rewrite (poll_loop_skip _ _ _ _ _ _ _ Hj Hp). reflexivity.
Qed.

Lemma poll_job_keeps_polling_witness :
  AnsibleCloudStack.poll_job 5 (Env [] false no_payload_cs) a_job (Some "domain")
    init_world
  = (Ok None, polled init_world (VStr "j1") 5).
Proof.
  apply poll_job_keeps_polling; try reflexivity.
  intros m _. eexists; split; [reflexivity |].
  exists (VInt 2). split; [reflexivity | right; reflexivity].
Defined.


Lemma poll_round_ready (E : env) (job jobid res jobresult : value)
      (key : option string) (w : world) :
  Py.getitem job "jobid" = Ok jobid ->
  cs E (log w) (query jobid) = Reply res ->
  ready res jobresult ->
  AnsibleCloudStack.poll_round E job key w
  = (err <- lift (Py.contains (VStr "errortext") jobresult) ;;
     (if err then
        e <- lift (Py.getitem jobresult "errortext") ;;
        fail_fmt "Failed: '" e "'"
      else ret tt) ;;;
     match key with
     | Some k =>
         if Py.truthy (VStr k) then
           has <- lift (Py.contains (VStr k) jobresult) ;;
           if has then v <- lift (Py.getitem jobresult k) ;; ret (Some v)
           else ret (Some job)
         else ret (Some job)
     | None => ret (Some job)
     end) (logged w (query jobid)).
Proof.
  intros Hj Hcs (status & Hst & H0 & Hin & Hjr). unfold AnsibleCloudStack.poll_round.
  rewrite Hj, bind_lift_ok. fold (query jobid).
  rewrite (bind_api_reply _ _ _ res) by exact Hcs.
  rewrite Hst, bind_lift_ok, H0. cbn [negb].
  rewrite Hin, bind_lift_ok, Hjr, bind_lift_ok. reflexivity.
Qed.

Lemma logged_polled (w : world) (jobid : value) (n : nat) :
  logged (polled w jobid n) (query jobid) = polled w jobid (S n).
Proof.
  unfold polled, logged; cbn [self log repeat].
  rewrite <- app_assoc, <- repeat_cons. reflexivity.
Qed.

Lemma poll_job_last_round (E : env) (job jobid res : value)
      (key : option string) (n fuel : nat) (w : world) :
  Py.contains (VStr "jobid") job = Ok true ->
  Py.getitem job "jobid" = Ok jobid ->
  pending_for E w jobid n ->
  (n < fuel)%nat ->
  AnsibleCloudStack.poll_job fuel E job key w
  = (r <- AnsibleCloudStack.poll_round E job key ;;
     match r with
     | Some v => ret (Some v)
     | None => AnsibleCloudStack.poll_loop (fuel - S n) E job key
     end) (polled w jobid n).
Proof.
  intros Hc Hj Hp Hlt. unfold AnsibleCloudStack.poll_job.
  rewrite Hc, bind_lift_ok.
  replace fuel with (n + S (fuel - S n))%nat at 1 by lia.
  rewrite (poll_loop_skip _ _ _ _ _ _ _ Hj Hp). reflexivity.
Qed.

(** X15.  Once the platform answers with a status other than [0] and a
    [jobresult] without [errortext], [poll_job] returns, whatever queries
    were pending before: with the entry [key] of the job result if a
    non-empty key is given and the result has it, with the job it was
    given otherwise.  It has then issued one query per answer. *)
Theorem poll_job_returns_when_ready (E : env) (job jobid res jobresult : value)
        (key : option string) (n fuel : nat) (w : world) :
  Py.contains (VStr "jobid") job = Ok true ->
  Py.getitem job "jobid" = Ok jobid ->
  pending_for E w jobid n ->
  cs E (log w ++ repeat (query jobid) n)%list (query jobid) = Reply res ->
  ready res jobresult ->
  Py.contains (VStr "errortext") jobresult = Ok false ->
  (n < fuel)%nat ->
  (forall k v, key = Some k -> k <> "" ->
               Py.getitem jobresult k = Ok v ->
               Py.contains (VStr k) jobresult = Ok true ->
               AnsibleCloudStack.poll_job fuel E job key w
               = (Ok (Some v), polled w jobid (S n))) /\
  ((key = None \/ key = Some "" \/
    exists k, key = Some k /\ Py.contains (VStr k) jobresult = Ok false) ->
   AnsibleCloudStack.poll_job fuel E job key w
   = (Ok (Some job), polled w jobid (S n))).
Proof.
  intros Hc Hj Hp Hcs Hr He Hlt.
  assert (Hrun := poll_job_last_round E job jobid res key n fuel w Hc Hj Hp Hlt).
  rewrite Hrun. clear Hrun.
  assert (Hround := poll_round_ready E job jobid res jobresult key
                                     (polled w jobid n) Hj Hcs Hr).
  rewrite logged_polled in Hround.
  rewrite He, bind_lift_ok, bind_ret in Hround.
  split.
  - intros k v -> Hk Hv Hin.
    assert (Ht : Py.truthy (VStr k) = true).
    { cbn. destruct (String.eqb_spec k ""); [contradiction | reflexivity]. }
    rewrite Ht, Hin, bind_lift_ok, Hv, bind_lift_ok in Hround.
    rewrite (bind_ok _ _ _ _ _ Hround). reflexivity.
  - intros [-> | [-> | (k & -> & Hno)]].
    + rewrite (bind_ok _ _ _ _ _ Hround). reflexivity.
    + cbn in Hround. rewrite (bind_ok _ _ _ _ _ Hround). reflexivity.
    + destruct (Py.truthy (VStr k)).
      * rewrite Hno, bind_lift_ok in Hround.
        rewrite (bind_ok _ _ _ _ _ Hround). reflexivity.
      * rewrite (bind_ok _ _ _ _ _ Hround). reflexivity.
Qed.

Lemma poll_job_returns_when_ready_witness :
  AnsibleCloudStack.poll_job 7 (Env [] false third_time_cs) a_job (Some "domain")
    init_world
  = (Ok (Some customers_domain), polled init_world (VStr "j1") 3).
Proof.
  refine (proj1 (poll_job_returns_when_ready
                   (Env [] false third_time_cs) a_job (VStr "j1")
                   (VDict [("jobstatus", VInt 1);
                           ("jobresult", VDict [("domain", customers_domain)])])
                   (VDict [("domain", customers_domain)])
                   (Some "domain") 2 7 init_world _ _ _ _ _ _ _)
                "domain" customers_domain _ _ _ _);
    try reflexivity; try discriminate; try lia.
  - intros [| [| m]] Hm; [| | lia];
      (eexists; split; [reflexivity |]);
      exists (VInt 0); (split; [reflexivity | left; reflexivity]).
  - exists (VInt 1). repeat apply conj; reflexivity.
Defined.

(** X16.  Once the platform answers with a status other than [0] and a
    [jobresult] that has an [errortext], [poll_job] ends the module with
    the message [Failed: '<errortext>'], after one query per answer; the
    key is not looked at. *)
Theorem poll_job_reports_errortext (E : env) (job jobid res jobresult e : value)
        (msg : string) (key : option string) (n fuel : nat) (w : world) :
  Py.contains (VStr "jobid") job = Ok true ->
  Py.getitem job "jobid" = Ok jobid ->
  pending_for E w jobid n ->
  cs E (log w ++ repeat (query jobid) n)%list (query jobid) = Reply res ->
  ready res jobresult ->
  Py.contains (VStr "errortext") jobresult = Ok true ->
  Py.getitem jobresult "errortext" = Ok e ->
  Py.str e = Ok msg ->
  (n < fuel)%nat ->
  AnsibleCloudStack.poll_job fuel E job key w
  = (Exit ("Failed: '" ++ msg ++ "'"), polled w jobid (S n)).
Proof.
  intros Hc Hj Hp Hcs Hr He Hget Hstr Hlt.
  rewrite (poll_job_last_round E job jobid res key n fuel w Hc Hj Hp Hlt).
  assert (Hround := poll_round_ready E job jobid res jobresult key
                                     (polled w jobid n) Hj Hcs Hr).
  rewrite logged_polled in Hround.
  rewrite He, bind_lift_ok, Hget in Hround. cbv iota in Hround.
  rewrite bind_assoc, bind_lift_ok in Hround.
  unfold fail_fmt in Hround. rewrite Hstr in Hround.
  rewrite bind_assoc, bind_lift_ok in Hround.
  rewrite (bind_exit _ _ _ ("Failed: '" ++ msg ++ "'") (polled w jobid (S n)))
    in Hround by reflexivity.
  rewrite (bind_exit _ _ _ _ _ Hround). reflexivity.
Qed.

Lemma poll_job_reports_errortext_witness :
  AnsibleCloudStack.poll_job 4 (Env [] false failing_cs) a_job (Some "domain")
    init_world
  = (Exit "Failed: 'Failed to delete domain'", polled init_world (VStr "j1") 2).
Proof.
  refine (poll_job_reports_errortext
            (Env [] false failing_cs) a_job (VStr "j1")
            (VDict [("jobstatus", VInt 2);
                    ("jobresult", VDict [("errorcode", VInt 530);
                                         ("errortext", VStr "Failed to delete domain")])])
            (VDict [("errorcode", VInt 530);
                    ("errortext", VStr "Failed to delete domain")])
            (VStr "Failed to delete domain") "Failed to delete domain"
            (Some "domain") 1 4 init_world _ _ _ _ _ _ _ _ _);
    try reflexivity; try lia.
  - intros [| m] Hm; [| lia].
    eexists; split; [reflexivity |].
    exists (VInt 0). split; [reflexivity | left; reflexivity].
  - exists (VInt 2). repeat apply conj; reflexivity.
Defined.

Lemma emits_poll_round (E : env) (job : value) (key : option string) :
  emits is_query (AnsibleCloudStack.poll_round E job key).
Proof. unfold AnsibleCloudStack.poll_round. emits_go. Qed.

Lemma emits_poll_loop (fuel : nat) (E : env) (job : value) (key : option string) :
  emits is_query (AnsibleCloudStack.poll_loop fuel E job key).
Proof.
  induction fuel as [| n IH]; cbn [AnsibleCloudStack.poll_loop].
  - apply emits_ret.
  - apply emits_bind; [apply emits_poll_round |].
    intros [v |]; [apply emits_ret | exact IH].
Qed.

(** X17.  However it ends, [poll_job] issues only [queryAsyncJobResult]
    calls, none of them mutating; and a response without [jobid] (the
    call was not asynchronous) is handed back as it is, without a call. *)
Theorem poll_job_only_queries (fuel : nat) (E : env) (job : value)
        (key : option string) :
  emits (fun c => is_query c /\ mutating c = false)
        (AnsibleCloudStack.poll_job fuel E job key) /\
  (forall w, Py.contains (VStr "jobid") job = Ok false ->
             AnsibleCloudStack.poll_job fuel E job key w = (Ok (Some job), w)).
Proof.
  split.
  - apply emits_weaken with (P := is_query).
    + intros c Hc. split; [exact Hc |].
      unfold is_query in Hc. unfold mutating. rewrite Hc. reflexivity.
    + unfold AnsibleCloudStack.poll_job.
      apply emits_bind; [apply emits_lift |].
      intros []; [apply emits_poll_loop | apply emits_ret].
  - intros w Hno. unfold AnsibleCloudStack.poll_job.
    rewrite Hno, bind_lift_ok. reflexivity.
Qed.


(** ** [get_result] *)

Lemma get_setitem_same (d : dict) (k : string) (v : value) :
  Py.get (Py.setitem d k v) k = v.
Proof. unfold Py.get. rewrite lookup_setitem_same. reflexivity. Qed.

Lemma get_setitem_ne (d : dict) (k k' : string) (v : value) :
  k' <> k -> Py.get (Py.setitem d k v) k' = Py.get d k'.
Proof. intros H. unfold Py.get. rewrite lookup_setitem_ne by exact H. reflexivity. Qed.

Lemma reported_other (fields : list (string * string)) (f r : dict) (rk : string) :
  ~ In rk (map snd fields) ->
  Py.get (reported fields f r) rk = Py.get r rk.
Proof.
  revert r. induction fields as [| [k0 rk0] fs IH]; intros r Hn; [reflexivity |].
  cbn [map snd In] in Hn. unfold reported; cbn [fold_left fst snd].
  fold (reported fs f (match Py.lookup k0 f with
                       | Some v => Py.setitem r rk0 v
                       | None => r
                       end)).
  rewrite IH by tauto.
  destruct (Py.lookup k0 f); [| reflexivity].
  apply get_setitem_ne. intros ->. tauto.
Qed.

Lemma reported_field (fields : list (string * string)) (f r : dict)
      (k rk : string) :
  NoDup (map snd fields) ->
  In (k, rk) fields ->
  Py.get (reported fields f r) rk
  = match Py.lookup k f with Some v => v | None => Py.get r rk end.
Proof.
  revert r. induction fields as [| [k0 rk0] fs IH]; intros r Hnd Hin;
    [contradiction |].
  cbn [map snd] in Hnd. apply NoDup_cons_iff in Hnd as [Hnot Hnd].
  unfold reported; cbn [fold_left fst snd].
  fold (reported fs f (match Py.lookup k0 f with
                       | Some v => Py.setitem r rk0 v
                       | None => r
                       end)).
  destruct Hin as [[= -> ->] | Hin].
  - rewrite reported_other by exact Hnot.
    destruct (Py.lookup k f); [apply get_setitem_same | reflexivity].
  - rewrite IH by assumption.
    destruct (Py.lookup k f); [reflexivity |].
    destruct (Py.lookup k0 f); [| reflexivity].
    apply get_setitem_ne. intros ->. apply Hnot.
    change rk0 with (snd (k, rk0)). apply in_map. exact Hin.
Qed.

Lemma with_result_id (w : world) : with_result (result (self w)) w = w.
Proof. destruct w as [[] ?]; reflexivity. Qed.

Lemma domain_report_dict {B} (f : dict) (k rk : string) (h : unit -> M B)
      (r : dict) (w : world) :
  bind (AnsibleCloudStackDomain.report (VDict f) k rk) h (with_result r w)
  = h tt (with_result (reported [(k, rk)] f r) w).
Proof.
  unfold AnsibleCloudStackDomain.report, reported, Py.contains, Py.getitem.
  cbn [fold_left fst snd].
  rewrite bind_assoc, bind_lift_ok.
  destruct (Py.lookup k f); [| rewrite bind_ret; reflexivity].
  rewrite bind_assoc, bind_lift_ok. unfold result_set. rewrite bind_modify.
  reflexivity.
Qed.

Lemma iso_report_dict {B} (f : dict) (k rk : string) (h : unit -> M B)
      (r : dict) (w : world) :
  bind (AnsibleCloudStackIso.report (VDict f) k rk) h (with_result r w)
  = h tt (with_result (reported [(k, rk)] f r) w).
Proof.
  unfold AnsibleCloudStackIso.report, reported, Py.contains, Py.getitem.
  cbn [fold_left fst snd].
  rewrite bind_assoc, bind_lift_ok.
  destruct (Py.lookup k f); [| rewrite bind_ret; reflexivity].
  rewrite bind_assoc, bind_lift_ok. unfold result_set. rewrite bind_modify.
  reflexivity.
Qed.

Lemma domain_get_result_dict (f : dict) (w : world) :
  f <> [] ->
  AnsibleCloudStackDomain.get_result (VDict f) w
  = (Ok (reported domain_fields f (result (self w))),
     with_result (reported domain_fields f (result (self w))) w).
Proof.
  intros Hf. unfold AnsibleCloudStackDomain.get_result.
  replace (Py.truthy (VDict f)) with true by (destruct f; [contradiction | reflexivity]).
  rewrite <- (with_result_id w) at 1.
  repeat first [rewrite domain_report_dict | rewrite bind_assoc].
  reflexivity.
Qed.

Lemma iso_get_result_dict (f : dict) (w : world) :
  f <> [] ->
  AnsibleCloudStackIso.get_result (VDict f) w
  = (Ok (reported iso_fields f (result (self w))),
     with_result (reported iso_fields f (result (self w))) w).
Proof.
  intros Hf. unfold AnsibleCloudStackIso.get_result.
  replace (Py.truthy (VDict f)) with true by (destruct f; [contradiction | reflexivity]).
  rewrite <- (with_result_id w) at 1.
  repeat first [rewrite iso_report_dict | rewrite bind_assoc].
  reflexivity.
Qed.

Lemma fields_nodup :
  NoDup (map snd domain_fields) /\ NoDup (map snd iso_fields).
Proof.
  split; cbn;
    repeat (apply NoDup_cons;
            [cbn; intros H; repeat (destruct H as [H | H]; [discriminate H |]);
             exact H |]);
    apply NoDup_nil.
Qed.

(** X18.  [get_result] of either module, given an entity that is a
    non-empty dict, cannot fail and issues no call.  It returns the
    object's result in which each listed field that the entity has is
    stored under its result key ([parentdomainname] as [parent_domain],
    [networkdomain] as [network_domain], [zonename] as [zone], [isready]
    as [is_ready]); a listed field that the entity lacks, and every other
    key of the result, [changed] among them, is as it was. *)
Theorem get_result_copies_fields (f : dict) (w : world) :
  f <> [] ->
  exists rd wd ri wi,
    AnsibleCloudStackDomain.get_result (VDict f) w = (Ok rd, wd) /\
    AnsibleCloudStackIso.get_result (VDict f) w = (Ok ri, wi) /\
    log wd = log w /\ log wi = log w /\
    result (self wd) = rd /\ result (self wi) = ri /\
    (forall k rk, In (k, rk) domain_fields ->
                  Py.get rd rk = match Py.lookup k f with
                                 | Some v => v
                                 | None => Py.get (result (self w)) rk
                                 end) /\
    (forall k rk, In (k, rk) iso_fields ->
                  Py.get ri rk = match Py.lookup k f with
                                 | Some v => v
                                 | None => Py.get (result (self w)) rk
                                 end) /\
    (forall rk, ~ In rk (map snd domain_fields) ->
                Py.get rd rk = Py.get (result (self w)) rk) /\
    (forall rk, ~ In rk (map snd iso_fields) ->
                Py.get ri rk = Py.get (result (self w)) rk).
Proof.
  intros Hf. destruct fields_nodup as [Nd Ni].
  do 4 eexists.
  split; [apply domain_get_result_dict; exact Hf |].
  split; [apply iso_get_result_dict; exact Hf |].
  repeat apply conj; try reflexivity.
  - intros k rk. apply reported_field. exact Nd.
  - intros k rk. apply reported_field. exact Ni.
  - intros rk. apply reported_other.
  - intros rk. apply reported_other.
Qed.

Lemma get_result_copies_fields_witness :
  exists rd wd ri wi,
    AnsibleCloudStackDomain.get_result customers_domain init_world = (Ok rd, wd) /\
    AnsibleCloudStackIso.get_result customers_domain init_world = (Ok ri, wi) /\
    log wd = [] /\ log wi = [] /\
    Py.get rd "parent_domain" = VStr "ROOT" /\
    Py.get ri "zone" = VNone /\
    Py.get rd "changed" = VBool false.
Proof.
  destruct (get_result_copies_fields
              [("id", VStr "3"); ("name", VStr "customers");
               ("path", VStr "ROOT/customers"); ("parentdomainname", VStr "ROOT")]
              init_world)
    as (rd & wd & ri & wi & Hd & Hi & Ld & Li & _ & _ & Fd & Fi & Od & _);
    [discriminate |].
  exists rd, wd, ri, wi.
  repeat apply conj; try assumption.
  - apply (Fd "parentdomainname" "parent_domain"). cbn; tauto.
  - apply (Fi "zonename" "zone"). cbn; tauto.
  - apply (Od "changed"). cbn.
    intros H; repeat (destruct H as [H | H]; [discriminate H |]); exact H.
Defined.


(** ** The ISO module, from lookup to result *)

Lemma first_lookup_quiet (E : env) (i : value) (w1 : world) :
  AnsibleCloudStackIso.get_iso E init_world = (Ok i, w1) ->
  Forall (fun c => mutating c = false) (log w1).
Proof.
  intros Hget.
  pose proof (get_iso_first _ _ _ Hget)
    as (did & a & pid & zid & pre & isos & chosen
        & _ & _ & _ & _ & _ & _ & Hlog & HF & _).
  rewrite Hlog. apply Forall_app; split.
  - eapply Forall_impl; [| exact HF]. apply resolver_not_mutating.
  - repeat constructor.
Qed.

(** X19.  With a state other than [absent], an ISO that the lookup finds
    is left as it is, whatever the other parameters ask for: the module
    ends well with [changed] false and has issued the calls of the lookup
    only, none of them mutating. *)
Theorem existing_iso_left_alone (E : env) (f : dict) (w1 : world) :
  Py.in_list (param E "state") [VStr "absent"] = false ->
  AnsibleCloudStackIso.get_iso E init_world = (Ok (VDict f), w1) ->
  f <> [] ->
  exists r w',
    AnsibleCloudStackIso.main E = (Ok r, w') /\
    log w' = log w1 /\
    Forall (fun c => mutating c = false) (log w1) /\
    Py.get r "changed" = VBool false.
Proof.
  intros Hstate Hget Hf.
  pose proof (get_iso_first _ _ _ Hget)
    as (did & a & pid & zid & pre & isos & chosen
        & _ & _ & _ & _ & _ & Hres & _).
  assert (Hreg : AnsibleCloudStackIso.register_iso E init_world = (Ok (VDict f), w1)).
  { unfold AnsibleCloudStackIso.register_iso.
    rewrite (bind_ok _ _ _ _ _ Hget).
    replace (Py.truthy (VDict f)) with true
      by (destruct f; [contradiction | reflexivity]).
    reflexivity. }
  do 2 eexists. split.
  - unfold AnsibleCloudStackIso.main, AnsibleCloudStackIso.run.
    rewrite Hstate, (bind_ok _ _ _ _ _ Hreg), (iso_get_result_dict _ _ Hf).
    reflexivity.
  - repeat apply conj.
    + reflexivity.
    + exact (first_lookup_quiet _ _ _ Hget).
    + rewrite reported_other, Hres; [reflexivity |].
      cbn. intros H; repeat (destruct H as [H | H]; [discriminate H |]); exact H.
Qed.

Lemma existing_iso_left_alone_witness :
  exists r w',
    AnsibleCloudStackIso.main scenario_D_registered = (Ok r, w') /\
    log w' = log (snd (AnsibleCloudStackIso.get_iso scenario_D_registered init_world)) /\
    Forall (fun c => mutating c = false)
           (log (snd (AnsibleCloudStackIso.get_iso scenario_D_registered init_world))) /\
    Py.get r "changed" = VBool false.
Proof.
  apply (existing_iso_left_alone scenario_D_registered
           [("id", VStr "i1"); ("name", VStr "deb"); ("checksum", VStr "abc")]);
    [reflexivity | reflexivity | discriminate].
Defined.

(** X20.  With [state=absent] outside check mode, an ISO that the lookup
    finds is removed by one [deleteIso] call, which carries the ISO's id
    and the project and zone ids that the lookup sent; it is the last
    call of the module: the job that the platform answers with is not
    waited for.  If the call is answered the module ends well with
    [changed] true; if it is refused the module fails with the
    platform's message. *)
Theorem remove_iso_deletes_once (E : env) (f : dict) (id : value) (w1 : world) :
  check_mode E = false ->
  Py.in_list (param E "state") [VStr "absent"] = true ->
  AnsibleCloudStackIso.get_iso E init_world = (Ok (VDict f), w1) ->
  Py.lookup "id" f = Some id ->
  exists did a pid zid pre,
    log w1 = (pre ++ [Call "listIsos"
                        (AnsibleCloudStackIso.list_isos_args E did a pid zid)])%list /\
    log (snd (AnsibleCloudStackIso.main E))
    = (log w1 ++ [delete_iso_call id pid zid])%list /\
    (forall res, cs E (log w1) (delete_iso_call id pid zid) = Reply res ->
                 exists r, fst (AnsibleCloudStackIso.main E) = Ok r /\
                           Py.get r "changed" = VBool true) /\
    (forall msg, cs E (log w1) (delete_iso_call id pid zid) = Fault msg ->
                 fst (AnsibleCloudStackIso.main E)
                 = Exit ("CloudStackException: " ++ msg)).
Proof.
  intros Hchk Hstate Hget Hid.
  assert (Hf : f <> []) by (intros ->; discriminate Hid).
  pose proof (get_iso_first _ _ _ Hget)
    as (did & a & pid & zid & pre & isos & chosen
        & _ & _ & Ap & Az & _ & _ & Hlog & _).
  exists did, a, pid, zid, pre. split; [exact Hlog |].
  set (w2 := {| self := set_result (Py.setitem (result (self w1)) "changed" (VBool true))
                                   (self w1);
                log := log w1 |}).
  assert (Ap2 : answers E project (Some "project") "id" pid w2)
    by (apply (answers_eq _ _ _ _ _ w1); [reflexivity | exact Ap]).
  assert (Az2 : answers E zone None "id" zid w2)
    by (apply (answers_eq _ _ _ _ _ w1); [reflexivity | exact Az]).
  assert (Hrem : AnsibleCloudStackIso.remove_iso E init_world
                 = bind (api E "deleteIso" [("id", id); ("projectid", pid);
                                            ("zoneid", zid)])
                        (fun _ => ret (VDict f)) w2).
  { unfold AnsibleCloudStackIso.remove_iso.
    rewrite (bind_ok _ _ _ _ _ Hget).
    replace (Py.truthy (VDict f)) with true
      by (destruct f; [contradiction | reflexivity]).
    unfold mark_changed, result_set. rewrite bind_modify. fold w2.
    unfold Py.getitem. rewrite Hid, bind_lift_ok.
    rewrite (bind_ok _ _ _ _ _ (get_project_again _ _ _ _ Ap2)).
    rewrite (bind_ok _ _ _ _ _ (get_zone_again _ _ _ _ Az2)).
    rewrite Hchk. reflexivity. }
  unfold AnsibleCloudStackIso.main, AnsibleCloudStackIso.run.
  rewrite Hstate. unfold delete_iso_call.
  destruct (cs E (log w1) (Call "deleteIso" [("id", id); ("projectid", pid);
                                             ("zoneid", zid)]))
    as [res | msg] eqn:Hcs.
  - assert (Hrun : AnsibleCloudStackIso.remove_iso E init_world
                   = (Ok (VDict f), logged w2 (delete_iso_call id pid zid))).
    { rewrite Hrem. rewrite (bind_api_reply _ _ _ res) by exact Hcs. reflexivity. }
    rewrite (bind_ok _ _ _ _ _ Hrun), (iso_get_result_dict _ _ Hf).
    repeat apply conj.
    + reflexivity.
    + intros ? _. eexists; split; [reflexivity |].
      rewrite reported_other.
      * apply get_setitem_same.
      * cbn. intros H; repeat (destruct H as [H | H]; [discriminate H |]); exact H.
    + discriminate.
  - assert (Hrun : AnsibleCloudStackIso.remove_iso E init_world
                   = (Raise (CloudStackException msg),
                      logged w2 (delete_iso_call id pid zid))).
    { rewrite Hrem. unfold bind, api. cbn [log w2]. rewrite Hcs. reflexivity. }
    rewrite (bind_raise _ _ _ _ _ Hrun).
    repeat apply conj.
    + reflexivity.
    + discriminate.
    + intros ? [= <-]. reflexivity.
Qed.

Lemma remove_iso_deletes_once_witness :
  exists did a pid zid pre,
    log (snd (AnsibleCloudStackIso.get_iso remove_env init_world))
    = (pre ++ [Call "listIsos"
                 (AnsibleCloudStackIso.list_isos_args remove_env did a pid zid)])%list /\
    log (snd (AnsibleCloudStackIso.main remove_env))
    = (log (snd (AnsibleCloudStackIso.get_iso remove_env init_world))
         ++ [delete_iso_call (VStr "i1") pid zid])%list /\
    (forall res,
        cs remove_env (log (snd (AnsibleCloudStackIso.get_iso remove_env init_world)))
           (delete_iso_call (VStr "i1") pid zid) = Reply res ->
        exists r, fst (AnsibleCloudStackIso.main remove_env) = Ok r /\
                  Py.get r "changed" = VBool true) /\
    (forall msg,
        cs remove_env (log (snd (AnsibleCloudStackIso.get_iso remove_env init_world)))
           (delete_iso_call (VStr "i1") pid zid) = Fault msg ->
        fst (AnsibleCloudStackIso.main remove_env)
        = Exit ("CloudStackException: " ++ msg)).
Proof.
  apply (remove_iso_deletes_once remove_env
           [("id", VStr "i1"); ("name", VStr "deb"); ("checksum", VStr "abc")]);
    reflexivity.
Defined.

(** X21.  With a state other than [absent], no ISO found and the check
    of the OS type passed, an invocation without a URL fails with the
    message [URL is requried.], in check mode as well as outside it: the
    calls issued are the lookup's and those that resolve the OS type,
    none of them mutating. *)
Theorem register_needs_url (E : env) (i oid : value) (w1 w2 : world) :
  Py.in_list (param E "state") [VStr "absent"] = false ->
  AnsibleCloudStackIso.get_iso E init_world = (Ok i, w1) ->
  Py.truthy i = false ->
  AnsibleCloudStack.get_os_type E (Some "id") w1 = (Ok oid, w2) ->
  Py.truthy (param E "bootable") && negb (Py.truthy oid) = false ->
  Py.truthy (param E "url") = false ->
  AnsibleCloudStackIso.main E = (Exit "URL is requried.", w2) /\
  Forall (fun c => mutating c = false) (log w2).
Proof.
  intros Hstate Hget Hi Hos Hboot Hurl.
  pose proof (get_iso_first _ _ _ Hget)
    as (did & a & pid & zid & pre & isos & chosen
        & Ad & Aa & Ap & Az & _).
  split.
  - unfold AnsibleCloudStackIso.main, AnsibleCloudStackIso.run.
    rewrite Hstate.
    erewrite bind_exit; [reflexivity |].
    unfold AnsibleCloudStackIso.register_iso.
    rewrite (bind_ok _ _ _ _ _ Hget), Hi. cbn [negb].
    rewrite (bind_ok _ _ _ _ _ (get_zone_again _ _ _ _ Az)).
    rewrite (bind_ok _ _ _ _ _ (get_domain_again _ _ _ _ Ad)).
    rewrite (bind_ok _ _ _ _ _ (get_account_again _ _ _ _ Aa)).
    rewrite (bind_ok _ _ _ _ _ (get_project_again _ _ _ _ Ap)).
    rewrite (bind_ok _ _ _ _ _ Hos).
    rewrite Hboot, Hurl. reflexivity.
  - destruct (emits_get_os_type _ _ _ _ _ Hos) as (ext & Hl & HF).
    rewrite Hl. apply Forall_app; split.
    + exact (first_lookup_quiet _ _ _ Hget).
    + eapply Forall_impl; [| exact HF]. apply resolver_not_mutating.
Qed.

Lemma register_needs_url_witness :
  AnsibleCloudStackIso.main no_url_env
  = (Exit "URL is requried.",
     snd (AnsibleCloudStackIso.get_iso no_url_env init_world)) /\
  Forall (fun c => mutating c = false)
         (log (snd (AnsibleCloudStackIso.get_iso no_url_env init_world))).
Proof.
  apply (register_needs_url
           no_url_env VNone VNone
           (snd (AnsibleCloudStackIso.get_iso no_url_env init_world)));
    reflexivity.
Defined.


(** ** What [has_changed] leaves of the current dict *)

Lemma setitem_frame (d : dict) (k : string) (c cur : value) :
  Py.lookup k d = Some cur ->
  (forall k', k' <> k -> Py.lookup k' (Py.setitem d k c) = Py.lookup k' d) /\
  (forall k', Py.lookup k' (Py.setitem d k c) = None <-> Py.lookup k' d = None).
Proof.
  intros Hk. split.
  - intros k' Hne. apply lookup_setitem_ne. exact Hne.
  - intros k'. destruct (string_dec k' k) as [-> | Hne].
    + rewrite lookup_setitem_same, Hk. split; discriminate.
    + rewrite lookup_setitem_ne by exact Hne. reflexivity.
Qed.

Lemma has_changed_keeps (want current : dict) (only_keys : value)
        (b : bool) (current' : dict) :
  AnsibleCloudStack.has_changed want current only_keys = Ok (b, current') ->
  (forall k, ~ In k (map fst want) -> Py.lookup k current' = Py.lookup k current) /\
  (forall k, Py.lookup k current' = None <-> Py.lookup k current = None).
Proof.
  revert current. induction want as [| [key v] rest IH]; intros current H.
  - cbn in H. injection H as _ <-. split; intros; reflexivity.
  - assert (Hrest : forall cur0,
               AnsibleCloudStack.has_changed rest cur0 only_keys = Ok (b, current') ->
               (forall k, ~ In k (map fst ((key, v) :: rest)) ->
                          Py.lookup k current' = Py.lookup k cur0) /\
               (forall k, Py.lookup k current' = None <-> Py.lookup k cur0 = None)).
    { intros cur0 H0. destruct (IH _ H0) as [F N]. split; [| exact N].
      intros k Hk. apply F. cbn in Hk. tauto. }
    destruct (if Py.truthy only_keys
              then let! b0 := Py.contains (VStr key) only_keys in Ok (negb b0)
              else Ok false) as [skip | msg | e] eqn:Hs.
    + rewrite (has_changed_cons_gen _ _ _ _ _ _ Hs) in H.
      destruct skip; [exact (Hrest _ H) |].
      destruct (Py.is_none v); [exact (Hrest _ H) |].
      destruct (Py.lookup key current) as [cur |] eqn:Hk; [| exact (Hrest _ H)].
      destruct (coerced v cur) as [c | |]; cbn [obind] in H; try discriminate.
      destruct (setitem_frame current key c cur Hk) as [F1 N1].
      destruct (negb (Py.eqb v c)).
      * injection H as _ <-. split; [| exact N1].
        intros k Hn. apply F1. cbn in Hn. intros ->. tauto.
      * destruct (Hrest _ H) as [F N]. split.
        -- intros k Hn. rewrite (F k Hn). apply F1. cbn in Hn. intros ->. tauto.
        -- intros k. rewrite (N k). apply N1.
    + cbn [AnsibleCloudStack.has_changed] in H. rewrite Hs in H. discriminate.
    + cbn [AnsibleCloudStack.has_changed] in H. rewrite Hs in H. discriminate.
Qed.

(** X22.  When [has_changed] returns, the current dict it assigned into
    has the keys it had before, and every field whose key is not a key
    of the desired dict holds the value it held: the conversion touches
    the compared fields only, for any [only_keys]. *)
Theorem has_changed_frame (want current : dict) (only_keys : value)
        (b : bool) (current' : dict) :
  AnsibleCloudStack.has_changed want current only_keys = Ok (b, current') ->
  (forall k, ~ In k (map fst want) -> Py.lookup k current' = Py.lookup k current) /\
  (forall k, Py.lookup k current' = None <-> Py.lookup k current = None).
Proof. exact (has_changed_keeps want current only_keys b current'). Qed.

Lemma has_changed_frame_witness :
  (forall k, ~ In k ["id"; "networkdomain"] ->
             Py.lookup k [("id", VStr "2"); ("name", VStr "Sales");
                          ("path", VStr "ROOT/Sales"); ("networkdomain", VStr "7")]
             = Py.lookup k [("id", VInt 2); ("name", VStr "Sales");
                            ("path", VStr "ROOT/Sales"); ("networkdomain", VInt 7)]) /\
  (forall k, Py.lookup k [("id", VStr "2"); ("name", VStr "Sales");
                          ("path", VStr "ROOT/Sales"); ("networkdomain", VStr "7")]
             = None
             <-> Py.lookup k [("id", VInt 2); ("name", VStr "Sales");
                              ("path", VStr "ROOT/Sales"); ("networkdomain", VInt 7)]
                 = None).
Proof.
  apply (has_changed_frame
           [("id", VStr "2"); ("networkdomain", VStr "example.com")]
           [("id", VInt 2); ("name", VStr "Sales"); ("path", VStr "ROOT/Sales");
            ("networkdomain", VInt 7)]
           VNone true).
  reflexivity.
Defined.


(** X24.  An ISO invocation that names an account but no domain fails
    with the message [Account must be specified with Domain] before any
    remote call, for either state and in check mode as well. *)
Theorem account_needs_domain (E : env) :
  Py.truthy (param E "account") = true ->
  Py.truthy (param E "domain") = false ->
  AnsibleCloudStackIso.main E
  = (Exit "Account must be specified with Domain", init_world).
Proof.
  intros Ha Hd.
  assert (Hget : AnsibleCloudStackIso.get_iso E init_world
                 = (Exit "Account must be specified with Domain", init_world)).
  { unfold AnsibleCloudStackIso.get_iso. rewrite bind_gets.
    cbn [init_world self init_self iso Py.truthy negb].
    apply bind_exit.
    assert (Hdom : AnsibleCloudStack.get_domain E (Some "id") init_world
                   = (Ok VNone, init_world)).
    { unfold AnsibleCloudStack.get_domain. rewrite bind_gets.
      cbn [init_world self init_self domain Py.truthy]. rewrite Hd. reflexivity. }
    rewrite (bind_ok _ _ _ _ _ Hdom).
    apply bind_exit.
    unfold AnsibleCloudStack.get_account. rewrite bind_gets.
    cbn [init_world self init_self account Py.truthy]. rewrite Ha, Hd.
    reflexivity. }
  unfold AnsibleCloudStackIso.main, AnsibleCloudStackIso.run.
  erewrite bind_exit; [reflexivity |].
  destruct (Py.in_list (param E "state") [VStr "absent"]).
  - unfold AnsibleCloudStackIso.remove_iso. apply bind_exit. exact Hget.
  - unfold AnsibleCloudStackIso.register_iso. apply bind_exit. exact Hget.
Qed.

Lemma account_needs_domain_witness :
  AnsibleCloudStackIso.main account_only_env
  = (Exit "Account must be specified with Domain", init_world).
Proof. apply account_needs_domain; reflexivity. Defined.

(** X25.  With a state other than [absent] outside check mode, no ISO
    found, the OS type check passed and a URL given, the module issues
    one [registerIso] call as its last call; the call carries the ids
    that the lookup resolved, the name also as [displaytext], and the
    URL.  If the call is refused the module fails with the platform's
    message; if it is answered with a list of ISOs whose first entry is a
    non-empty dict, the module ends well with [changed] true and reports
    the fields of that entry. *)
Theorem register_iso_registers_once (E : env) (i oid : value) (w1 w2 : world) :
  check_mode E = false ->
  Py.in_list (param E "state") [VStr "absent"] = false ->
  AnsibleCloudStackIso.get_iso E init_world = (Ok i, w1) ->
  Py.truthy i = false ->
  AnsibleCloudStack.get_os_type E (Some "id") w1 = (Ok oid, w2) ->
  Py.truthy (param E "bootable") && negb (Py.truthy oid) = false ->
  Py.truthy (param E "url") = true ->
  exists did a pid zid pre,
    log w1 = (pre ++ [Call "listIsos"
                        (AnsibleCloudStackIso.list_isos_args E did a pid zid)])%list /\
    log (snd (AnsibleCloudStackIso.main E))
    = (log w2 ++ [register_iso_call E zid did a pid oid])%list /\
    (forall msg, cs E (log w2) (register_iso_call E zid did a pid oid) = Fault msg ->
                 fst (AnsibleCloudStackIso.main E)
                 = Exit ("CloudStackException: " ++ msg)) /\
    (forall res l g,
        cs E (log w2) (register_iso_call E zid did a pid oid) = Reply res ->
        Py.getitem res "iso" = Ok l -> Py.first l = Ok (VDict g) -> g <> [] ->
        exists r, fst (AnsibleCloudStackIso.main E) = Ok r /\
                  Py.get r "changed" = VBool true /\
                  forall k rk v, In (k, rk) iso_fields -> Py.lookup k g = Some v ->
                                 Py.get r rk = v).
Proof.
  intros Hchk Hstate Hget Hi Hos Hboot Hurl.
  pose proof (get_iso_first _ _ _ Hget)
    as (did & a & pid & zid & pre & isos & chosen
        & Ad & Aa & Ap & Az & _ & _ & Hlog & _).
  exists did, a, pid, zid, pre. split; [exact Hlog |].
  set (w3 := {| self := set_result (Py.setitem (result (self w2)) "changed" (VBool true))
                                   (self w2);
                log := log w2 |}).
  assert (Hreg : AnsibleCloudStackIso.register_iso E init_world
                 = bind (api E "registerIso" (args (register_iso_call E zid did a pid oid)))
                        (fun res => lift (let! l := Py.getitem res "iso" in Py.first l))
                        w3).
  { unfold AnsibleCloudStackIso.register_iso.
    rewrite (bind_ok _ _ _ _ _ Hget), Hi. cbn [negb].
    rewrite (bind_ok _ _ _ _ _ (get_zone_again _ _ _ _ Az)).
    rewrite (bind_ok _ _ _ _ _ (get_domain_again _ _ _ _ Ad)).
    rewrite (bind_ok _ _ _ _ _ (get_account_again _ _ _ _ Aa)).
    rewrite (bind_ok _ _ _ _ _ (get_project_again _ _ _ _ Ap)).
    rewrite (bind_ok _ _ _ _ _ Hos).
    rewrite Hboot, Hurl, Hchk. cbn [negb].
    unfold mark_changed, result_set. rewrite bind_modify. reflexivity. }
  unfold AnsibleCloudStackIso.main, AnsibleCloudStackIso.run.
  rewrite Hstate.
  destruct (cs E (log w2) (register_iso_call E zid did a pid oid))
    as [res | msg] eqn:Hcs.
  - destruct (let! l := Py.getitem res "iso" in Py.first l) as [x | m | e] eqn:Hx.
    + assert (Hrun : AnsibleCloudStackIso.register_iso E init_world
                     = (Ok x, logged w3 (register_iso_call E zid did a pid oid))).
      { rewrite Hreg. rewrite (bind_api_reply _ _ _ res) by exact Hcs.
        cbn [args register_iso_call]. rewrite Hx. reflexivity. }
      rewrite (bind_ok _ _ _ _ _ Hrun).
      assert (Hlogs : forall o w', AnsibleCloudStackIso.get_result x
                                     (logged w3 (register_iso_call E zid did a pid oid))
                                   = (o, w') ->
                                   log w' = (log w2 ++ [register_iso_call E zid did a pid oid])%list).
      { intros o w' Hr.
        assert (Em : emits (fun _ => False) (AnsibleCloudStackIso.get_result x)).
        { unfold AnsibleCloudStackIso.get_result, AnsibleCloudStackIso.report.
          emits_go. }
        destruct (Em _ _ _ Hr) as (ext & Hl & HF).
        destruct ext as [| c ext]; [| inversion HF; contradiction].
        rewrite Hl, app_nil_r. reflexivity. }
      repeat apply conj.
      * destruct (AnsibleCloudStackIso.get_result x _) as [[r | m | []] w'] eqn:Hr;
          cbn [snd]; exact (Hlogs _ _ eq_refl).
      * discriminate.
      * intros res0 l g [= <-] Hl Hf Hg.
        rewrite Hl in Hx. cbn [obind] in Hx. rewrite Hf in Hx. injection Hx as <-.
        rewrite (iso_get_result_dict _ _ Hg).
        eexists. split; [reflexivity |]. destruct fields_nodup as [_ Ni]. split.
        -- rewrite reported_other; [apply get_setitem_same |].
           cbn. intros H; repeat (destruct H as [H | H]; [discriminate H |]); exact H.
        -- intros k rk v Hin Hk. rewrite (reported_field _ _ _ _ _ Ni Hin), Hk.
           reflexivity.
    + assert (Hrun : AnsibleCloudStackIso.register_iso E init_world
                     = (Exit m, logged w3 (register_iso_call E zid did a pid oid))).
      { rewrite Hreg. rewrite (bind_api_reply _ _ _ res) by exact Hcs.
        cbn [args register_iso_call]. rewrite Hx. reflexivity. }
      rewrite (bind_exit _ _ _ _ _ Hrun).
      repeat apply conj; [reflexivity | discriminate |].
      intros res0 l g [= <-] Hl Hf Hg.
      rewrite Hl in Hx. cbn [obind] in Hx. rewrite Hf in Hx. discriminate.
    + assert (Hrun : AnsibleCloudStackIso.register_iso E init_world
                     = (Raise e, logged w3 (register_iso_call E zid did a pid oid))).
      { rewrite Hreg. rewrite (bind_api_reply _ _ _ res) by exact Hcs.
        cbn [args register_iso_call]. rewrite Hx. reflexivity. }
      rewrite (bind_raise _ _ _ _ _ Hrun).
      repeat apply conj; [destruct e; reflexivity | discriminate |].
      intros res0 l g [= <-] Hl Hf Hg.
      rewrite Hl in Hx. cbn [obind] in Hx. rewrite Hf in Hx. discriminate.
  - assert (Hrun : AnsibleCloudStackIso.register_iso E init_world
                   = (Raise (CloudStackException msg),
                      logged w3 (register_iso_call E zid did a pid oid))).
    { rewrite Hreg. unfold bind, api. cbn [log w3 args register_iso_call].
      unfold register_iso_call in Hcs. rewrite Hcs. reflexivity. }
    rewrite (bind_raise _ _ _ _ _ Hrun).
    repeat apply conj.
    + reflexivity.
    + intros ? [= <-]. reflexivity.
    + discriminate.
Qed.

Lemma register_iso_registers_once_witness :
  exists did a pid zid pre,
    log register_w1
    = (pre ++ [Call "listIsos"
                 (AnsibleCloudStackIso.list_isos_args register_env did a pid zid)])%list /\
    log (snd (AnsibleCloudStackIso.main register_env))
    = (log register_w2
         ++ [register_iso_call register_env zid did a pid (VStr "os1")])%list /\
    (forall msg,
        cs register_env (log register_w2)
           (register_iso_call register_env zid did a pid (VStr "os1")) = Fault msg ->
        fst (AnsibleCloudStackIso.main register_env)
        = Exit ("CloudStackException: " ++ msg)) /\
    (forall res l g,
        cs register_env (log register_w2)
           (register_iso_call register_env zid did a pid (VStr "os1")) = Reply res ->
        Py.getitem res "iso" = Ok l -> Py.first l = Ok (VDict g) -> g <> [] ->
        exists r, fst (AnsibleCloudStackIso.main register_env) = Ok r /\
                  Py.get r "changed" = VBool true /\
                  forall k rk v, In (k, rk) iso_fields -> Py.lookup k g = Some v ->
                                 Py.get r rk = v).
Proof.
  apply (register_iso_registers_once register_env VNone (VStr "os1")
                                     register_w1 register_w2);
    reflexivity.
Defined.


(** ** Domains directly below the root *)

Lemma split_single (name : string) :
  Py.is_sub "/" name = false -> Py.split_slash name = [name].
Proof.
  induction name as [| c r IH]; [reflexivity |]. intros H.
  cbn [Py.split_slash].
  destruct (Ascii.eqb_spec c "/") as [-> | Hc].
  { assert (Hp : String.prefix "/" (String "/" r) = true)
      by (apply String.prefix_correct; cbn; destruct r; reflexivity).
    change (Py.is_sub "/" (String "/" r))
      with (String.prefix "/" (String "/" r) || Py.is_sub "/" r) in H.
    rewrite Hp in H. discriminate H. }
  rewrite (is_sub_slash_cons _ _ Hc) in H. rewrite (IH H). reflexivity.
Qed.

Lemma parent_below_root (name p : string) :
  Py.is_sub "/" name = false ->
  In p (below_root name) ->
  Py.endswith_char (Py.join_slash (Py.but_last (Py.split_slash p))) "/" = false /\
  (AnsibleCloudStackDomain.rooted (Py.join_slash (Py.but_last (Py.split_slash p)))
   = "root/" \/
   AnsibleCloudStackDomain.rooted (Py.join_slash (Py.but_last (Py.split_slash p)))
   = "root/root").
Proof.
  intros Hn Hin. unfold below_root in Hin.
  destruct Hin as [<- | [<- | [<- | [<- | []]]]].
  - rewrite (split_single _ Hn). split; [reflexivity | left; reflexivity].
  - change (Py.split_slash ("/" ++ name)) with ("" :: Py.split_slash name).
    rewrite (split_single _ Hn). split; [reflexivity | left; reflexivity].
  - assert (Hs : Py.split_slash ("ROOT/" ++ name) = ["ROOT"; name]).
    { cbn. rewrite (split_single _ Hn). reflexivity. }
    rewrite Hs. split; [reflexivity | right; reflexivity].
  - assert (Hs : Py.split_slash ("/ROOT/" ++ name) = [""; "ROOT"; name]).
    { cbn. rewrite (split_single _ Hn). reflexivity. }
    rewrite Hs. split; [reflexivity | right; reflexivity].
Qed.

(** X26.  The parent of a domain directly below the root is never found.
    Whether the path of the domain is written [name], [/name],
    [ROOT/name] or [/ROOT/name], [get_parent_domain] looks for the path
    [root/] or [root/root]; on a platform that lists no domain with such
    a path it ends, after the one [listDomains] call, in the [TypeError]
    of its own message. *)
Theorem no_domain_directly_below_root (E : env) (name p : string)
        (key : option string) (w : world) (resp : value) :
  Py.is_sub "/" name = false ->
  In p (below_root name) ->
  param E "path" = VStr p ->
  cs E (log w) list_domains = Reply resp ->
  lists_no_root_child resp ->
  AnsibleCloudStackDomain.get_parent_domain E key w
  = (Raise TypeError, logged w list_domains).
Proof.
  intros Hn Hin Hpath Hcs Hlist.
  destruct (parent_below_root _ _ Hn Hin) as [Hend Hroot].
  set (pp := Py.join_slash (Py.but_last (Py.split_slash p))) in *.
  assert (Hno : no_domain_matches pp resp).
  { destruct Hlist as [Hf | (l & Hl & Hall)]; [left; exact Hf |].
    right. exists l. split; [exact Hl |].
    eapply Forall_impl; [| exact Hall].
    intros x (f & dp & Hx & Hp & H1 & H2). exists f, dp.
    split; [exact Hx |]. split; [exact Hp |].
    rewrite lower_rooted. destruct Hroot as [-> | ->]; assumption. }
  unfold AnsibleCloudStackDomain.get_parent_domain. rewrite Hpath. fold pp.
  rewrite (bind_ok _ _ _ _ _ (get_domain_internal_none _ _ resp _ Hend Hcs Hno)).
  reflexivity.
Qed.

Lemma no_domain_directly_below_root_witness :
  AnsibleCloudStackDomain.get_parent_domain scenario_A (Some "id") init_world
  = (Raise TypeError, logged init_world list_domains).
Proof.
  apply (no_domain_directly_below_root
           scenario_A "customers" "/ROOT/customers" (Some "id") init_world
           (Py.get root_only "listDomains")).
  - reflexivity.
  - right; right; right; left; reflexivity.
  - reflexivity.
  - reflexivity.
  - right. exists [root_domain]. split; [reflexivity |].
    constructor; [| constructor].
    exists [("id", VStr "1"); ("name", VStr "ROOT"); ("path", VStr "ROOT")], "ROOT".
    repeat apply conj; try reflexivity; discriminate.
Defined.
